(** * A DLNA/UPnP media server, module by module

    Shallow embedding of the Python sources [net.py], [http_.py], [didl.py],
    [xml_.py], [soap.py], [media.py] and [ssdp.py], followed by the
    properties of the specification that are stated over it and by more
    properties of the code.

    Conventions.  Python [int] is [Z]; [str] is [string]; a file's contents
    are a [list Byte.byte]; a raised exception is the [Raise] branch of
    [Py.result]; a [dict] whose iteration order is observable is an
    association list in insertion order. *)

From Stdlib Require Import ZArith NArith String Ascii List Bool Lia.
From Stdlib Require Import DecimalString DecimalZ DecimalN DecimalPos.
Import ListNotations.

Set Warnings "-register-all".

Local Open Scope string_scope.
Local Open Scope list_scope.
Local Open Scope Z_scope.

(** ** The Python built-ins the sources rely on *)

Module Py.

Inductive exn : Type :=
| ValueError
| AttributeError (name : string)
| KeyError (key : string)
| OSError
| ParseError.

Inductive result (A : Type) : Type :=
| Ok (a : A)
| Raise (e : exn).

Arguments Ok {A} a.
Arguments Raise {A} e.

Definition bind {A B : Type} (c : result A) (k : A -> result B) : result B :=
  match c with
  | Ok a => k a
  | Raise e => Raise e
  end.

Definition is_ok {A : Type} (r : result A) : bool :=
  match r with
  | Ok _ => true
  | Raise _ => false
  end.

(** [str(n)] for an [int]. *)
Definition str_int (z : Z) : string := NilEmpty.string_of_int (Z.to_int z).

(** Truth value of a [str]: non-empty. *)
Definition truthy (s : string) : bool :=
  match s with
  | EmptyString => false
  | String _ _ => true
  end.

Definition is_digit (c : ascii) : bool :=
  let n := nat_of_ascii c in ((48 <=? n)%nat && (n <=? 57)%nat)%bool.

Fixpoint all_digits (s : string) : bool :=
  match s with
  | EmptyString => true
  | String c r => (is_digit c && all_digits r)%bool
  end.

(** [int(s)] on a run of decimal digits; the empty run is a [ValueError]. *)
Definition int_digits (s : string) : result Z :=
  if truthy s then
    match NilEmpty.uint_of_string s with
    | Some d => Ok (Z.of_uint d)
    | None => Raise ValueError
    end
  else Raise ValueError.

(** [int(s)] on a signed decimal literal.  (Python also strips blanks and
    accepts single underscores between digits; no path of the program
    depends on either.) *)
Definition int_ (s : string) : result Z :=
  match s with
  | String "-"%char d => bind (int_digits d) (fun z => Ok (- z))
  | String "+"%char d => int_digits d
  | _ => int_digits s
  end.

(** The built-in [len(x)]: it calls [x.__len__()] and raises [ValueError]
    when the answer is negative. *)
Definition len (dunder_len : Z) : result Z :=
  if dunder_len <? 0 then Raise ValueError else Ok dunder_len.

(** [l[start:stop]] on a list, with Python's treatment of negative and
    out-of-range bounds. *)
Definition clamp_index (n i : Z) : Z :=
  let i := if i <? 0 then i + n else i in
  if i <? 0 then 0 else if n <? i then n else i.

Definition slice {A : Type} (l : list A) (start stop : Z) : list A :=
  let n := Z.of_nat (List.length l) in
  let lo := clamp_index n start in
  let hi := clamp_index n stop in
  firstn (Z.to_nat (hi - lo)) (skipn (Z.to_nat lo) l).

Definition lower_ascii (c : ascii) : ascii :=
  let n := nat_of_ascii c in
  if ((65 <=? n)%nat && (n <=? 90)%nat)%bool then ascii_of_nat (n + 32) else c.

(** [s.lower()] on ASCII text. *)
Fixpoint lower (s : string) : string :=
  match s with
  | EmptyString => EmptyString
  | String c r => String (lower_ascii c) (lower r)
  end.

(** [sep.join(parts)]. *)
Fixpoint join (sep : string) (parts : list string) : string :=
  match parts with
  | [] => EmptyString
  | [p] => p
  | p :: ps => (p ++ sep ++ join sep ps)%string
  end.

(** [s.split(c)] for a one-character separator. *)
Fixpoint split (c : ascii) (s : string) : list string :=
  match s with
  | EmptyString => [EmptyString]
  | String a r =>
      if Ascii.eqb a c then EmptyString :: split c r
      else match split c r with
           | [] => [String a EmptyString]
           | w :: ws => String a w :: ws
           end
  end.

(** A [dict] with [str] keys, in insertion order: [d.get(k)], [d[k] = v]
    (a key already present keeps its place) and [del d[k]]. *)
Fixpoint dict_get {V : Type} (d : list (string * V)) (k : string) : option V :=
  match d with
  | [] => None
  | (k', v) :: r => if String.eqb k' k then Some v else dict_get r k
  end.

Fixpoint dict_set {V : Type} (d : list (string * V)) (k : string) (v : V)
  : list (string * V) :=
  match d with
  | [] => [(k, v)]
  | (k', v') :: r =>
      if String.eqb k' k then (k, v) :: r else (k', v') :: dict_set r k v
  end.

Fixpoint dict_del {V : Type} (d : list (string * V)) (k : string)
  : list (string * V) :=
  match d with
  | [] => []
  | (k', v') :: r =>
      if String.eqb k' k then r else (k', v') :: dict_del r k
  end.

(** No key twice. *)
Fixpoint distinct (keys : list string) : bool :=
  match keys with
  | [] => true
  | k :: r => (negb (existsb (String.eqb k) r) && distinct r)%bool
  end.

Definition dict_has {V : Type} (d : list (string * V)) (k : string) : bool :=
  match dict_get d k with
  | Some _ => true
  | None => false
  end.

(** [s.isascii()]. *)
Fixpoint isascii (s : string) : bool :=
  match s with
  | EmptyString => true
  | String c r => ((nat_of_ascii c <? 128)%nat && isascii r)%bool
  end.

End Py.

Notation "x <- c ;; k" := (Py.bind c (fun x => k))
  (at level 61, c at next level, right associativity).

(** ** net.py *)

Module net.

(** [\w] on ASCII text: letters, digits and the underscore. *)
Definition is_word (c : ascii) : bool :=
  let n := nat_of_ascii c in
  (Py.is_digit c
   || ((65 <=? n)%nat && (n <=? 90)%nat)
   || ((97 <=? n)%nat && (n <=? 122)%nat)
   || (n =? 95)%nat)%bool.

(** [_re_alnum.sub("_", method)]: every maximal run of non-word characters
    becomes one underscore.  [in_run] tells that the previous character
    already belonged to the run being replaced. *)
Fixpoint sub_alnum (in_run : bool) (s : string) : string :=
  match s with
  | EmptyString => EmptyString
  | String c r =>
      if is_word c then String c (sub_alnum false r)
      else if in_run then sub_alnum true r
      else String "_"%char (sub_alnum true r)
  end.

Definition safe_identifier (method : string) : string :=
  Py.lower (sub_alnum false method).

End net.

(** ** http_.py *)

Module http_.

Module Header.
Definition HOST := "Host".
Definition RANGE := "Range".
Definition LOCATION := "Location".
Definition CONTENT_TYPE := "Content-Type".
Definition CACHE_CONTROL := "Cache-Control".
Definition CONTENT_RANGE := "Content-Range".
Definition CONTENT_LENGTH := "Content-Length".
End Header.

(** The members of [http.HTTPStatus] that the program sends. *)
Inductive HTTPStatus : Type :=
| OK
| PARTIAL_CONTENT
| BAD_REQUEST
| NOT_FOUND
| REQUESTED_RANGE_NOT_SATISFIABLE
| INTERNAL_SERVER_ERROR.

Definition status_value (s : HTTPStatus) : Z :=
  match s with
  | OK => 200
  | PARTIAL_CONTENT => 206
  | BAD_REQUEST => 400
  | NOT_FOUND => 404
  | REQUESTED_RANGE_NOT_SATISFIABLE => 416
  | INTERNAL_SERVER_ERROR => 500
  end.

(** Request headers, looked up without regard to case as
    [email.message.Message.get] does. *)
Definition headers := list (string * string).

Fixpoint headers_find (h : headers) (name : string) : option string :=
  match h with
  | [] => None
  | (k, v) :: r =>
      if String.eqb (Py.lower k) (Py.lower name) then Some v
      else headers_find r name
  end.

Definition headers_get (h : headers) (name default : string) : string :=
  match headers_find h name with
  | Some v => v
  | None => default
  end.

(** A regular file as the handler sees it: its bytes and the MIME string
    libmagic reports for it. *)
Record File : Type := { data : list Byte.byte; magic : string }.

Definition st_size (f : File) : Z := Z.of_nat (List.length (data f)).

(** What a handler puts on the wire: a reply built header by header, or the
    error page of [BaseHTTPRequestHandler.send_error]. *)
Inductive reply : Type :=
| Content (status : HTTPStatus) (sent : headers) (body : list Byte.byte)
| ErrorPage (status : HTTPStatus).

Module Range.

(** The longest prefix of decimal digits and what follows it: the greedy
    [\d+] of the pattern, which never has to give a digit back because the
    pattern continues with ["-"] or the end of the text. *)
Fixpoint span_digits (s : string) : string * string :=
  match s with
  | EmptyString => (EmptyString, EmptyString)
  | String c r =>
      if Py.is_digit c
      then let (d, t) := span_digits r in (String c d, t)
      else (EmptyString, s)
  end.

Fixpoint strip_prefix (p s : string) : option string :=
  match p, s with
  | EmptyString, _ => Some s
  | String a p', String b s' =>
      if Ascii.eqb a b then strip_prefix p' s' else None
  | String _ _, EmptyString => None
  end.

(** [_parser.fullmatch(header)] for [bytes=(\d+)-(\d+)?]: the two groups,
    the second absent when it took part in no match. *)
Definition _parser (header : string) : option (string * option string) :=
  match strip_prefix "bytes=" header with
  | None => None
  | Some r =>
      match span_digits r with
      | (EmptyString, _) => None
      | (d1, String "-"%char r2) =>
          match span_digits r2 with
          | (d2, EmptyString) =>
              Some (d1, if Py.truthy d2 then Some d2 else None)
          | (_, String _ _) => None
          end
      | (_, _) => None
      end
  end.

Record t : Type := { _partial : bool; size : Z; start : Z; end_ : Z }.

Definition __init__ (path : File) (header : string) : Py.result t :=
  let m := _parser header in
  let groups :=
    match m with
    | Some (s, e) => (Some s, e)
    | None => (None, None)
    end in
  let size := st_size path in
  start <- match fst groups with
           | Some s => if Py.truthy s then Py.int_ s else Py.Ok 0
           | None => Py.Ok 0
           end ;;
  end_ <- match snd groups with
          | Some e => if Py.truthy e then Py.int_ e else Py.Ok (size - 1)
          | None => Py.Ok (size - 1)
          end ;;
  Py.Ok {| _partial := match m with Some _ => true | None => false end;
           size := size; start := start; end_ := end_ |}.

Definition __bool__ (self : t) : bool := _partial self.

Definition __str__ (self : t) : string :=
  ("bytes " ++ Py.str_int (start self) ++ "-" ++ Py.str_int (end_ self)
   ++ "/" ++ Py.str_int (size self))%string.

Definition __len__ (self : t) : Z := end_ self - start self + 1.

End Range.

Module Handler.

(** [socket.sendfile(fp, offset, count)]: [count] bytes from [offset], or
    fewer when the file ends first. *)
Definition copyfile (fp : list Byte.byte) (offset count : Z) : list Byte.byte :=
  firstn (Z.to_nat count) (skipn (Z.to_nat offset) fp).

Definition send_response_content (code : HTTPStatus) (type : string) (size : Z)
  : headers :=
  [(Header.CONTENT_TYPE, type); (Header.CONTENT_LENGTH, Py.str_int size)].

Definition send_file (path : File) (range : option Range.t) : Py.result reply :=
  range <- match range with
           | None => Range.__init__ path ""
           | Some r => Py.Ok r
           end ;;
  n <- Py.len (Range.__len__ range) ;;
  if n <=? 0 then Py.Ok (ErrorPage REQUESTED_RANGE_NOT_SATISFIABLE)
  else
    let status := if Range.__bool__ range then PARTIAL_CONTENT else OK in
    let sent :=
      send_response_content status (magic path) n
      ++ (if Range.__bool__ range
          then [(Header.CONTENT_RANGE, Range.__str__ range)]
          else []) in
    Py.Ok (Content status sent (copyfile (data path) (Range.start range) n)).

(** [send_text]: the text is sent as its bytes (ASCII here). *)
Definition send_text (mime text : string) (code : HTTPStatus) : reply :=
  let data := list_byte_of_string text in
  Content code (send_response_content code mime (Z.of_nat (List.length data))) data.

End Handler.

End http_.


(** ** pathlib: the pure POSIX paths the sources build on

    A parsed path is its root ([""], ["/"] or ["//"]) and the names that
    follow; POSIX paths have no drive.  The operations follow
    [pathlib.PurePosixPath] (CPython 3.9 to 3.11). *)

Module pathlib.

Record PurePath : Type := { root : string; names : list string }.

Fixpoint lstrip_sep (s : string) : string :=
  match s with
  | String "/"%char r => lstrip_sep r
  | _ => s
  end.

(** [_PosixFlavour.splitroot]: exactly two leading slashes are kept apart,
    any other number counts as one. *)
Definition splitroot (part : string) : string * string :=
  match part with
  | String "/"%char _ =>
      let stripped := lstrip_sep part in
      if (String.length part - String.length stripped =? 2)%nat
      then ("//", stripped) else ("/", stripped)
  | _ => ("", part)
  end.

Definition keep_name (x : string) : bool :=
  (Py.truthy x && negb (String.eqb x "."))%bool.

Definition rel_names (rel : string) : list string :=
  filter keep_name (Py.split "/" rel).

(** [parse_parts] walks its arguments from the last one backwards and stops
    at the first that carries a root; [parse_rev] is that walk, on the
    reversed argument list. *)
Fixpoint parse_rev (rparts : list string) : PurePath :=
  match rparts with
  | [] => {| root := ""; names := [] |}
  | part :: rest =>
      let (r, rel) := splitroot part in
      if Py.truthy r then {| root := r; names := rel_names rel |}
      else let p := parse_rev rest in
           {| root := root p; names := names p ++ rel_names rel |}
  end.

Definition parse_parts (parts : list string) : PurePath :=
  parse_rev (rev parts).

(** [_parts]: the anchor, when there is one, then the names.  This is what
    a path contributes when it is passed as an argument of a constructor. *)
Definition _parts (p : PurePath) : list string :=
  if Py.truthy (root p) then root p :: names p else names p.

Definition __str__ (p : PurePath) : string :=
  let s := (root p ++ Py.join "/" (names p))%string in
  if Py.truthy s then s else ".".

Fixpoint parts_eqb (a b : list string) : bool :=
  match a, b with
  | [], [] => true
  | x :: a', y :: b' => (String.eqb x y && parts_eqb a' b')%bool
  | _, _ => false
  end.

Definition __eq__ (p q : PurePath) : bool := parts_eqb (_parts p) (_parts q).

(** [relative_to]: both paths are laid out as drive, root, names (when they
    have a root) and the second must be a prefix of the first. *)
Definition abs_parts (p : PurePath) : list string :=
  if Py.truthy (root p) then "" :: root p :: names p else names p.

Definition relative_to (self other : PurePath) : Py.result PurePath :=
  let abs := abs_parts self in
  let to_abs := abs_parts other in
  let n := List.length to_abs in
  if (if (n =? 0)%nat then Py.truthy (root self)
      else negb (parts_eqb (firstn n abs) to_abs))
  then Py.Raise Py.ValueError
  else Py.Ok {| root := if (n =? 1)%nat then root self else "";
                names := skipn n abs |}.

(** [self / key]: a key with a root replaces the path, any other is
    appended. *)
Definition __truediv__ (self key : PurePath) : PurePath :=
  let k := parse_parts (_parts key) in
  if Py.truthy (root k) then k
  else {| root := root self; names := names self ++ names k |}.

(** The child of a directory that a scan reports under [name]. *)
Definition _make_child_relpath (self : PurePath) (name : string) : PurePath :=
  {| root := root self; names := names self ++ [name] |}.

Definition name (p : PurePath) : string := last (names p) "".

Definition parent (p : PurePath) : PurePath :=
  {| root := root p; names := removelast (names p) |}.

(** Paths as the parser produces them. *)
Fixpoint has_sep (s : string) : bool :=
  match s with
  | EmptyString => false
  | String c r => (Ascii.eqb c "/" || has_sep r)%bool
  end.

Definition valid_name (x : string) : bool :=
  (keep_name x && negb (has_sep x))%bool.

Definition valid_root (r : string) : bool :=
  (String.eqb r "" || String.eqb r "/" || String.eqb r "//")%bool.

Definition wf (p : PurePath) : bool :=
  (valid_root (root p) && forallb valid_name (names p))%bool.

End pathlib.

(** ** didl.py: object identifiers *)

Module IdPath.

Import pathlib.

Definition cls (args : list string) : PurePath := parse_parts args.

Definition from_id (id : string) : PurePath :=
  if String.eqb id "0" then cls ["/"] else cls [id].

Definition as_id (self : PurePath) : string :=
  if __eq__ self (cls ["/"]) then "0" else __str__ self.

Definition from_path (root path : PurePath) : Py.result PurePath :=
  rel <- relative_to path root ;;
  Py.Ok (cls ("/" :: _parts rel)).

Definition as_path (self root : PurePath) : Py.result PurePath :=
  rel <- relative_to self (cls ["/"]) ;;
  Py.Ok (__truediv__ root rel).

End IdPath.

(** ** xml_.py

    An [ElementTree] element is its tag (["{uri}local"] when it has a
    namespace), its attributes, its text ([""] when it has none) and its
    children. *)

Module xml_.

Inductive Element : Type :=
| Elem (tag : string) (attrib : list (string * string)) (text : string)
       (children : list Element).

Definition tag (e : Element) : string := let (t, _, _, _) := e in t.
Definition attrib (e : Element) : list (string * string) := let (_, a, _, _) := e in a.
Definition text (e : Element) : string := let (_, _, x, _) := e in x.
Definition children (e : Element) : list Element := let (_, _, _, c) := e in c.

Inductive arg : Type :=
| Child (e : Element)
| Scalar (s : string).

Definition namespaces : list (string * string) :=
  [ ("soap", "http://schemas.xmlsoap.org/soap/envelope/");
    ("dc", "http://purl.org/dc/elements/1.1/");
    ("upnp", "urn:schemas-upnp-org:metadata-1-0/upnp/");
    ("dlna", "urn:schemas-upnp-org:metadata-1-0/DIDL-Lite/");
    ("dev", "urn:schemas-upnp-org:device-1-0");
    ("ctrl", "urn:schemas-upnp-org:control-1-0");
    ("srv", "urn:schemas-upnp-org:service-1-0");
    ("cd", "urn:schemas-upnp-org:service:ContentDirectory:1") ].

Definition _qname (namespace local : string) : Py.result string :=
  match Py.dict_get namespaces namespace with
  | Some uri => Py.Ok ("{" ++ uri ++ "}" ++ local)%string
  | None => Py.Raise (Py.KeyError namespace)
  end.

Fixpoint qualify (namespace : string) (kwds : list (string * string))
  : Py.result (list (string * string)) :=
  match kwds with
  | [] => Py.Ok []
  | (k, v) :: r =>
      q <- _qname namespace k ;;
      qs <- qualify namespace r ;;
      Py.Ok ((q, v) :: qs)
  end.

Definition place (el : Element) (a : arg) : Element :=
  let (t, at_, x, cs) := el in
  match a with
  | Child c => Elem t at_ x (cs ++ [c])
  | Scalar s => Elem t at_ s cs
  end.

Definition element (qname : string) (args : list arg)
           (kwds : list (string * string)) : Py.result Element :=
  match Py.split ":" qname with
  | [namespace; local] =>
      t <- _qname namespace local ;;
      at_ <- qualify namespace kwds ;;
      Py.Ok (fold_left place args (Elem t at_ "" []))
  | _ => Py.Raise Py.ValueError
  end.

Fixpoint ends_with (suffix s : string) : bool :=
  (String.eqb s suffix
   || match s with
      | EmptyString => false
      | String _ r => ends_with suffix r
      end)%bool.

(** The step [{*}key] of an ElementPath: the tag itself, or any tag that
    ends with ["}key"]. *)
Definition matches (key t : string) : bool :=
  (String.eqb t key || ends_with ("}" ++ key) t)%bool.

Definition first_some {A B : Type} (f : A -> option B) : list A -> option B :=
  fix go (l : list A) : option B :=
    match l with
    | [] => None
    | x :: r => match f x with
                | Some b => Some b
                | None => go r
                end
    end.

(** First element in document order, the element itself included. *)
Fixpoint find_self (key : string) (e : Element) : option Element :=
  let (t, _, _, cs) := e in
  if matches key t then Some e else first_some (find_self key) cs.

(** [element.find(".//{*}key")]: first proper descendant in document
    order. *)
Definition find (key : string) (e : Element) : option Element :=
  first_some (find_self key) (children e).

Definition first_map {A : Type} (f : A -> option A) : list A -> option (list A) :=
  fix go (l : list A) : option (list A) :=
    match l with
    | [] => None
    | x :: r => match f x with
                | Some y => Some (y :: r)
                | None => match go r with
                          | Some r' => Some (x :: r')
                          | None => None
                          end
                end
    end.

(** The tree after [el.text = value] on the element [find_self] returns. *)
Fixpoint assign_self (key value : string) (e : Element) : option Element :=
  let (t, at_, x, cs) := e in
  if matches key t then Some (Elem t at_ value cs)
  else match first_map (assign_self key value) cs with
       | Some cs' => Some (Elem t at_ x cs')
       | None => None
       end.

Definition assign (key value : string) (e : Element) : option Element :=
  let (t, at_, x, cs) := e in
  match first_map (assign_self key value) cs with
  | Some cs' => Some (Elem t at_ x cs')
  | None => None
  end.

(** [format(element, **kwds)], the values already converted by [str]. *)
Fixpoint format (e : Element) (kwds : list (string * string))
  : Py.result Element :=
  match kwds with
  | [] => Py.Ok e
  | (key, value) :: r =>
      match assign key value e with
      | None => Py.Raise (Py.AttributeError key)
      | Some e' => format e' r
      end
  end.

Definition find_text (e : Element) (qname : string) : Py.result string :=
  match find qname e with
  | None => Py.Raise (Py.AttributeError qname)
  | Some el => Py.Ok (text el)
  end.

(** [_re_namespace.search(tag)] for [{(.+)}]: from the first brace that is
    followed by a closing one at distance two or more, up to the last
    closing brace. *)
Fixpoint upto_last_close (s : string) : option string :=
  match s with
  | EmptyString => None
  | String c r =>
      match upto_last_close r with
      | Some g => Some (String c g)
      | None => if Ascii.eqb c "}" then Some EmptyString else None
      end
  end.

Fixpoint namespace_of (t : string) : option string :=
  match t with
  | EmptyString => None
  | String c r =>
      if Ascii.eqb c "{" then
        match upto_last_close r with
        | Some (String a g) => Some (String a g)
        | _ => namespace_of r
        end
      else namespace_of r
  end.

(** [element.find(".//{}*")]: is some proper descendant outside every
    namespace? *)
Fixpoint bare_self (e : Element) : bool :=
  let (t, _, _, cs) := e in
  (match t with String "{"%char _ => false | _ => true end
   || existsb bare_self cs)%bool.

(** [serialize]; [tostring e ns] stands for
    [ElementTree.tostring(e, encoding="unicode", xml_declaration=True,
    default_namespace=ns)]. *)
Definition serialize (tostring : Element -> option string -> string)
           (e : Element) : string :=
  let namespace :=
    match namespace_of (tag e) with
    | None => None
    | Some ns => if existsb bare_self (children e) then None else Some ns
    end in
  tostring e namespace.

End xml_.

(** ** The machine the server runs on

    What the sources obtain from outside themselves: the directory tree
    under the media root, the template files, the clock, and the library
    routines whose results the properties below do not look into. *)

Module host.

(** A file or a directory below the media root, with its modification
    time; a directory lists its entries in the order a scan reports them.
    Names are looked up as they are written: the tree has no [..] entries
    and no symbolic links. *)
Inductive node : Type :=
| Regular (f : http_.File) (st_mtime : Z)
| Directory (st_mtime : Z) (entries : list (string * node)).

Record t : Type := {
  media : pathlib.PurePath;            (* the media root *)
  tree : node;                          (* what is found at the media root *)
  now : Z;                              (* [int(datetime.now().timestamp())] *)
  templates : string -> option http_.File;   (* [etc/templates/<name>.xml] *)
  fromstring : string -> option xml_.Element;  (* [ElementTree.fromstring] *)
  tostring : xml_.Element -> option string -> string;
  as_uri : pathlib.PurePath -> string -> string  (* [UrlPath.as_uri(base)] *)
}.

Fixpoint walk (n : node) (names : list string) : option node :=
  match names with
  | [] => Some n
  | x :: r =>
      match n with
      | Directory _ es =>
          match Py.dict_get es x with
          | Some c => walk c r
          | None => None
          end
      | Regular _ _ => None
      end
  end.

(** What a path designates, if anything. *)
Definition stat (h : t) (p : pathlib.PurePath) : option node :=
  match pathlib.relative_to p (media h) with
  | Py.Ok rel => walk (tree h) (pathlib.names rel)
  | Py.Raise _ => None
  end.

(** The paths the server reaches: the media root followed by names. *)
Definition below (h : t) (ys : list string) : pathlib.PurePath :=
  {| pathlib.root := pathlib.root (media h);
     pathlib.names := pathlib.names (media h) ++ ys |}.

Definition is_dir (h : t) (p : pathlib.PurePath) : bool :=
  match stat h p with
  | Some (Directory _ _) => true
  | _ => false
  end.

Definition is_file (h : t) (p : pathlib.PurePath) : bool :=
  match stat h p with
  | Some (Regular _ _) => true
  | _ => false
  end.

Definition scan (p : pathlib.PurePath) (es : list (string * node))
  : list pathlib.PurePath :=
  map (fun e => pathlib._make_child_relpath p (fst e)) es.

(** [path.glob("*")]: the entries of a directory, nothing for anything
    else. *)
Definition glob (h : t) (p : pathlib.PurePath) : list pathlib.PurePath :=
  match stat h p with
  | Some (Directory _ es) => scan p es
  | _ => []
  end.

(** [path.rglob("*")]: the directories below [p] are visited parent first
    and each one contributes its entries. *)
Fixpoint rglob_node (p : pathlib.PurePath) (n : node) : list pathlib.PurePath :=
  match n with
  | Regular _ _ => []
  | Directory _ es =>
      scan p es
      ++ flat_map (fun e : string * node => let (x, c) := e in
                            rglob_node (pathlib._make_child_relpath p x) c) es
  end.

Definition rglob (h : t) (p : pathlib.PurePath) : list pathlib.PurePath :=
  match stat h p with
  | Some n => rglob_node p n
  | None => []
  end.

(** A tree as a file system holds it: within a directory every name is a
    path component and occurs once. *)
Fixpoint sound (n : node) : bool :=
  match n with
  | Regular _ _ => true
  | Directory _ es =>
      (forallb pathlib.valid_name (map fst es)
       && Py.distinct (map fst es)
       && forallb (fun e : string * node => sound (snd e)) es)%bool
  end.

End host.

(** ** didl.py: objects *)

Module Object.

Import pathlib.

Record t : Type := {
  root : PurePath;
  url : string;
  id_path : PurePath;
  command : string
}.

Definition __init__ (root : PurePath) (url id command : string) : t :=
  {| root := root; url := url; id_path := IdPath.from_id id;
     command := command |}.

Definition path (self : t) : Py.result PurePath :=
  IdPath.as_path (id_path self) (root self).

(** [magic.detect_from_filename(path).mime_type]. *)
Definition mime (h : host.t) (self : t) : Py.result string :=
  p <- path self ;;
  match host.stat h p with
  | Some (host.Regular f _) => Py.Ok (http_.magic f)
  | Some (host.Directory _ _) => Py.Ok "inode/directory"
  | None => Py.Raise Py.OSError
  end.

Definition mime_type (h : host.t) (self : t) : Py.result string :=
  m <- mime h self ;;
  Py.Ok (hd "" (Py.split "/" m)).

Definition qname (h : host.t) (self : t) : Py.result string :=
  p <- path self ;;
  Py.Ok (if host.is_dir h p then "dlna:container" else "dlna:item").

Definition uclass (h : host.t) (self : t) : Py.result string :=
  p <- path self ;;
  if host.is_dir h p then Py.Ok "object.container"
  else (m <- mime_type h self ;; Py.Ok ("object.item." ++ m ++ "Item")%string).

Definition update (h : host.t) (self : t) : Py.result Z :=
  p <- path self ;;
  if __eq__ p (root self) then Py.Ok (host.now h)
  else match host.stat h p with
       | Some (host.Regular _ m) => Py.Ok m
       | Some (host.Directory m _) => Py.Ok m
       | None => Py.Raise Py.OSError
       end.

Definition id (self : t) : string := IdPath.as_id (id_path self).

Definition parent_id (self : t) : string := IdPath.as_id (parent (id_path self)).

Definition media_class (m : string) : bool :=
  (String.eqb m "image" || String.eqb m "audio" || String.eqb m "video")%bool.

(** The test of [__iter__] on one candidate: [mime_type] is only asked for
    when the path is not a directory. *)
Definition admitted (h : host.t) (element : t) : Py.result bool :=
  p <- path element ;;
  if host.is_dir h p then Py.Ok true
  else (m <- mime_type h element ;; Py.Ok (media_class m)).

Fixpoint select (h : host.t) (self : t) (result : list PurePath)
  : Py.result (list t) :=
  match result with
  | [] => Py.Ok []
  | p :: rest =>
      i <- IdPath.from_path (root self) p ;;
      let element := __init__ (root self) (url self) (IdPath.as_id i) "browse" in
      keep <- admitted h element ;;
      more <- select h self rest ;;
      Py.Ok (if keep then element :: more else more)
  end.

(** [list(iter(self))]: the generator run to its end. *)
Definition __iter__ (h : host.t) (self : t) : Py.result (list t) :=
  if String.eqb (command self) "browse" then
    (p <- path self ;; select h self (host.glob h p))
  else if String.eqb (command self) "search" then
    (p <- path self ;; select h self (host.rglob h p))
  else select h self [].

Definition children (h : host.t) (self : t) : Py.result (list t) :=
  __iter__ h self.

(** [self[key]] for a slice [key]. *)
Definition __getitem__ (h : host.t) (self : t) (start stop : Z)
  : Py.result (list t) :=
  cs <- children h self ;; Py.Ok (Py.slice cs start stop).

Definition __len__ (h : host.t) (self : t) : Py.result Z :=
  cs <- children h self ;; Py.Ok (Z.of_nat (List.length cs)).

Definition location (h : host.t) (self : t) : string :=
  host.as_uri h (id_path self) (url self).

Definition element (h : host.t) (self : t) : Py.result xml_.Element :=
  let attrs := [("id", id self); ("parentID", parent_id self)] in
  q <- qname h self ;;
  u <- uclass h self ;;
  c <- xml_.element "upnp:class" [xml_.Scalar u] [] ;;
  p <- path self ;;
  d <- xml_.element "dc:title" [xml_.Scalar (name p)] [] ;;
  root <- xml_.element q [xml_.Child c; xml_.Child d] attrs ;;
  if negb (host.is_dir h p) then
    (m <- mime h self ;;
     r <- xml_.element "dlna:res" [xml_.Scalar (location h self)]
            [("protocolInfo", "http-get:*:" ++ m ++ ":DLNA.ORG_OP=01")%string] ;;
     Py.Ok (xml_.place root (xml_.Child r)))
  else Py.Ok root.

End Object.

(** ** media.py *)

Module media.

Module Server.

Record t : Type := { name : string; uuid_urn : string }.

Definition services : list string :=
  [ "urn:schemas-upnp-org:device:MediaServer:1";
    "urn:schemas-upnp-org:service:ContentDirectory:1";
    "urn:schemas-upnp-org:service:ConnectionManager:1" ].

Module paths.
Definition DEV := pathlib.parse_parts ["/device-description.xml"].
Definition NET := pathlib.parse_parts ["/connection-manager.xml"].
Definition SRV := pathlib.parse_parts ["/content-directory.xml"].
Definition MRR := pathlib.parse_parts ["/media-receiver-registrar.xml"].
Definition MEDIA := pathlib.parse_parts ["/media/"].
End paths.

(** [get_template]: the file of that name in [etc/templates], here by its
    name in that directory. *)
Definition get_template (name : string) : string := (name ++ ".xml")%string.

End Server.

(** What the SOAP handler asks of the HTTP request it was given. *)
Inductive call : Type :=
| call_send_template (name : string) (code : http_.HTTPStatus)
                     (kwds : list (string * string))
| call_send_file (name : string).

Module Handler.

Import http_.

Definition send_template (h : host.t) (name : string) (code : HTTPStatus)
           (kwds : list (string * string)) : Py.result reply :=
  match host.templates h (Server.get_template name) with
  | None => Py.Raise Py.OSError
  | Some f =>
      match host.fromstring h (string_of_list_byte (data f)) with
      | None => Py.Raise Py.ParseError
      | Some root =>
          e <- xml_.format root kwds ;;
          Py.Ok (Handler.send_text (magic f)
                   (xml_.serialize (host.tostring h) e) code)
      end
  end.

(** [send_file(Path("etc/templates", name))]. *)
Definition send_static (h : host.t) (name : string) : Py.result reply :=
  match host.templates h name with
  | None => Py.Raise Py.OSError
  | Some f => Handler.send_file f None
  end.

Definition perform (h : host.t) (c : call) : Py.result reply :=
  match c with
  | call_send_template name code kwds => send_template h name code kwds
  | call_send_file name => send_static h name
  end.

(** The branch of [do_get] for paths below [/media]. *)
Definition get_media (h : host.t) (self_path : pathlib.PurePath)
           (request : headers) : Py.result reply :=
  rel <- pathlib.relative_to self_path Server.paths.MEDIA ;;
  let path := pathlib.__truediv__ (host.media h) rel in
  match host.stat h path with
  | Some (host.Regular f _) =>
      let range := headers_get request Header.RANGE "" in
      r <- Range.__init__ f range ;;
      Handler.send_file f (Some r)
  | _ => Py.Ok (ErrorPage NOT_FOUND)
  end.

Fixpoint replace_dot (s : string) : string :=
  match s with
  | EmptyString => EmptyString
  | String "."%char r => String "2" (String "." (replace_dot r))
  | String c r => String c (replace_dot r)
  end.

Fixpoint rfind_dot (s : string) : option (string * string) :=
  match s with
  | EmptyString => None
  | String c r =>
      match rfind_dot r with
      | Some (a, b) => Some (String c a, b)
      | None => if Ascii.eqb c "." then Some (EmptyString, s) else None
      end
  end.

(** [path.stem]: the last name without its suffix. *)
Definition stem (p : pathlib.PurePath) : string :=
  let n := pathlib.name p in
  match rfind_dot n with
  | Some (String a b, String _ (String _ _)) => String a b
  | _ => n
  end.

(** [do_get]; [uri_path] is the path of the request line, unquoted. *)
Definition do_get (h : host.t) (server : Server.t) (uri_path : string)
           (request : headers) : Py.result reply :=
  let path := pathlib.parse_parts ["/"; uri_path] in
  if pathlib.__eq__ path Server.paths.MRR then
    (rel <- pathlib.relative_to Server.paths.MRR (pathlib.parse_parts ["/"]) ;;
     send_static h (pathlib.__str__ rel))
  else if (pathlib.__eq__ path Server.paths.SRV
           || pathlib.__eq__ path Server.paths.NET)%bool then
    (rel <- pathlib.relative_to path (pathlib.parse_parts ["/"]) ;;
     send_static h (replace_dot (pathlib.__str__ rel)))
  else if pathlib.__eq__ path Server.paths.DEV then
    send_template h (stem path) OK
      [("friendlyName", Server.name server); ("UDN", Server.uuid_urn server)]
  else if Py.is_ok (pathlib.relative_to path Server.paths.MEDIA) then
    get_media h path request
  else Py.Ok (ErrorPage BAD_REQUEST).

(** [do_post]; [_soap] is what the server's SOAP handler does with the
    request. *)
Definition do_post (_soap : Py.result reply) (uri_path : string)
  : Py.result reply :=
  let path := pathlib.parse_parts ["/"; uri_path] in
  if pathlib.__eq__ path Server.paths.SRV then _soap
  else Py.Ok (ErrorPage BAD_REQUEST).

End Handler.

End media.

(** ** soap.py *)

Module soap.

Module Header.
Definition SOAP_ACTION := "SOAPACTION".
End Header.

(** The UPnP error set of [Status]: value and phrase (the third field, the
    description, is read nowhere). *)
Module Status.

Inductive t : Type :=
| INVALID_ACTION | INVALID_ARGS | INVALID_VAR | ACTION_FAILD
| ARGUMENT_VALUE_INVALID | ARGUMENT_VALUE_OUT
| OPTIONAL_ACTION_NOT_IMPLEMENTED | OUT_OF_MEMORY
| HUMAN_INTERVENTION_REQUIRED | STRING_ARGUMENT_TOO_LONG
| NO_SUCH_OBJECT | INVALID_CURRENTTAGVALUE | INVALID_NEWTAGVALUE
| REQUIRED_TAG | READ_ONLY_TAG | PARAMETER_MISMATCH
| UNSUPPORTED_OR_INVALID_SEARCH_CRITERIA
| UNSUPPORTED_OR_INVALID_SORT_CRITERIA
| NO_SUCH_CONTAINER | RESTRICTED_OBJECT | BAD_METADATA | RESTRICTED_PARENT
| NO_SUCH_RESOURCE | SOURCE_RESOURCE_ACCES_DENIED | TRANSFER_BUSY
| NO_SUCH_FILE_TRANSFER | NO_SUCH_DESTINATION_RESOURCE
| DESTINATION_RESOURCE_ACCESS_DENIED | CANNOT_PROCESS_THE_REQUEST.

Definition table (s : t) : Z * string :=
  match s with
  | INVALID_ACTION => (401, "Invalid Action")
  | INVALID_ARGS => (402, "Invalid Args")
  | INVALID_VAR => (404, "Invalid Var")
  | ACTION_FAILD => (501, "Action Failed")
  | ARGUMENT_VALUE_INVALID => (600, "Argument Value Invalid")
  | ARGUMENT_VALUE_OUT => (601, "Argument Value Out of Range")
  | OPTIONAL_ACTION_NOT_IMPLEMENTED => (602, "Optional Action Not Implemented")
  | OUT_OF_MEMORY => (603, "Out of Memory")
  | HUMAN_INTERVENTION_REQUIRED => (604, "Human Intervention Required")
  | STRING_ARGUMENT_TOO_LONG => (605, "String Argument Too Long")
  | NO_SUCH_OBJECT => (701, "No such object")
  | INVALID_CURRENTTAGVALUE => (702, "Invalid CurrentTagValue")
  | INVALID_NEWTAGVALUE => (703, "Invalid NewTagValue")
  | REQUIRED_TAG => (704, "Required tag")
  | READ_ONLY_TAG => (705, "Read only tag")
  | PARAMETER_MISMATCH => (706, "Parameter Mismatch")
  | UNSUPPORTED_OR_INVALID_SEARCH_CRITERIA =>
      (708, "Unsupported or invalid search criteria")
  | UNSUPPORTED_OR_INVALID_SORT_CRITERIA =>
      (709, "Unsupported or invalid sort criteria")
  | NO_SUCH_CONTAINER => (710, "No such container")
  | RESTRICTED_OBJECT => (711, "Restricted object")
  | BAD_METADATA => (712, "Bad metadata")
  | RESTRICTED_PARENT => (713, "Restricted parent object")
  | NO_SUCH_RESOURCE => (714, "No such source resource")
  | SOURCE_RESOURCE_ACCES_DENIED => (715, "Source resource access denied")
  | TRANSFER_BUSY => (716, "Transfer busy")
  | NO_SUCH_FILE_TRANSFER => (717, "No such file transfer")
  | NO_SUCH_DESTINATION_RESOURCE => (718, "No such destination resource")
  | DESTINATION_RESOURCE_ACCESS_DENIED =>
      (719, "Destination resource access denied")
  | CANNOT_PROCESS_THE_REQUEST => (720, "Cannot process the request")
  end.

Definition value (s : t) : Z := fst (table s).
Definition phrase (s : t) : string := snd (table s).

End Status.

Module Handler.

Record request : Type := {
  headers : http_.headers;   (* the request's header fields *)
  rfile : string             (* what follows them on the connection *)
}.

(** [request.host]; a header that is absent reads as [None]. *)
Definition host_url (r : request) : string :=
  ("http://" ++ http_.headers_get (headers r) http_.Header.HOST "None")%string.

(** The handler's attributes once [parse_request] has succeeded. *)
Record t : Type := {
  service : string;
  command : string;
  data : xml_.Element
}.

Definition send_error (code : Status.t) : media.call :=
  media.call_send_template "fault" http_.INTERNAL_SERVER_ERROR
    [("errorCode", Py.str_int (Status.value code));
     ("errorDescription", Status.phrase code)].

Fixpoint lstrip_quote (s : string) : string :=
  match s with
  | String "034"%char r => lstrip_quote r
  | _ => s
  end.

Fixpoint rstrip_quote (s : string) : string :=
  match s with
  | EmptyString => EmptyString
  | String c r =>
      match rstrip_quote r with
      | EmptyString => if Ascii.eqb c "034" then EmptyString
                       else String c EmptyString
      | r' => String c r'
      end
  end.

(** [rfile.read(size)]: that many characters, all of them for a negative
    size. *)
Definition read (rfile : string) (size : Z) : string :=
  if size <? 0 then rfile else substring 0 (Z.to_nat size) rfile.

(** [parse_request]: the attributes, or the fault it has sent before
    answering [False]. *)
Definition parse_request (h : host.t) (r : request)
  : Py.result (t + media.call) :=
  size <- match http_.headers_find (headers r) http_.Header.CONTENT_LENGTH with
          | Some s => Py.int_ s
          | None => Py.Ok 0
          end ;;
  let action :=
    rstrip_quote (lstrip_quote
      (http_.headers_get (headers r) Header.SOAP_ACTION "#")) in
  match Py.split "#" action with
  | [service; command] =>
      let command := net.safe_identifier command in
      match host.fromstring h (read (rfile r) size) with
      | Some data =>
          Py.Ok (inl {| service := service; command := command; data := data |})
      | None => Py.Ok (inr (send_error Status.INVALID_ARGS))
      end
  | _ => Py.Raise Py.ValueError
  end.

Definition browse_object (h : host.t) (r : request) (self : t)
  : Py.result Object.t :=
  id <- match xml_.find_text (data self) "ObjectID" with
        | Py.Raise (Py.AttributeError _) => xml_.find_text (data self) "ContainerID"
        | other => other
        end ;;
  let url := host.as_uri h media.Server.paths.MEDIA (host_url r) in
  Py.Ok (Object.__init__ (host.media h) url id (command self)).

(** [browse_slice]: the two ends of the slice. *)
Definition browse_slice (self : t) : Py.result (Z * Z) :=
  s <- xml_.find_text (data self) "StartingIndex" ;;
  start <- Py.int_ s ;;
  c <- xml_.find_text (data self) "RequestedCount" ;;
  size <- Py.int_ c ;;
  Py.Ok (start, start + size).

Fixpoint elements (h : host.t) (cs : list Object.t)
  : Py.result (list xml_.Element) :=
  match cs with
  | [] => Py.Ok []
  | c :: r =>
      e <- Object.element h c ;;
      es <- elements h r ;;
      Py.Ok (e :: es)
  end.

Definition do_getsearchcapabilities : Py.result media.call :=
  Py.Ok (media.call_send_file "search.xml").

Definition do_browse (h : host.t) (r : request) (self : t)
  : Py.result media.call :=
  element <- browse_object h r self ;;
  sl <- browse_slice self ;;
  window <- Object.__getitem__ h element (fst sl) (snd sl) ;;
  children <- elements h window ;;
  didl <- xml_.element "dlna:DIDL-Lite" (map xml_.Child children) [] ;;
  let result := xml_.serialize (host.tostring h) didl in
  update <- Object.update h element ;;
  total <- Object.__len__ h element ;;
  Py.Ok (media.call_send_template (command self ++ "-response") http_.OK
           [("Result", result);
            ("UpdateID", Py.str_int update);
            ("TotalMatches", Py.str_int total);
            ("NumberReturned", Py.str_int (Z.of_nat (List.length children)))]).

Definition do_search (h : host.t) (r : request) (self : t)
  : Py.result media.call :=
  do_browse h r self.

(** [getattr(self, "do_" + command, None)]. *)
Definition getattr_do (h : host.t) (r : request) (self : t)
  : option (Py.result media.call) :=
  let name := ("do_" ++ command self)%string in
  if String.eqb name "do_getsearchcapabilities" then Some do_getsearchcapabilities
  else if String.eqb name "do_search" then Some (do_search h r self)
  else if String.eqb name "do_browse" then Some (do_browse h r self)
  else None.

Definition handle (h : host.t) (r : request) : Py.result media.call :=
  parsed <- parse_request h r ;;
  match parsed with
  | inr sent => Py.Ok sent
  | inl self =>
      match getattr_do h r self with
      | Some method => method
      | None => Py.Ok (send_error Status.INVALID_ACTION)
      end
  end.

(** [Handler(request)]: the handler runs and the request sends what it is
    asked to. *)
Definition serve (h : host.t) (r : request) : Py.result http_.reply :=
  c <- handle h r ;; media.Handler.perform h c.

(** A POST to the media server whose SOAP handler is this one. *)
Definition post (h : host.t) (uri_path : string) (r : request)
  : Py.result http_.reply :=
  media.Handler.do_post (serve h r) uri_path.

End Handler.

End soap.

(** ** ssdp.py *)

Module ssdp.

Module Header.
Definition NT := "NT".
Definition NTS := "NTS".
Definition ST := "ST".
Definition MX := "MX".
Definition USN := "USN".
Definition EXT := "EXT".
End Header.

Module Message.
Definition ALIVE := "ssdp:alive".
Definition BYE := "ssdp:byebye".
Definition ALL := "ssdp:all".
End Message.

Module Address.

Definition ANY := "0.0.0.0".

(** A point in time as the book stores it: an [int] of seconds, or the
    [float("inf")] of the class attribute. *)
Inductive number : Type :=
| Fin (z : Z)
| Inf.

Definition plus (now : Z) (t : number) : number :=
  match t with
  | Fin z => Fin (now + z)
  | Inf => Inf
  end.

(** [now > t]. *)
Definition after (now : Z) (t : number) : bool :=
  match t with
  | Fin z => z <? now
  | Inf => false
  end.

Record _data : Type := { timeout : number; packed : Z }.

(** The book: the [dict] it is, and the instance attribute [timeout] once
    it has been assigned (before that the class attribute shows through). *)
Record t : Type := {
  items : list (string * _data);
  own_timeout : option Z
}.

Definition get_timeout (self : t) : number :=
  match own_timeout self with
  | Some z => Fin z
  | None => Inf
  end.

(** One number of a dotted quad, in decimal: [0], or digits that do not
    start with [0]. *)
Definition octet (s : string) : Py.result Z :=
  match s with
  | String "0"%char (String _ _) => Py.Raise Py.OSError
  | _ =>
      match Py.int_digits s with
      | Py.Ok n => if n <=? 255 then Py.Ok n else Py.Raise Py.OSError
      | Py.Raise _ => Py.Raise Py.OSError
      end
  end.

(** [socket.inet_aton] on dotted-decimal quads, the form in which the
    socket layer reports addresses.  (The C routine also reads octal and
    hexadecimal numbers and addresses of fewer than four parts; those are
    refused here.) *)
Definition inet_aton (address : string) : Py.result (list Z) :=
  match Py.split "." address with
  | [a; b; c; d] =>
      a <- octet a ;; b <- octet b ;; c <- octet c ;; d <- octet d ;;
      Py.Ok [a; b; c; d]
  | _ => Py.Raise Py.OSError
  end.

(** [int.from_bytes(b, "big")]. *)
Definition from_bytes_big (b : list Z) : Z :=
  fold_left (fun acc x => acc * 256 + x) b 0.

Definition _pack (address : string) : Py.result Z :=
  b <- inet_aton address ;; Py.Ok (from_bytes_big b).

Definition __iter__ (self : t) : list string :=
  let copy := items self in
  let copy :=
    if (Py.dict_has copy ANY && (1 <? Z.of_nat (List.length copy)))%bool
    then Py.dict_del copy ANY else copy in
  map fst copy.

(** The built-in [min(iterable, key=..., default=...)] on keyed items: the
    first of the smallest. *)
Fixpoint min_from (best : string * Z) (rest : list (string * Z)) : string :=
  match rest with
  | [] => fst best
  | x :: r => if snd x <? snd best then min_from x r else min_from best r
  end.

Definition min_ (keyed : list (string * Z)) (default : string) : string :=
  match keyed with
  | [] => default
  | x :: r => min_from x r
  end.

Fixpoint keyed (self : t) (packed : Z) (addresses : list string)
  : Py.result (list (string * Z)) :=
  match addresses with
  | [] => Py.Ok []
  | a :: r =>
      match Py.dict_get (items self) a with
      | None => Py.Raise (Py.KeyError a)
      | Some d =>
          ks <- keyed self packed r ;;
          Py.Ok ((a, Z.lxor (Address.packed d) packed) :: ks)
      end
  end.

Definition select (self : t) (address : string) : Py.result string :=
  packed <- _pack address ;;
  ks <- keyed self packed (__iter__ self) ;;
  Py.Ok (min_ ks ANY).

Definition add (now : Z) (self : t) (address : string) : Py.result t :=
  let expiry := plus now (get_timeout self) in
  p <- _pack address ;;
  Py.Ok {| items := Py.dict_set (items self) address
                      {| timeout := expiry; packed := p |};
           own_timeout := own_timeout self |}.

Fixpoint expire (now : Z) (self : t) (addresses : list string) : Py.result t :=
  match addresses with
  | [] => Py.Ok self
  | a :: r =>
      match Py.dict_get (items self) a with
      | None => Py.Raise (Py.KeyError a)
      | Some d =>
          if after now (timeout d)
          then expire now {| items := Py.dict_del (items self) a;
                             own_timeout := own_timeout self |} r
          else expire now self r
      end
  end.

Definition update (now : Z) (self : t) : Py.result t :=
  expire now self (__iter__ self).

Definition __init__ (now : Z) (address : string) (timeout : Z) : Py.result t :=
  self <- add now {| items := []; own_timeout := None |} address ;;
  Py.Ok {| items := items self; own_timeout := Some timeout |}.

(** What [add] maintains: the [dict] has each key once, and every entry
    holds the packed form of its own key. *)
Definition packs (kv : string * _data) : bool :=
  match _pack (fst kv) with
  | Py.Ok p => p =? packed (snd kv)
  | Py.Raise _ => false
  end.

Definition wf (self : t) : bool :=
  (Py.distinct (map fst (items self)) && forallb packs (items self))%bool.

End Address.

Module Server.

(** The pieces of [urlsplit(location)] that are read. *)
Record SplitResult : Type := {
  scheme : string;
  hostname : string;
  port : Z;
  path : string
}.

Record t : Type := {
  timeout : Z;
  _location : SplitResult;
  addresses : Address.t;
  targets : list (string * string)
}.

Definition usn_map (device : string) (services : list string)
  : list (string * string) :=
  fold_left (fun d s => Py.dict_set d s (device ++ "::" ++ s)%string)
            services [].

(** [__init__]; [device] is [uuid.urn[4:]] and [services] the given set
    in the order its union with [upnp:rootdevice] is walked. *)
Definition __init__ (now : Z) (location : SplitResult) (device : string)
           (services : list string) : Py.result t :=
  let timeout := 30 in
  a <- Address.__init__ now (hostname location) timeout ;;
  let targets := usn_map device (services ++ ["upnp:rootdevice"]) in
  Py.Ok {| timeout := timeout; _location := location; addresses := a;
           targets := Py.dict_set targets device device |}.

Definition _replace_location (self : t) (address : string) : string :=
  let l := _location self in
  (scheme l ++ "://" ++ address ++ ":" ++ Py.str_int (port l) ++ path l)%string.

Definition locations (self : t) : list string :=
  map (_replace_location self) (Address.__iter__ (addresses self)).

Definition location_for (self : t) (address : string) : Py.result string :=
  a <- Address.select (addresses self) address ;;
  Py.Ok (_replace_location self a).

End Server.

(** The notifier, class [C]. *)
Module C.

(** One NOTIFY as it leaves: the address the socket is bound to and the
    header fields in the order they are put. *)
Record notify : Type := {
  source_address : string * Z;
  fields : list (string * string)
}.

Definition send_notify (server : Server.t) (target type address : string)
  : Py.result notify :=
  match Py.dict_get (Server.targets server) target with
  | None => Py.Raise (Py.KeyError target)
  | Some usn =>
      Py.Ok {| source_address := (address, 50927);
               fields :=
                 [("HOST", "239.255.255.250:1900");
                  ("SERVER", "Ubuntu DLNADOC/1.50 UPnP/1.0 MiniDLNA/1.2.1");
                  (Header.NT, target);
                  (Header.NTS, type);
                  (Header.USN, usn)]
                 ++ (if (String.eqb type Message.ALIVE
                         && negb (String.eqb address Address.ANY))%bool
                     then [("CACHE-CONTROL",
                            "max-age=" ++ Py.str_int (Server.timeout server))%string;
                           ("LOCATION", Server._replace_location server address)]
                     else []) |}
  end.

Fixpoint for_targets (server : Server.t) (type address : string)
         (targets : list string) : Py.result (list notify) :=
  match targets with
  | [] => Py.Ok []
  | t :: r =>
      m <- send_notify server t type address ;;
      ms <- for_targets server type address r ;;
      Py.Ok (m :: ms)
  end.

Fixpoint for_addresses (server : Server.t) (type : string)
         (addresses : list string) : Py.result (list notify) :=
  match addresses with
  | [] => Py.Ok []
  | a :: r =>
      ms <- for_targets server type a (map fst (Server.targets server)) ;;
      more <- for_addresses server type r ;;
      Py.Ok (ms ++ more)
  end.

(** [send_notifies]: the book is aged, then the NOTIFYs go out twice. *)
Definition send_notifies (now : Z) (server : Server.t) (type : string)
  : Py.result (Server.t * list notify) :=
  a <- Address.update now (Server.addresses server) ;;
  let server := {| Server.timeout := Server.timeout server;
                   Server._location := Server._location server;
                   Server.addresses := a;
                   Server.targets := Server.targets server |} in
  once <- for_addresses server type (Address.__iter__ a) ;;
  again <- for_addresses server type (Address.__iter__ a) ;;
  Py.Ok (server, once ++ again).

(** What is true of every NOTIFY of a burst of the given type, sent for
    one of the given addresses. *)
Definition sound_notify (server : Server.t) (type : string)
           (addresses : list string) (m : notify) : Prop :=
  exists a t usn,
    In a addresses
    /\ Py.dict_get (Server.targets server) t = Some usn
    /\ source_address m = (a, 50927)
    /\ Py.dict_get (fields m) Header.NT = Some t
    /\ Py.dict_get (fields m) Header.USN = Some usn
    /\ Py.dict_get (fields m) "LOCATION"
       = (if (String.eqb type Message.ALIVE
              && negb (String.eqb a Address.ANY))%bool
          then Some (Server._replace_location server a) else None)
    /\ Py.dict_get (fields m) "CACHE-CONTROL"
       = (if (String.eqb type Message.ALIVE
              && negb (String.eqb a Address.ANY))%bool
          then Some ("max-age=" ++ Py.str_int (Server.timeout server))%string
          else None).

End C.

Module Handler.

Record datagram : Type := {
  command : string;                  (* the method of the request line *)
  headers : http_.headers;
  client_address : string * Z
}.

Definition do_nop (server : Server.t) : Py.result (Server.t * list http_.reply) :=
  Py.Ok (server, []).

Definition do_notify (now : Z) (server : Server.t) (d : datagram)
  : Py.result (Server.t * list http_.reply) :=
  let known :=
    match http_.headers_find (headers d) Header.USN with
    | Some usn => existsb (String.eqb usn) (map snd (Server.targets server))
    | None => false
    end in
  if known then
    a <- Address.add now (Server.addresses server) (fst (client_address d)) ;;
    Py.Ok ({| Server.timeout := Server.timeout server;
              Server._location := Server._location server;
              Server.addresses := a;
              Server.targets := Server.targets server |}, [])
  else Py.Ok (server, []).

(** [do_m_search]: the search target is read and nothing is done with it;
    the lines that would answer are comments. *)
Definition do_m_search (server : Server.t) (d : datagram)
  : Py.result (Server.t * list http_.reply) :=
  let target := http_.headers_find (headers d) Header.ST in
  Py.Ok (server, []).

Definition send_discover (server : Server.t) (d : datagram) (target : string)
  : Py.result http_.reply :=
  location <- Server.location_for server (fst (client_address d)) ;;
  match Py.dict_get (Server.targets server) target with
  | None => Py.Raise (Py.KeyError target)
  | Some usn =>
      Py.Ok (http_.Content http_.OK
               [(Header.EXT, EmptyString);
                (Header.ST, target);
                (http_.Header.LOCATION, location);
                (Header.USN, usn);
                (http_.Header.CACHE_CONTROL,
                 "max-age=" ++ Py.str_int (Server.timeout server))%string]
               [])
  end.

(** The dispatch of the request handler: [do_<command>] after
    [safe_identifier], and [do_nop] through [__getattr__] for any other
    name. *)
Definition handle (now : Z) (server : Server.t) (d : datagram)
  : Py.result (Server.t * list http_.reply) :=
  let mname := ("do_" ++ net.safe_identifier (command d))%string in
  if String.eqb mname "do_notify" then do_notify now server d
  else if String.eqb mname "do_m_search" then do_m_search server d
  else do_nop server.

End Handler.

(** The notifier's [serve_forever] next to what happens around it.  The
    run is driven by a schedule: the notifier takes its next step at a
    given clock reading, a datagram is handled by the server, or
    [shutdown] is called.  A wait that finds the event unset has run into
    its timeout. *)
Module Run.

Inductive pc : Type :=
| Started      (* before the first burst *)
| Looping      (* at the head of the loop *)
| Waiting      (* in [__shutdown_request.wait] *)
| Leaving      (* after [break] *)
| ShutDown.    (* [__is_shut_down] is set *)

Record state : Type := {
  at_ : pc;
  server : Server.t;
  shutdown_request : bool;
  sent : list (string * list C.notify)   (* the bursts so far, oldest first *)
}.

Inductive event : Type :=
| Tick (now : Z)
| Datagram (now : Z) (d : Handler.datagram)
| Shutdown.

Definition burst (now : Z) (type : string) (next : pc) (s : state)
  : Py.result state :=
  r <- C.send_notifies now (server s) type ;;
  Py.Ok {| at_ := next; server := fst r;
           shutdown_request := shutdown_request s;
           sent := sent s ++ [(type, snd r)] |}.

Definition step (s : state) (e : event) : Py.result state :=
  match e with
  | Shutdown =>
      Py.Ok {| at_ := at_ s; server := server s; shutdown_request := true;
               sent := sent s |}
  | Datagram now d =>
      r <- Handler.handle now (server s) d ;;
      Py.Ok {| at_ := at_ s; server := fst r;
               shutdown_request := shutdown_request s; sent := sent s |}
  | Tick now =>
      match at_ s with
      | Started => burst now Message.BYE Looping s
      | Looping => burst now Message.ALIVE Waiting s
      | Waiting =>
          Py.Ok {| at_ := if shutdown_request s then Leaving else Looping;
                   server := server s;
                   shutdown_request := shutdown_request s; sent := sent s |}
      | Leaving => burst now Message.BYE ShutDown s
      | ShutDown => Py.Ok s
      end
  end.

Fixpoint run (s : state) (schedule : list event) : Py.result state :=
  match schedule with
  | [] => Py.Ok s
  | e :: r => s' <- step s e ;; run s' r
  end.

(** An event that cannot fail: a step of the notifier, a shutdown, or a
    datagram whose source address is a dotted quad. *)
Definition plain (e : event) : bool :=
  match e with
  | Datagram _ d => Py.is_ok (Address._pack (fst (Handler.client_address d)))
  | _ => true
  end.





End Run.

End ssdp.

(** ** net.py: multicast membership

    [ip_membership] stands here, after the address book, because it is
    written with [inet_aton]. *)

Module membership.


End membership.

(** ** A small installation, for the examples

    A media root [/srv/media] holding a 1000-byte video, a text file, an
    empty file and a directory; the fault template; a server that has heard
    of two of its addresses. *)

Module Example.

Definition a_mp4 : http_.File :=
  {| http_.data := repeat Byte.x41 1000; http_.magic := "video/mp4" |}.

Definition notes_txt : http_.File :=
  {| http_.data := repeat Byte.x42 10; http_.magic := "text/plain" |}.

Definition empty_bin : http_.File :=
  {| http_.data := []; http_.magic := "application/x-empty" |}.

Definition b_mp3 : http_.File :=
  {| http_.data := repeat Byte.x43 5; http_.magic := "audio/mpeg" |}.

Definition tree : host.node :=
  host.Directory 5
    [ ("a.mp4", host.Regular a_mp4 7);
      ("notes.txt", host.Regular notes_txt 8);
      ("empty.bin", host.Regular empty_bin 8);
      ("d", host.Directory 9
              [ ("b.mp3", host.Regular b_mp3 3);
                ("e", host.Directory 1 []) ]) ].

Definition ctrl (local : string) : string :=
  ("{urn:schemas-upnp-org:control-1-0}" ++ local)%string.

Definition soap (local : string) : string :=
  ("{http://schemas.xmlsoap.org/soap/envelope/}" ++ local)%string.

Definition fault : xml_.Element :=
  xml_.Elem (soap "Envelope") [] EmptyString
    [ xml_.Elem (soap "Body") [] EmptyString
        [ xml_.Elem (soap "Fault") [] EmptyString
            [ xml_.Elem "faultcode" [] "s:Client" [];
              xml_.Elem "faultstring" [] "UPnPError" [];
              xml_.Elem "detail" [] EmptyString
                [ xml_.Elem (ctrl "UPnPError") [] EmptyString
                    [ xml_.Elem (ctrl "errorCode") [] EmptyString [];
                      xml_.Elem (ctrl "errorDescription") [] EmptyString [] ] ] ] ] ].

(** A Browse request body with the three arguments that are read. *)
Definition browse (id start count : string) : xml_.Element :=
  xml_.Elem (soap "Envelope") [] EmptyString
    [ xml_.Elem (soap "Body") [] EmptyString
        [ xml_.Elem "{urn:schemas-upnp-org:service:ContentDirectory:1}Browse"
            [] EmptyString
            [ xml_.Elem "ObjectID" [] id [];
              xml_.Elem "StartingIndex" [] start [];
              xml_.Elem "RequestedCount" [] count [] ] ] ].

(** The machine: request bodies are named by a short text instead of being
    written out, and every element is printed as its tag. *)
Definition machine (body : xml_.Element) : host.t :=
  {| host.media := pathlib.parse_parts ["/srv/media"];
     host.tree := tree;
     host.now := 1000;
     host.templates := fun n =>
       if String.eqb n "fault.xml"
       then Some {| http_.data := list_byte_of_string "fault";
                    http_.magic := "text/xml" |}
       else None;
     host.fromstring := fun s =>
       if String.eqb s "fault" then Some fault
       else if String.eqb s "body" then Some body
       else None;
     host.tostring := fun e _ => xml_.tag e;
     host.as_uri := fun p base => (base ++ pathlib.__str__ p)%string |}.

Definition server : media.Server.t :=
  {| media.Server.name := "foo";
     media.Server.uuid_urn := "urn:uuid:4d696e69" |}.

Definition post (action : string) : soap.Handler.request :=
  {| soap.Handler.headers :=
       [("Content-Length", "4"); ("SOAPACTION", action);
        ("Host", "10.0.0.1:8200")];
     soap.Handler.rfile := "body" |}.

Definition content_directory : string :=
  "urn:schemas-upnp-org:service:ContentDirectory:1".

Definition location : ssdp.Server.SplitResult :=
  {| ssdp.Server.scheme := "http"; ssdp.Server.hostname := "0.0.0.0";
     ssdp.Server.port := 8200; ssdp.Server.path := "/device-description.xml" |}.

(** A NOTIFY of the server's own, as it comes back from an interface. *)
Definition own_notify (source : string) : ssdp.Handler.datagram :=
  {| ssdp.Handler.command := "NOTIFY";
     ssdp.Handler.headers :=
       [ ("HOST", "239.255.255.250:1900"); ("NT", "upnp:rootdevice");
         ("NTS", "ssdp:alive"); ("USN", "uuid:4d696e69::upnp:rootdevice") ];
     ssdp.Handler.client_address := (source, 50927) |}.

(** The server after it has heard itself on two interfaces. *)
Definition heard : ssdp.Server.t :=
  {| ssdp.Server.timeout := 30;
     ssdp.Server._location := location;
     ssdp.Server.addresses :=
       {| ssdp.Address.items :=
            [ ("0.0.0.0",
               {| ssdp.Address.timeout := ssdp.Address.Inf;
                  ssdp.Address.packed := 0 |});
              ("10.0.0.5",
               {| ssdp.Address.timeout := ssdp.Address.Fin 131;
                  ssdp.Address.packed := 167772165 |});
              ("192.168.1.10",
               {| ssdp.Address.timeout := ssdp.Address.Fin 132;
                  ssdp.Address.packed := 3232235786 |}) ];
          ssdp.Address.own_timeout := Some 30 |};
     ssdp.Server.targets :=
       [ ("urn:schemas-upnp-org:device:MediaServer:1",
          "uuid:4d696e69::urn:schemas-upnp-org:device:MediaServer:1");
         ("urn:schemas-upnp-org:service:ContentDirectory:1",
          "uuid:4d696e69::urn:schemas-upnp-org:service:ContentDirectory:1");
         ("urn:schemas-upnp-org:service:ConnectionManager:1",
          "uuid:4d696e69::urn:schemas-upnp-org:service:ConnectionManager:1");
         ("upnp:rootdevice", "uuid:4d696e69::upnp:rootdevice");
         ("uuid:4d696e69", "uuid:4d696e69") ] |}.

Definition m_search : ssdp.Handler.datagram :=
  {| ssdp.Handler.command := "M-SEARCH";
     ssdp.Handler.headers := [("ST", "upnp:rootdevice"); ("MX", "1")];
     ssdp.Handler.client_address := ("192.168.1.77", 50000) |}.

End Example.

(** * Properties

    From here on nothing is added to the model; each part proves what the
    specification says about one module. *)

(** ** Decimal text *)

(** Inversion of a bind that has returned. *)
Ltac bind_ok H :=
  match type of H with
  | Py.bind ?c _ = Py.Ok _ =>
      let E := fresh "E" in
      destruct c eqn:E; cbn [Py.bind] in H; [|discriminate H]
  end.

Tactic Notation "bind_inv" hyp(H) "as" ident(x) ident(E) :=
  match type of H with
  | Py.bind ?c _ = Py.Ok _ =>
      destruct c as [x|] eqn:E; cbn [Py.bind] in H; [|discriminate H]
  end.

Module PyFacts.

Lemma string_of_uint_digits (d : Decimal.uint) :
  Py.all_digits (NilEmpty.string_of_uint d) = true.
Proof. induction d; simpl; auto. Qed.

Lemma string_of_uint_truthy (d : Decimal.uint) :
  d <> Decimal.Nil -> Py.truthy (NilEmpty.string_of_uint d) = true.
Proof. destruct d; simpl; congruence. Qed.

Lemma str_int_nonneg (z : Z) :
  0 <= z ->
  exists u, Py.str_int z = NilEmpty.string_of_uint u
            /\ u <> Decimal.Nil /\ Z.of_uint u = z.
Proof.
  intros Hz. destruct z as [|p|p]; try lia.
  - exists (Decimal.D0 Decimal.Nil). repeat split. discriminate.
  - exists (Pos.to_uint p). repeat split.
    + apply DecimalPos.Unsigned.to_uint_nonnil.
    + exact (DecimalZ.of_to (Z.pos p)).
Qed.

Lemma str_int_digits (z : Z) : 0 <= z -> Py.all_digits (Py.str_int z) = true.
Proof.
  intros Hz. destruct (str_int_nonneg z Hz) as (u & -> & _ & _).
  apply string_of_uint_digits.
Qed.

Lemma str_int_truthy (z : Z) : Py.truthy (Py.str_int z) = true.
Proof.
  destruct z as [|p|p]; try reflexivity.
  apply string_of_uint_truthy, DecimalPos.Unsigned.to_uint_nonnil.
Qed.

Lemma int_digits_str (u : Decimal.uint) :
  u <> Decimal.Nil ->
  Py.int_digits (NilEmpty.string_of_uint u) = Py.Ok (Z.of_uint u).
Proof.
  intros Hu. unfold Py.int_digits.
  rewrite (string_of_uint_truthy u Hu), NilEmpty.usu. reflexivity.
Qed.

Lemma digit_not_sign (c : ascii) (s : string) :
  Py.is_digit c = true -> Py.int_ (String c s) = Py.int_digits (String c s).
Proof.
  destruct c as [[] [] [] [] [] [] [] []]; intros H; try reflexivity;
    discriminate H.
Qed.

(** [int(str(n)) == n] for a natural number. *)
Lemma int_str_nonneg (z : Z) : 0 <= z -> Py.int_ (Py.str_int z) = Py.Ok z.
Proof.
  intros Hz. pose proof (str_int_digits z Hz) as Hd.
  destruct (str_int_nonneg z Hz) as (u & E & Hu & Hv).
  rewrite E in *. rewrite <- Hv. rewrite <- (int_digits_str u Hu).
  pose proof (string_of_uint_truthy u Hu) as Ht.
  destruct (NilEmpty.string_of_uint u) as [|c s]; [discriminate|].
  apply digit_not_sign. simpl in Hd. now apply andb_true_iff in Hd.
Qed.

Lemma append_empty (s : string) : (s ++ EmptyString)%string = s.
Proof. induction s; simpl; congruence. Qed.

End PyFacts.


(** ** Dictionaries *)

Module DictFacts.

Lemma dict_get_in {V : Type} (d : list (string * V)) (k : string) :
  In k (map fst d) -> exists v, Py.dict_get d k = Some v.
Proof.
  induction d as [|[k' v'] d IH]; simpl; [tauto|].
  intros [->|H].
  - rewrite String.eqb_refl. eauto.
  - destruct (String.eqb k' k); eauto.
Qed.

Lemma dict_get_some_in {V : Type} (d : list (string * V)) (k : string) (v : V) :
  Py.dict_get d k = Some v -> In k (map fst d).
Proof.
  induction d as [|[k' v'] d IH]; simpl; [discriminate|].
  destruct (String.eqb k' k) eqn:E.
  - apply String.eqb_eq in E. auto.
  - auto.
Qed.

Lemma dict_del_keys {V : Type} (d : list (string * V)) (k a : string) :
  In a (map fst (Py.dict_del d k)) -> In a (map fst d).
Proof.
  induction d as [|[k' v'] d IH]; simpl; [tauto|].
  destruct (String.eqb k' k); simpl; tauto.
Qed.

Lemma dict_del_other {V : Type} (d : list (string * V)) (k a : string) :
  a <> k -> Py.dict_get (Py.dict_del d k) a = Py.dict_get d a.
Proof.
  intros N. induction d as [|[k' v'] d IH]; simpl; [reflexivity|].
  destruct (String.eqb k' k) eqn:E; simpl.
  - apply String.eqb_eq in E. subst k'.
    destruct (String.eqb k a) eqn:E'; [|reflexivity].
    apply String.eqb_eq in E'. congruence.
  - now rewrite IH.
Qed.

Lemma dict_del_gone {V : Type} (d : list (string * V)) (k : string) :
  NoDup (map fst d) -> Py.dict_get (Py.dict_del d k) k = None.
Proof.
  induction d as [|[k' v'] d IH]; simpl; [reflexivity|].
  intros N. inversion N as [|? ? Hn Hd]; subst.
  destruct (String.eqb k' k) eqn:E; simpl.
  - apply String.eqb_eq in E. subst k'.
    destruct (Py.dict_get d k) eqn:G; [|reflexivity].
    apply dict_get_some_in in G. contradiction.
  - rewrite E. auto.
Qed.

Lemma dict_del_nodup {V : Type} (d : list (string * V)) (k : string) :
  NoDup (map fst d) -> NoDup (map fst (Py.dict_del d k)).
Proof.
  induction d as [|[k' v'] d IH]; simpl; [auto|].
  intros N. inversion N as [|? ? Hn Hd]; subst.
  destruct (String.eqb k' k); simpl; [assumption|].
  constructor; [|auto]. intros H. apply Hn. eapply dict_del_keys; eauto.
Qed.

Lemma dict_set_keys {V : Type} (d : list (string * V)) (k a : string) (v : V) :
  In a (map fst (Py.dict_set d k v)) <-> a = k \/ In a (map fst d).
Proof.
  induction d as [|[k' v'] d IH]; simpl; [intuition|].
  destruct (String.eqb k' k) eqn:E; simpl.
  - apply String.eqb_eq in E. subst k'. intuition.
  - rewrite IH. intuition.
Qed.

Lemma dict_set_nodup {V : Type} (d : list (string * V)) (k : string) (v : V) :
  NoDup (map fst d) -> NoDup (map fst (Py.dict_set d k v)).
Proof.
  induction d as [|[k' v'] d IH]; simpl.
  - intros _. constructor; [simpl; tauto|constructor].
  - intros N. inversion N as [|? ? Hn Hd]; subst.
    destruct (String.eqb k' k) eqn:E; simpl.
    + apply String.eqb_eq in E. subst k'. now constructor.
    + constructor; [|auto]. rewrite dict_set_keys. intros [->|H]; [|auto].
      now rewrite String.eqb_refl in E.
Qed.

Lemma dict_set_same {V : Type} (d : list (string * V)) (k : string) (v : V) :
  Py.dict_get (Py.dict_set d k v) k = Some v.
Proof.
  induction d as [|[k' v'] d IH]; simpl.
  - now rewrite String.eqb_refl.
  - destruct (String.eqb k' k) eqn:E; simpl.
    + now rewrite String.eqb_refl.
    + now rewrite E.
Qed.

Lemma dict_set_other {V : Type} (d : list (string * V)) (k a : string) (v : V) :
  a <> k -> Py.dict_get (Py.dict_set d k v) a = Py.dict_get d a.
Proof.
  intros N. induction d as [|[k' v'] d IH]; simpl.
  - destruct (String.eqb k a) eqn:E; [|reflexivity].
    apply String.eqb_eq in E. congruence.
  - destruct (String.eqb k' k) eqn:E; simpl.
    + apply String.eqb_eq in E. subst k'.
      destruct (String.eqb k a) eqn:E'; [|reflexivity].
      apply String.eqb_eq in E'. congruence.
    + now rewrite IH.
Qed.


Lemma dict_del_keep {V : Type} (d : list (string * V)) (k a : string) :
  In a (map fst d) -> a <> k -> In a (map fst (Py.dict_del d k)).
Proof.
  intros H N. destruct (dict_get_in d a H) as (v & G).
  rewrite <- (dict_del_other d k a N) in G. eapply dict_get_some_in; eauto.
Qed.

Lemma dict_get_member {V : Type} (d : list (string * V)) (k : string) (v : V) :
  Py.dict_get d k = Some v -> In (k, v) d.
Proof.
  induction d as [|[k' v'] d IH]; simpl; [discriminate|].
  destruct (String.eqb k' k) eqn:E.
  - apply String.eqb_eq in E. intros [= ->]. subst. auto.
  - auto.
Qed.

Lemma distinct_NoDup (keys : list string) :
  Py.distinct keys = true -> NoDup keys.
Proof.
  induction keys as [|k r IH]; simpl; [constructor|].
  intros H. apply andb_true_iff in H as [A B]. constructor; [|auto].
  intros I. apply negb_true_iff in A.
  assert (E : existsb (String.eqb k) r = true)
    by (apply existsb_exists; exists k; split; [assumption|apply String.eqb_refl]).
  congruence.
Qed.

Lemma NoDup_distinct (keys : list string) :
  NoDup keys -> Py.distinct keys = true.
Proof.
  induction 1 as [|k r N _ IH]; simpl; [reflexivity|].
  rewrite IH, andb_true_r. apply negb_true_iff.
  destruct (existsb (String.eqb k) r) eqn:E; [|reflexivity].
  apply existsb_exists in E as (x & I & E). apply String.eqb_eq in E.
  now subst x.
Qed.

Lemma dict_del_length {V : Type} (d : list (string * V)) (k : string) :
  (List.length d <= S (List.length (Py.dict_del d k)))%nat.
Proof.
  induction d as [|[k' v'] d IH]; simpl; [lia|].
  destruct (String.eqb k' k); simpl; lia.
Qed.

Lemma dict_get_distinct {V : Type} (d : list (string * V)) (k : string) (v : V) :
  Py.distinct (map fst d) = true -> In (k, v) d -> Py.dict_get d k = Some v.
Proof.
  induction d as [|[k' v'] d IH]; simpl; [tauto|].
  intros D [E|I].
  - injection E as -> ->. now rewrite String.eqb_refl.
  - apply andb_true_iff in D as [N D].
    destruct (String.eqb k' k) eqn:E; [|auto].
    apply String.eqb_eq in E. subst k'. apply negb_true_iff in N.
    assert (X : existsb (String.eqb k) (map fst d) = true).
    { apply existsb_exists. exists k. split; [|apply String.eqb_refl].
      change k with (fst (k, v)). now apply in_map. }
    congruence.
Qed.

End DictFacts.

(** ** Pure paths ([pathlib]) *)

Module PathFacts.

Import pathlib.

Lemma truthy_false (s : string) : Py.truthy s = false -> s = EmptyString.
Proof. destruct s; [reflexivity|discriminate]. Qed.

Lemma parts_eqb_eq (a b : list string) : parts_eqb a b = true <-> a = b.
Proof.
  revert b. induction a as [|x a IH]; intros [|y b]; simpl;
    try (split; [discriminate|discriminate]); [tauto|].
  rewrite andb_true_iff, String.eqb_eq, IH. split.
  - intros [-> ->]. reflexivity.
  - intros E. injection E. auto.
Qed.

Lemma valid_name_parts (x : string) :
  valid_name x = true ->
  Py.truthy x = true /\ String.eqb x "." = false /\ has_sep x = false.
Proof.
  unfold valid_name, keep_name. rewrite !andb_true_iff, !negb_true_iff. tauto.
Qed.

Lemma split_no_sep (x : string) : has_sep x = false -> Py.split "/" x = [x].
Proof.
  induction x as [|a r IH]; simpl; [reflexivity|].
  intros H. apply orb_false_iff in H as [Ha Hr].
  rewrite Ha, (IH Hr). reflexivity.
Qed.

Lemma split_app_sep (x rest : string) :
  has_sep x = false ->
  Py.split "/" (x ++ String "/" rest) = x :: Py.split "/" rest.
Proof.
  induction x as [|a r IH]; simpl; [reflexivity|].
  intros H. apply orb_false_iff in H as [Ha Hr].
  rewrite Ha, (IH Hr). reflexivity.
Qed.

Lemma split_join (ns : list string) :
  ns <> [] -> forallb valid_name ns = true ->
  Py.split "/" (Py.join "/" ns) = ns.
Proof.
  induction ns as [|x ns IH]; [congruence|]. intros _ H.
  simpl in H. apply andb_true_iff in H as [Hx Hns].
  destruct (valid_name_parts x Hx) as (_ & _ & Hs).
  destruct ns as [|y ns]; [now apply split_no_sep|].
  change (Py.join "/" (x :: y :: ns))
    with (x ++ String "/" (Py.join "/" (y :: ns)))%string.
  rewrite (split_app_sep _ _ Hs), IH; [reflexivity|discriminate|assumption].
Qed.

Lemma filter_valid (ns : list string) :
  forallb valid_name ns = true -> filter keep_name ns = ns.
Proof.
  induction ns as [|x ns IH]; simpl; [reflexivity|].
  intros H. apply andb_true_iff in H as [Hx Hns].
  unfold valid_name in Hx. apply andb_true_iff in Hx as [Hk _].
  rewrite Hk, (IH Hns). reflexivity.
Qed.

Lemma rel_names_name (x : string) : valid_name x = true -> rel_names x = [x].
Proof.
  intros Hx. destruct (valid_name_parts x Hx) as (_ & _ & Hs).
  unfold rel_names. rewrite (split_no_sep x Hs).
  apply (filter_valid [x]). simpl. now rewrite Hx.
Qed.

Lemma not_sep_first (a : ascii) (r : string) :
  Ascii.eqb a "/" = false -> splitroot (String a r) = (EmptyString, String a r).
Proof.
  destruct a as [[] [] [] [] [] [] [] []]; intros H; try reflexivity;
    discriminate H.
Qed.

Lemma not_sep_lstrip (a : ascii) (r : string) :
  Ascii.eqb a "/" = false -> lstrip_sep (String a r) = String a r.
Proof.
  destruct a as [[] [] [] [] [] [] [] []]; intros H; try reflexivity;
    discriminate H.
Qed.

Lemma splitroot_name (x : string) :
  valid_name x = true -> splitroot x = (EmptyString, x).
Proof.
  intros Hx. destruct (valid_name_parts x Hx) as (Ht & _ & Hs).
  destruct x as [|a r]; [discriminate|]. simpl in Hs.
  apply orb_false_iff in Hs as [Ha _]. now apply not_sep_first.
Qed.

(** Names that need no parsing go through the parser unchanged. *)
Lemma parse_parts_names (pre ns : list string) :
  forallb valid_name ns = true ->
  parse_parts (pre ++ ns)
  = {| root := root (parse_parts pre);
       names := names (parse_parts pre) ++ ns |}.
Proof.
  induction ns as [|x ns IH] using rev_ind; intros H.
  - rewrite !app_nil_r. now destruct (parse_parts pre).
  - rewrite forallb_app in H. apply andb_true_iff in H as [Hns Hx].
    simpl in Hx. rewrite andb_true_r in Hx.
    unfold parse_parts in *. rewrite app_assoc, rev_app_distr. simpl.
    rewrite (splitroot_name x Hx). simpl.
    rewrite (IH Hns), (rel_names_name x Hx). simpl.
    now rewrite <- app_assoc.
Qed.

Lemma wf_parts (p : PurePath) :
  wf p = true ->
  (root p = EmptyString \/ root p = "/" \/ root p = "//")
  /\ forallb valid_name (names p) = true.
Proof.
  unfold wf, valid_root.
  rewrite andb_true_iff, !orb_true_iff, !String.eqb_eq. tauto.
Qed.

(** A path passed to a constructor comes out as it went in. *)
Lemma parse_parts_parts (p : PurePath) :
  wf p = true -> parse_parts (_parts p) = p.
Proof.
  intros H. destruct (wf_parts p H) as (Hr & Hn).
  destruct p as [r ns]. simpl in *. unfold _parts. simpl.
  destruct Hr as [-> | [-> | ->]]; simpl.
  - exact (parse_parts_names [] ns Hn).
  - exact (parse_parts_names ["/"] ns Hn).
  - exact (parse_parts_names ["//"] ns Hn).
Qed.

Lemma join_first (x : string) (ns : list string) :
  exists t, Py.join "/" (x :: ns) = (x ++ t)%string.
Proof.
  destruct ns as [|y ns]; simpl.
  - exists EmptyString. now rewrite PyFacts.append_empty.
  - eauto.
Qed.

(** Reading back the text of an absolute path. *)
Lemma parse_str (ns : list string) :
  ns <> [] -> forallb valid_name ns = true ->
  parse_parts [("/" ++ Py.join "/" ns)%string] = {| root := "/"; names := ns |}.
Proof.
  intros Hne Hns.
  change (parse_parts [("/" ++ Py.join "/" ns)%string])
    with (let (r, rel) := splitroot (String "/" (Py.join "/" ns)) in
          if Py.truthy r then {| root := r; names := rel_names rel |}
          else {| root := EmptyString; names := [] ++ rel_names rel |}).
  assert (Hs : splitroot (String "/" (Py.join "/" ns))
               = ("/", Py.join "/" ns)).
  { destruct ns as [|x ns]; [congruence|].
    simpl in Hns. apply andb_true_iff in Hns as [Hx _].
    destruct (valid_name_parts x Hx) as (Ht & _ & Hsep).
    destruct (join_first x ns) as (t & ->).
    destruct x as [|a r]; [discriminate|]. simpl in Hsep.
    apply orb_false_iff in Hsep as [Ha _].
    unfold splitroot.
    change (String a r ++ t)%string with (String a (r ++ t)).
    change (lstrip_sep (String "/" (String a (r ++ t))))
      with (lstrip_sep (String a (r ++ t))).
    rewrite (not_sep_lstrip a _ Ha).
    replace (String.length (String "/" (String a (r ++ t)))
             - String.length (String a (r ++ t)))%nat with 1%nat
      by (simpl String.length; lia).
    reflexivity. }
  rewrite Hs. simpl. unfold rel_names.
  now rewrite (split_join ns Hne Hns), (filter_valid ns Hns).
Qed.


Lemma firstn_eq_split {A : Type} (n : nat) (l pre : list A) :
  firstn n l = pre -> List.length pre = n -> l = pre ++ skipn n l.
Proof. intros <- _. symmetry. apply firstn_skipn. Qed.

Lemma empty_not_valid (ns : list string) :
  forallb valid_name (EmptyString :: ns) = false.
Proof. reflexivity. Qed.

(** What [relative_to] returns when it returns: the roots agree and the
    names of the first path are those of the second followed by the
    answer's. *)
Lemma relative_to_ok (self other rel : PurePath) :
  wf self = true -> wf other = true ->
  relative_to self other = Py.Ok rel ->
  root self = root other
  /\ names self = names other ++ names rel
  /\ root rel = EmptyString
  /\ forallb valid_name (names rel) = true.
Proof.
  intros Hs Ho. destruct (wf_parts self Hs) as (Rs & Ns).
  destruct (wf_parts other Ho) as (Ro & No).
  destruct self as [rs ns], other as [ro no]. simpl in *.
  unfold relative_to, abs_parts. simpl.
  destruct (Py.truthy ro) eqn:To.
  - (* the second path has a root *)
    simpl List.length. simpl Nat.eqb.
    destruct (Py.truthy rs) eqn:Ts.
    + simpl firstn. simpl parts_eqb.
      destruct (String.eqb rs ro) eqn:E; simpl;
        [apply String.eqb_eq in E|discriminate].
      destruct (parts_eqb (firstn (List.length no) ns) no) eqn:P; simpl;
        [|discriminate].
      apply parts_eqb_eq in P. intros [= <-]. simpl.
      pose proof (firstn_eq_split _ _ _ P eq_refl) as S.
      repeat split; auto.
      rewrite S, forallb_app in Ns. now apply andb_true_iff in Ns.
    + destruct ns as [|x ns]; simpl; [discriminate|].
      destruct x as [|c x]; [discriminate Ns|]. simpl. discriminate.
  - (* the second path is relative *)
    apply truthy_false in To. subst ro.
    destruct no as [|y no].
    + simpl. destruct (Py.truthy rs) eqn:Ts; [discriminate|].
      apply truthy_false in Ts. subst rs. intros [= <-]. simpl. auto.
    + simpl List.length. simpl Nat.eqb.
      destruct (Py.truthy rs) eqn:Ts.
      * destruct y as [|c y]; [discriminate No|]. simpl. discriminate.
      * apply truthy_false in Ts. subst rs.
        destruct (parts_eqb (firstn (S (List.length no)) ns) (y :: no)) eqn:P;
          simpl; [|discriminate].
        apply parts_eqb_eq in P. intros [= <-]. simpl.
        pose proof (firstn_eq_split _ _ _ P eq_refl) as S.
        repeat split; auto.
        -- now destruct (List.length no).
        -- rewrite S, forallb_app in Ns. now apply andb_true_iff in Ns.
Qed.

Lemma relative_to_anchor (ns : list string) :
  relative_to {| root := "/"; names := ns |} (parse_parts ["/"])
  = Py.Ok {| root := EmptyString; names := ns |}.
Proof. reflexivity. Qed.

Lemma truediv_names (p : PurePath) (ns : list string) :
  forallb valid_name ns = true ->
  __truediv__ p {| root := EmptyString; names := ns |}
  = {| root := root p; names := names p ++ ns |}.
Proof.
  intros H. unfold __truediv__, _parts. simpl.
  pose proof (parse_parts_names [] ns H) as E. simpl in E. now rewrite E.
Qed.

Lemma firstn_length_app {A : Type} (a b : list A) :
  firstn (List.length a) (a ++ b) = a.
Proof. induction a; simpl; congruence. Qed.

Lemma skipn_length_app {A : Type} (a b : list A) :
  skipn (List.length a) (a ++ b) = b.
Proof. induction a; simpl; congruence. Qed.

Lemma parts_eqb_refl (a : list string) : parts_eqb a a = true.
Proof. now apply parts_eqb_eq. Qed.

(** A path written as the root followed by more names is relative to the
    root, by those names. *)
Lemma relative_to_prefix (r : PurePath) (xs : list string) :
  wf r = true ->
  relative_to {| root := root r; names := names r ++ xs |} r
  = Py.Ok {| root := EmptyString; names := xs |}.
Proof.
  intros W. destruct (wf_parts r W) as (R & _). destruct r as [rr ns].
  cbn [root names] in *. unfold relative_to, abs_parts. cbn [root names].
  destruct R as [->|[->| ->]]; cbn [Py.truthy].
  - destruct ns as [|y ns].
    + reflexivity.
    + rewrite firstn_length_app, parts_eqb_refl, skipn_length_app. cbn [negb].
      now destruct (List.length (y :: ns) =? 1)%nat.
  - cbn [List.length Nat.eqb firstn skipn parts_eqb].
    rewrite firstn_length_app, parts_eqb_refl, skipn_length_app. reflexivity.
  - cbn [List.length Nat.eqb firstn skipn parts_eqb].
    rewrite firstn_length_app, parts_eqb_refl, skipn_length_app. reflexivity.
Qed.

Lemma split_pieces (s : string) :
  forallb (fun x => negb (has_sep x)) (Py.split "/" s) = true.
Proof.
  induction s as [|a r IH]; [reflexivity|]. cbn [Py.split].
  destruct (Ascii.eqb a "/") eqn:E; [exact IH|].
  destruct (Py.split "/" r) as [|w ws]; cbn in *; rewrite E; [reflexivity|].
  exact IH.
Qed.

Lemma rel_names_valid (rel : string) :
  forallb valid_name (rel_names rel) = true.
Proof.
  unfold rel_names. pose proof (split_pieces rel) as H.
  induction (Py.split "/" rel) as [|x xs IH]; [reflexivity|].
  cbn [forallb] in H. apply andb_true_iff in H as [Hx Hxs].
  cbn [filter]. destruct (keep_name x) eqn:K; [|auto].
  cbn [forallb]. unfold valid_name at 1. rewrite K, Hx. cbn [andb]. auto.
Qed.

Lemma splitroot_root (part : string) :
  valid_root (fst (splitroot part)) = true.
Proof.
  destruct part as [|a r]; [reflexivity|].
  destruct (Ascii.eqb a "/") eqn:E.
  - apply Ascii.eqb_eq in E. subst a. unfold splitroot.
    destruct (_ =? 2)%nat; reflexivity.
  - now rewrite (not_sep_first a r E).
Qed.

(** Whatever text it is given, the parser produces a well-formed path. *)
Lemma parse_parts_wf (parts : list string) : wf (parse_parts parts) = true.
Proof.
  unfold parse_parts. induction (rev parts) as [|part rest IH]; [reflexivity|].
  cbn [parse_rev]. pose proof (splitroot_root part) as R.
  destruct (splitroot part) as [r rel]. cbn [fst] in R.
  destruct (Py.truthy r).
  - unfold wf. cbn [root names]. now rewrite R, rel_names_valid.
  - unfold wf in *. cbn [root names]. apply andb_true_iff in IH as [A B].
    now rewrite A, forallb_app, B, rel_names_valid.
Qed.

Lemma eq_anchor (ns : list string) :
  __eq__ {| root := "/"; names := ns |} (parse_parts ["/"]) = true <-> ns = [].
Proof.
  unfold __eq__. change (_parts (parse_parts ["/"])) with ["/"].
  unfold _parts. simpl. destruct ns; simpl; split; congruence.
Qed.

End PathFacts.

(** ** Object identifiers ([didl.IdPath]) *)

Module IdPathFacts.

Import pathlib PathFacts.

Lemma from_path_ok (root p rel : PurePath) :
  wf root = true -> wf p = true ->
  relative_to p root = Py.Ok rel ->
  IdPath.from_path root p = Py.Ok {| pathlib.root := "/"; names := names rel |}.
Proof.
  intros Hr Hp E. unfold IdPath.from_path. rewrite E. cbn [Py.bind].
  destruct (relative_to_ok p root rel Hp Hr E) as (_ & _ & R & N).
  destruct rel as [r ns]. simpl in *. subst r. unfold IdPath.cls, _parts. simpl.
  f_equal. exact (parse_parts_names ["/"] ns N).
Qed.

Lemma as_id_absolute (ns : list string) :
  IdPath.as_id {| root := "/"; names := ns |}
  = match ns with
    | [] => "0"
    | _ :: _ => ("/" ++ Py.join "/" ns)%string
    end.
Proof.
  unfold IdPath.as_id, IdPath.cls.
  destruct ns as [|x ns].
  - reflexivity.
  - destruct (__eq__ _ _) eqn:E; [apply eq_anchor in E; discriminate|].
    unfold __str__. simpl root. simpl names.
    reflexivity.
Qed.

Lemma from_as_id (ns : list string) :
  forallb valid_name ns = true ->
  IdPath.from_id (IdPath.as_id {| root := "/"; names := ns |})
  = {| root := "/"; names := ns |}.
Proof.
  intros H. rewrite as_id_absolute. destruct ns as [|x ns]; [reflexivity|].
  unfold IdPath.from_id.
  change (String.eqb ("/" ++ Py.join "/" (x :: ns)) "0") with false.
  cbv iota. unfold IdPath.cls. apply parse_str; [discriminate|assumption].
Qed.

Lemma as_path_absolute (root : PurePath) (ns : list string) :
  forallb valid_name ns = true ->
  IdPath.as_path {| pathlib.root := "/"; names := ns |} root
  = Py.Ok {| pathlib.root := pathlib.root root; names := names root ++ ns |}.
Proof.
  intros H. unfold IdPath.as_path, IdPath.cls.
  rewrite relative_to_anchor. cbn [Py.bind]. now rewrite truediv_names.
Qed.

Lemma round_trip (root p : PurePath) :
  wf root = true -> wf p = true ->
  Py.is_ok (relative_to p root) = true ->
  (i <- IdPath.from_path root p ;;
   IdPath.as_path (IdPath.from_id (IdPath.as_id i)) root) = Py.Ok p.
Proof.
  intros Hr Hp E. destruct (relative_to p root) as [rel|] eqn:R; [|discriminate].
  rewrite (from_path_ok root p rel Hr Hp R). cbn [Py.bind].
  destruct (relative_to_ok p root rel Hp Hr R) as (A & B & _ & N).
  rewrite (from_as_id _ N), (as_path_absolute root _ N).
  destruct p as [r ns]. simpl in *. now rewrite A, B.
Qed.

(** C3.  For a path [p] under the media root, [from_path] and [as_id]
    followed by [from_id] and [as_path] give [p] back; the identifier is
    ["0"] when [p] is the root and the relative path written from ["/"]
    otherwise; ["0"] leads back to the root; and two paths under the root
    with the same identifier are the same path. *)
Theorem id_round_trip (root p rel : PurePath) :
  wf root = true -> wf p = true ->
  relative_to p root = Py.Ok rel ->
  (i <- IdPath.from_path root p ;;
   IdPath.as_path (IdPath.from_id (IdPath.as_id i)) root) = Py.Ok p
  /\ (i <- IdPath.from_path root p ;; Py.Ok (IdPath.as_id i))
     = Py.Ok (match names rel with
              | [] => "0"
              | _ :: _ => ("/" ++ Py.join "/" (names rel))%string
              end)
  /\ (names rel = [] <-> p = root)
  /\ (i <- IdPath.from_path root root ;; Py.Ok (IdPath.as_id i)) = Py.Ok "0"
  /\ IdPath.as_path (IdPath.from_id "0") root = Py.Ok root
  /\ forall q : PurePath,
       wf q = true ->
       Py.is_ok (relative_to q root) = true ->
       (i <- IdPath.from_path root q ;; Py.Ok (IdPath.as_id i))
       = (i <- IdPath.from_path root p ;; Py.Ok (IdPath.as_id i)) ->
       q = p.
Proof.
  intros Hr Hp R.
  assert (Ok : Py.is_ok (relative_to p root) = true)
    by now rewrite R.
  destruct (relative_to_ok p root rel Hp Hr R) as (A & B & _ & N).
  repeat split.
  - now apply round_trip.
  - rewrite (from_path_ok root p rel Hr Hp R). cbn [Py.bind].
    now rewrite as_id_absolute.
  - intros E. destruct p as [r ns], root as [r' ns']. simpl in *.
    now rewrite A, B, E, app_nil_r.
  - intros ->. apply (f_equal (@List.length string)) in B.
    rewrite length_app in B. destruct (names rel); [reflexivity|simpl in B; lia].
  - destruct (relative_to root root) as [rr|] eqn:RR.
    + rewrite (from_path_ok root root rr Hr Hr RR). cbn [Py.bind].
      destruct (relative_to_ok root root rr Hr Hr RR) as (_ & B' & _ & _).
      apply (f_equal (@List.length string)) in B'. rewrite length_app in B'.
      rewrite as_id_absolute. destruct (names rr); [reflexivity|simpl in B'; lia].
    + exfalso. revert RR. unfold relative_to.
      destruct (wf_parts root Hr) as (Rr & _).
      destruct root as [r ns]. unfold abs_parts. simpl in *.
      destruct (Py.truthy r) eqn:T.
      * simpl. rewrite String.eqb_refl. simpl.
        rewrite firstn_all. 
        replace (parts_eqb ns ns) with true
          by (symmetry; now apply parts_eqb_eq).
        discriminate.
      * destruct ns as [|x ns]; simpl; [discriminate|].
        rewrite String.eqb_refl, firstn_all. simpl.
        replace (parts_eqb ns ns) with true
          by (symmetry; now apply parts_eqb_eq).
        discriminate.
  - change (IdPath.from_id "0") with {| pathlib.root := "/"; names := [] |}.
    rewrite (as_path_absolute root [] eq_refl), app_nil_r. now destruct root.
  - intros q Hq Oq E.
    pose proof (round_trip root q Hr Hq Oq) as Tq.
    pose proof (round_trip root p Hr Hp Ok) as Tp.
    destruct (IdPath.from_path root q) as [iq|]; [|discriminate].
    destruct (IdPath.from_path root p) as [ip|]; [|discriminate].
    cbn [Py.bind] in *. injection E as E. rewrite E in Tq.
    congruence.
Qed.

(** A file two levels below [/srv/media]. *)
Lemma id_round_trip_witness :
  let root := parse_parts ["/srv/media"] in
  let p := parse_parts ["/srv/media/movies/a.mp4"] in
  (i <- IdPath.from_path root p ;;
   IdPath.as_path (IdPath.from_id (IdPath.as_id i)) root) = Py.Ok p
  /\ (i <- IdPath.from_path root p ;; Py.Ok (IdPath.as_id i))
     = Py.Ok "/movies/a.mp4".
Proof.
  intros root p.
  destruct (id_round_trip root p
              {| pathlib.root := EmptyString; names := ["movies"; "a.mp4"] |}
              eq_refl eq_refl eq_refl) as (H1 & H2 & _).
  split; [exact H1|exact H2].
Defined.

End IdPathFacts.

(** ** Byte ranges ([http_.Range], [send_file], the media branch of [do_get]) *)

Module RangeFacts.

Import http_.

Lemma span_digits_app (s rest : string) :
  Py.all_digits s = true ->
  match rest with
  | EmptyString => True
  | String c _ => Py.is_digit c = false
  end ->
  Range.span_digits (s ++ rest) = (s, rest).
Proof.
  intros Hs Hr. induction s as [|c s IH]; simpl.
  - destruct rest as [|c r]; simpl in *; [reflexivity|]. now rewrite Hr.
  - simpl in Hs. apply andb_true_iff in Hs as [Hc Hs].
    rewrite Hc, (IH Hs). reflexivity.
Qed.

(** The pattern on a header written from two natural numbers. *)
Lemma parser_closed (a b : Z) :
  0 <= a -> 0 <= b ->
  Range._parser ("bytes=" ++ Py.str_int a ++ "-" ++ Py.str_int b)
  = Some (Py.str_int a, Some (Py.str_int b)).
Proof.
  intros Ha Hb. unfold Range._parser.
  change (Range.strip_prefix "bytes=" ("bytes=" ++ Py.str_int a ++ "-" ++ Py.str_int b))
    with (Some (Py.str_int a ++ "-" ++ Py.str_int b)%string).
  cbv beta iota.
  rewrite (span_digits_app (Py.str_int a) ("-" ++ Py.str_int b));
    [|now apply PyFacts.str_int_digits|reflexivity].
  pose proof (PyFacts.str_int_truthy a) as Ta.
  destruct (Py.str_int a) as [|c s]; [discriminate|].
  change ("-" ++ Py.str_int b)%string with (String "-" (Py.str_int b)).
  rewrite <- (PyFacts.append_empty (Py.str_int b)) at 1.
  rewrite (span_digits_app (Py.str_int b) "");
    [|now apply PyFacts.str_int_digits|exact I].
  now rewrite PyFacts.str_int_truthy.
Qed.

Lemma init_closed (f : File) (a b : Z) :
  0 <= a -> 0 <= b ->
  Range.__init__ f ("bytes=" ++ Py.str_int a ++ "-" ++ Py.str_int b)
  = Py.Ok {| Range._partial := true; Range.size := st_size f;
             Range.start := a; Range.end_ := b |}.
Proof.
  intros Ha Hb. unfold Range.__init__. rewrite (parser_closed a b Ha Hb).
  cbn [fst snd]. rewrite !PyFacts.str_int_truthy.
  rewrite !PyFacts.int_str_nonneg by assumption. reflexivity.
Qed.

Lemma init_whole (f : File) (header : string) :
  Range._parser header = None ->
  Range.__init__ f header
  = Py.Ok {| Range._partial := false; Range.size := st_size f;
             Range.start := 0; Range.end_ := st_size f - 1 |}.
Proof. intros H. unfold Range.__init__. rewrite H. reflexivity. Qed.

Lemma copyfile_length (fp : list Byte.byte) (offset count : Z) :
  0 <= offset -> 0 <= count ->
  offset + count <= Z.of_nat (List.length fp) ->
  Z.of_nat (List.length (Handler.copyfile fp offset count)) = count.
Proof.
  intros Ho Hc Hl. unfold Handler.copyfile.
  rewrite length_firstn, length_skipn. lia.
Qed.

Lemma copyfile_whole (fp : list Byte.byte) :
  Handler.copyfile fp 0 (Z.of_nat (List.length fp)) = fp.
Proof.
  unfold Handler.copyfile. rewrite Nat2Z.id. simpl. apply firstn_all.
Qed.

(** [send_file] answers 416 exactly when the range has length zero; a
    negative length never gets that far. *)
Lemma send_file_416 (f : File) (r : Range.t) :
  Handler.send_file f (Some r) = Py.Ok (ErrorPage REQUESTED_RANGE_NOT_SATISFIABLE)
  <-> Range.__len__ r = 0.
Proof.
  unfold Handler.send_file, Py.len. cbn [Py.bind].
  destruct (Range.__len__ r <? 0) eqn:N; cbn [Py.bind].
  - apply Z.ltb_lt in N. split; [discriminate|lia].
  - apply Z.ltb_ge in N. destruct (Range.__len__ r <=? 0) eqn:L.
    + apply Z.leb_le in L. split; [lia|reflexivity].
    + apply Z.leb_gt in L. split; [discriminate|lia].
Qed.


Lemma clamp_index_inside (n i : Z) : 0 <= i <= n -> Py.clamp_index n i = i.
Proof.
  intros H. unfold Py.clamp_index.
  destruct (i <? 0) eqn:A; [apply Z.ltb_lt in A; lia|].
  rewrite A. destruct (n <? i) eqn:B; [apply Z.ltb_lt in B; lia|reflexivity].
Qed.

Lemma slice_copyfile (fp : list Byte.byte) (a b : Z) :
  0 <= a <= b -> b < Z.of_nat (List.length fp) ->
  Handler.copyfile fp a (b - a + 1) = Py.slice fp a (b + 1).
Proof.
  intros Hab Hb. unfold Handler.copyfile, Py.slice.
  rewrite !clamp_index_inside by lia. do 2 f_equal. lia.
Qed.

Lemma send_file_partial (f : File) (a b : Z) :
  0 <= a <= b ->
  Handler.send_file f
    (Some {| Range._partial := true; Range.size := st_size f;
             Range.start := a; Range.end_ := b |})
  = Py.Ok (Content PARTIAL_CONTENT
             [ (Header.CONTENT_TYPE, magic f);
               (Header.CONTENT_LENGTH, Py.str_int (b - a + 1));
               (Header.CONTENT_RANGE,
                 "bytes " ++ Py.str_int a ++ "-" ++ Py.str_int b ++ "/"
                 ++ Py.str_int (st_size f))%string ]
             (Handler.copyfile (data f) a (b - a + 1))).
Proof.
  intros Hab. unfold Handler.send_file, Py.len, Range.__len__.
  cbn [Py.bind Range.end_ Range.start Range.__bool__ Range._partial].
  replace (b - a + 1 <? 0) with false by (symmetry; apply Z.ltb_ge; lia).
  cbn [Py.bind].
  replace (b - a + 1 <=? 0) with false by (symmetry; apply Z.leb_gt; lia).
  reflexivity.
Qed.

Lemma send_file_whole (f : File) :
  0 < st_size f ->
  Handler.send_file f
    (Some {| Range._partial := false; Range.size := st_size f;
             Range.start := 0; Range.end_ := st_size f - 1 |})
  = Py.Ok (Content OK
             [ (Header.CONTENT_TYPE, magic f);
               (Header.CONTENT_LENGTH, Py.str_int (st_size f)) ]
             (data f)).
Proof.
  intros Hs. unfold Handler.send_file, Py.len, Range.__len__.
  cbn [Py.bind Range.end_ Range.start Range.__bool__ Range._partial].
  replace (st_size f - 1 - 0 + 1) with (st_size f) by lia.
  replace (st_size f <? 0) with false by (symmetry; apply Z.ltb_ge; lia).
  cbn [Py.bind].
  replace (st_size f <=? 0) with false by (symmetry; apply Z.leb_gt; lia).
  cbn [app]. unfold st_size at 3. now rewrite copyfile_whole.
Qed.

Lemma below_media_shape (path rel : pathlib.PurePath) :
  pathlib.relative_to path media.Server.paths.MEDIA = Py.Ok rel ->
  (exists rest, pathlib._parts path = "/" :: "media" :: rest)
  \/ (exists rest, pathlib._parts path = EmptyString :: "/" :: "media" :: rest).
Proof.
  unfold pathlib.relative_to.
  change (pathlib.abs_parts media.Server.paths.MEDIA)
    with [EmptyString; "/"; "media"].
  cbn [List.length Nat.eqb].
  destruct (pathlib.parts_eqb _ _) eqn:P; [|discriminate]. intros _.
  apply PathFacts.parts_eqb_eq in P.
  destruct path as [r ns]. unfold pathlib.abs_parts, pathlib._parts in *.
  cbn [pathlib.root pathlib.names] in *.
  destruct (Py.truthy r).
  - destruct ns as [|n1 ns]; [discriminate P|].
    injection P as -> ->. left. eauto.
  - destruct ns as [|n1 [|n2 [|n3 ns]]]; try discriminate P.
    injection P as -> -> ->. right. eauto.
Qed.

(** A request path below [/media] reaches the media branch of [do_get]. *)
Lemma do_get_below_media (h : host.t) (server : media.Server.t)
      (uri_path : string) (request : headers) (rel : pathlib.PurePath) :
  pathlib.relative_to (pathlib.parse_parts ["/"; uri_path])
    media.Server.paths.MEDIA = Py.Ok rel ->
  media.Handler.do_get h server uri_path request
  = media.Handler.get_media h (pathlib.parse_parts ["/"; uri_path]) request.
Proof.
  intros R. unfold media.Handler.do_get. cbv zeta. rewrite R.
  unfold pathlib.__eq__.
  destruct (below_media_shape _ _ R) as [(rest & ->)|(rest & ->)]; reflexivity.
Qed.

Section Served.

Variables (h : host.t) (server : media.Server.t) (uri_path : string).
Variables (rel : pathlib.PurePath) (f : File) (st_mtime : Z).

Hypothesis below_media :
  pathlib.relative_to (pathlib.parse_parts ["/"; uri_path])
    media.Server.paths.MEDIA = Py.Ok rel.
Hypothesis regular :
  host.stat h (pathlib.__truediv__ (host.media h) rel)
  = Some (host.Regular f st_mtime).

Lemma do_get_served (request : headers) :
  media.Handler.do_get h server uri_path request
  = (r <- Range.__init__ f (headers_get request Header.RANGE EmptyString) ;;
     Handler.send_file f (Some r)).
Proof.
  rewrite (do_get_below_media h server uri_path request rel below_media).
  unfold media.Handler.get_media. rewrite below_media. cbn [Py.bind].
  now rewrite regular.
Qed.

(** C1, as amended.  A file of size [S] is served under [/media]; [a] and
    [b] satisfy [0 <= a <= b < S].  A GET with [Range: bytes=a-b] is
    answered 206 with [Content-Range: bytes a-b/S], [Content-Length]
    [b-a+1] and the bytes [a..b] of the file; a GET of the same file whose
    Range header is absent or does not match the pattern is answered 200
    with [Content-Length] [S] and the whole file. *)
Theorem range_arithmetic (ranged plain : headers) (a b : Z) :
  0 <= a <= b -> b < st_size f ->
  headers_find ranged Header.RANGE
  = Some ("bytes=" ++ Py.str_int a ++ "-" ++ Py.str_int b)%string ->
  (forall v, headers_find plain Header.RANGE = Some v ->
             Range._parser v = None) ->
  media.Handler.do_get h server uri_path ranged
  = Py.Ok (Content PARTIAL_CONTENT
             [ (Header.CONTENT_TYPE, magic f);
               (Header.CONTENT_LENGTH, Py.str_int (b - a + 1));
               (Header.CONTENT_RANGE,
                 "bytes " ++ Py.str_int a ++ "-" ++ Py.str_int b ++ "/"
                 ++ Py.str_int (st_size f))%string ]
             (Py.slice (data f) a (b + 1)))
  /\ Z.of_nat (List.length (Py.slice (data f) a (b + 1))) = b - a + 1
  /\ media.Handler.do_get h server uri_path plain
     = Py.Ok (Content OK
                [ (Header.CONTENT_TYPE, magic f);
                  (Header.CONTENT_LENGTH, Py.str_int (st_size f)) ]
                (data f)).
Proof.
  intros Hab Hb Hranged Hplain.
  rewrite <- (slice_copyfile (data f) a b Hab Hb). repeat split.
  - rewrite do_get_served. unfold headers_get. rewrite Hranged.
    rewrite init_closed by lia. cbn [Py.bind].
    now apply send_file_partial.
  - apply copyfile_length; unfold st_size in Hb; lia.
  - rewrite do_get_served. rewrite init_whole.
    + cbn [Py.bind]. apply send_file_whole. lia.
    + unfold headers_get.
      destruct (headers_find plain Header.RANGE) as [v|] eqn:E;
        [now apply Hplain|reflexivity].
Qed.

End Served.

(** Scenario 3 of the specification: bytes 10 to 19 of a 1000-byte file,
    and the same file without a Range header. *)
Lemma range_arithmetic_witness :
  let h := Example.machine (Example.browse "0" "0" "10") in
  media.Handler.do_get h Example.server "/media/a.mp4"
    [("Host", "10.0.0.1:8200"); ("Range", "bytes=10-19")]
  = Py.Ok (Content PARTIAL_CONTENT
             [ ("Content-Type", "video/mp4"); ("Content-Length", "10");
               ("Content-Range", "bytes 10-19/1000") ]
             (repeat Byte.x41 10))
  /\ Z.of_nat (List.length (Py.slice (data Example.a_mp4) 10 20)) = 10
  /\ media.Handler.do_get h Example.server "/media/a.mp4"
       [("Host", "10.0.0.1:8200"); ("Range", "bytes=-500")]
     = Py.Ok (Content OK
                [ ("Content-Type", "video/mp4"); ("Content-Length", "1000") ]
                (repeat Byte.x41 1000)).
Proof.
  intros h.
  apply (range_arithmetic h Example.server "/media/a.mp4"
           {| pathlib.root := EmptyString; pathlib.names := ["a.mp4"] |}
           Example.a_mp4 7 eq_refl eq_refl
           [("Host", "10.0.0.1:8200"); ("Range", "bytes=10-19")]
           [("Host", "10.0.0.1:8200"); ("Range", "bytes=-500")] 10 19).
  - lia.
  - reflexivity.
  - reflexivity.
  - intros v H. injection H as <-. reflexivity.
Defined.

(** An empty file asked for without a Range header: 416, not 200. *)
Lemma empty_file_whole_get :
  let h := Example.machine (Example.browse "0" "0" "10") in
  host.stat h (pathlib.parse_parts ["/srv/media/empty.bin"])
  = Some (host.Regular Example.empty_bin 8)
  /\ st_size Example.empty_bin = 0
  /\ media.Handler.do_get h Example.server "/media/empty.bin"
       [("Host", "10.0.0.1:8200")]
     = Py.Ok (ErrorPage REQUESTED_RANGE_NOT_SATISFIABLE)
  /\ media.Handler.do_get h Example.server "/media/empty.bin"
       [("Host", "10.0.0.1:8200")]
     <> Py.Ok (Content OK
                 [ (Header.CONTENT_TYPE, magic Example.empty_bin);
                   (Header.CONTENT_LENGTH, Py.str_int (st_size Example.empty_bin)) ]
                 (data Example.empty_bin)).
Proof. cbv zeta. repeat split. discriminate. Qed.

(** C2.  What the code answers when the range starts past the end of a
    1000-byte file: with both ends given, 206 and a length of 1001; with
    the end left open, [len] raises.  416 is sent exactly when the length
    of the range is zero. *)
Theorem range_past_end :
  let h := Example.machine (Example.browse "0" "0" "10") in
  st_size Example.a_mp4 = 1000
  /\ media.Handler.do_get h Example.server "/media/a.mp4"
       [("Range", "bytes=2000-3000")]
     = Py.Ok (Content PARTIAL_CONTENT
                [ ("Content-Type", "video/mp4"); ("Content-Length", "1001");
                  ("Content-Range", "bytes 2000-3000/1000") ]
                [])
  /\ media.Handler.do_get h Example.server "/media/a.mp4"
       [("Range", "bytes=2000-")]
     = Py.Raise Py.ValueError
  /\ media.Handler.do_get h Example.server "/media/a.mp4"
       [("Range", "bytes=1000-")]
     = Py.Ok (ErrorPage REQUESTED_RANGE_NOT_SATISFIABLE)
  /\ forall (f : File) (r : Range.t),
       Handler.send_file f (Some r)
       = Py.Ok (ErrorPage REQUESTED_RANGE_NOT_SATISFIABLE)
       <-> Range.__len__ r = 0.
Proof.
  cbv zeta. repeat split; try apply send_file_416; apply send_file_416.
Qed.

End RangeFacts.

(** ** DIDL objects ([didl.Object]) *)

Module ObjectFacts.

Lemma admitted_true (h : host.t) (c : Object.t) :
  Object.admitted h c = Py.Ok true ->
  exists p, Object.path c = Py.Ok p
    /\ (host.is_dir h p = true
        \/ exists f m, host.stat h p = Some (host.Regular f m)
             /\ Object.media_class (hd EmptyString (Py.split "/" (http_.magic f)))
                = true).
Proof.
  unfold Object.admitted. intros H. bind_ok H. exists a. split; [reflexivity|].
  destruct (host.is_dir h a) eqn:D; [now left|right].
  bind_ok H. injection H as H.
  unfold Object.mime_type in E0. bind_ok E0. injection E0 as <-.
  unfold Object.mime in E1. rewrite E in E1. cbn [Py.bind] in E1.
  unfold host.is_dir in D.
  destruct (host.stat h a) as [[f m|m es]|]; try discriminate.
  injection E1 as <-. eauto.
Qed.

Lemma select_admitted (h : host.t) (self : Object.t)
      (result : list pathlib.PurePath) (cs : list Object.t) :
  Object.select h self result = Py.Ok cs ->
  Forall (fun c => Object.admitted h c = Py.Ok true) cs.
Proof.
  revert cs. induction result as [|p rest IH]; simpl; intros cs H.
  - injection H as <-. constructor.
  - bind_ok H. bind_ok H. bind_ok H. injection H as <-.
    destruct a0; [constructor|]; auto.
Qed.

(** C7.  Whatever the mode, every child that the iteration of an object
    yields designates a directory, or a regular file whose MIME string
    starts with [image], [audio] or [video]; so a regular file of any
    other class is not among them. *)
Theorem iter_filter (h : host.t) (self : Object.t) (cs : list Object.t) :
  Object.__iter__ h self = Py.Ok cs ->
  Forall
    (fun c =>
       exists p, Object.path c = Py.Ok p
         /\ (host.is_dir h p = true
             \/ exists f m, host.stat h p = Some (host.Regular f m)
                  /\ Object.media_class
                       (hd EmptyString (Py.split "/" (http_.magic f))) = true))
    cs
  /\ forall c p f m,
       In c cs -> Object.path c = Py.Ok p ->
       host.stat h p = Some (host.Regular f m) ->
       Object.media_class (hd EmptyString (Py.split "/" (http_.magic f))) = true.
Proof.
  intros H.
  assert (A : Forall (fun c => Object.admitted h c = Py.Ok true) cs).
  { unfold Object.__iter__ in H.
    destruct (String.eqb (Object.command self) "browse").
    - bind_ok H. eapply select_admitted; eauto.
    - destruct (String.eqb (Object.command self) "search").
      + bind_ok H. eapply select_admitted; eauto.
      + eapply select_admitted; eauto. }
  split.
  - eapply Forall_impl; [|exact A]. intros c. apply admitted_true.
  - intros c p f m Hc Hp Hs. rewrite Forall_forall in A.
    destruct (admitted_true h c (A c Hc)) as (p' & Hp' & [D | (f' & m' & S & M)]).
    + rewrite Hp in Hp'. injection Hp' as <-.
      unfold host.is_dir in D. rewrite Hs in D. discriminate.
    + rewrite Hp in Hp'. injection Hp' as <-.
      rewrite Hs in S. injection S as <- <-. exact M.
Qed.

(** Browsing and searching the example tree: the text file and the empty
    file are left out. *)
Lemma iter_filter_witness :
  let h := Example.machine (Example.browse "0" "0" "10") in
  let root := Object.__init__ (host.media h) "http://10.0.0.1:8200/media" "0" in
  (cs <- Object.__iter__ h (root "browse") ;; Py.Ok (map Object.id cs))
  = Py.Ok ["/a.mp4"; "/d"]
  /\ (cs <- Object.__iter__ h (root "search") ;; Py.Ok (map Object.id cs))
     = Py.Ok ["/a.mp4"; "/d"; "/d/b.mp3"; "/d/e"]
  /\ forall c p f m,
       In c (match Object.__iter__ h (root "search") with
             | Py.Ok cs => cs
             | Py.Raise _ => []
             end) ->
       Object.path c = Py.Ok p ->
       host.stat h p = Some (host.Regular f m) ->
       Object.media_class (hd EmptyString (Py.split "/" (http_.magic f))) = true.
Proof.
  intros h root. split; [reflexivity|]. split; [reflexivity|].
  exact (proj2 (iter_filter h (root "search") _ eq_refl)).
Defined.

(** *** The iteration returns *)

Section Sound.

Import pathlib PathFacts IdPathFacts DictFacts.

Lemma walk_app (n : host.node) (a b : list string) :
  host.walk n (a ++ b)
  = match host.walk n a with
    | Some c => host.walk c b
    | None => None
    end.
Proof.
  revert n. induction a as [|x a IH]; intros n; [reflexivity|].
  cbn [app host.walk]. destruct n as [f m|m es]; [reflexivity|].
  destruct (Py.dict_get es x); [apply IH|reflexivity].
Qed.

Lemma node_induction (P : host.node -> Prop) :
  (forall f m, P (host.Regular f m)) ->
  (forall m es, Forall (fun e => P (snd e)) es -> P (host.Directory m es)) ->
  forall n, P n.
Proof.
  intros HR HD. fix IH 1. intros [f m|m es]; [apply HR|apply HD].
  induction es as [|[x c] es IHes]; constructor; [apply IH|exact IHes].
Qed.

Lemma sound_directory (m : Z) (es : list (string * host.node)) :
  host.sound (host.Directory m es) = true ->
  forallb valid_name (map fst es) = true
  /\ Py.distinct (map fst es) = true
  /\ forall x c, In (x, c) es -> host.sound c = true.
Proof.
  cbn [host.sound]. rewrite !andb_true_iff. intros [[A B] C].
  repeat split; auto. intros x c I. rewrite forallb_forall in C.
  exact (C _ I).
Qed.

Lemma sound_walk (xs : list string) :
  forall n c, host.sound n = true -> host.walk n xs = Some c ->
              host.sound c = true.
Proof.
  induction xs as [|x xs IH]; intros n c S W; cbn [host.walk] in W.
  - now injection W as <-.
  - destruct n as [f m|m es]; [discriminate|].
    destruct (Py.dict_get es x) as [c'|] eqn:G; [|discriminate].
    apply (IH c' c); [|exact W].
    destruct (sound_directory m es S) as (_ & _ & C).
    apply (C x). now apply dict_get_member.
Qed.

Variable h : host.t.
Hypothesis media_wf : wf (host.media h) = true.
Hypothesis tree_sound : host.sound (host.tree h) = true.

Lemma stat_below (ys : list string) :
  host.stat h (host.below h ys) = host.walk (host.tree h) ys.
Proof. unfold host.stat, host.below. now rewrite relative_to_prefix. Qed.

Lemma child_below (ys : list string) (x : string) :
  _make_child_relpath (host.below h ys) x = host.below h (ys ++ [x]).
Proof. unfold _make_child_relpath, host.below. cbn. now rewrite app_assoc. Qed.

(** The object the iteration builds for a path that exists gets that path
    back, and the filter can be evaluated on it. *)
Lemma admitted_below (url : string) (ys : list string) (c : host.node) :
  forallb valid_name ys = true ->
  host.walk (host.tree h) ys = Some c ->
  exists i,
    IdPath.from_path (host.media h) (host.below h ys) = Py.Ok i
    /\ Object.path (Object.__init__ (host.media h) url (IdPath.as_id i) "browse")
       = Py.Ok (host.below h ys)
    /\ exists keep,
         Object.admitted h
           (Object.__init__ (host.media h) url (IdPath.as_id i) "browse")
         = Py.Ok keep.
Proof.
  intros V W. exists {| root := "/"; names := ys |}.
  assert (F : IdPath.from_path (host.media h) (host.below h ys)
              = Py.Ok {| root := "/"; names := ys |}).
  { unfold IdPath.from_path, host.below. rewrite relative_to_prefix by assumption.
    cbn [Py.bind]. unfold IdPath.cls, _parts. cbn [root names Py.truthy].
    f_equal. exact (parse_parts_names ["/"] ys V). }
  assert (P : Object.path (Object.__init__ (host.media h) url
                             (IdPath.as_id {| root := "/"; names := ys |})
                             "browse") = Py.Ok (host.below h ys)).
  { unfold Object.path, Object.__init__. cbn [Object.id_path Object.root].
    rewrite (from_as_id ys V). now rewrite (as_path_absolute _ ys V). }
  split; [exact F|]. split; [exact P|].
  unfold Object.admitted, Object.mime_type, Object.mime, host.is_dir.
  rewrite P. cbn [Py.bind]. rewrite stat_below, W.
  destruct c as [f m|m es]; cbn [Py.bind]; eauto.
Qed.

Lemma select_returns (self : Object.t) (result : list PurePath) :
  Object.root self = host.media h ->
  Forall (fun q => exists ys c, q = host.below h ys
                     /\ forallb valid_name ys = true
                     /\ host.walk (host.tree h) ys = Some c) result ->
  exists cs, Object.select h self result = Py.Ok cs.
Proof.
  intros R. induction 1 as [|q rest (ys & c & -> & V & W) _ (cs & IH)];
    cbn [Object.select].
  - eauto.
  - rewrite R. destruct (admitted_below (Object.url self) ys c V W)
      as (i & F & _ & keep & A).
    rewrite F. cbn [Py.bind]. rewrite A. cbn [Py.bind].
    rewrite IH. cbn [Py.bind]. eauto.
Qed.

Lemma scan_below (ys : list string) (m : Z) (es : list (string * host.node)) :
  forallb valid_name ys = true ->
  host.walk (host.tree h) ys = Some (host.Directory m es) ->
  Forall (fun q => exists zs c, q = host.below h zs
                     /\ forallb valid_name zs = true
                     /\ host.walk (host.tree h) zs = Some c)
         (host.scan (host.below h ys) es).
Proof.
  intros V W. apply Forall_forall. intros q I.
  unfold host.scan in I. apply in_map_iff in I as ([x c] & <- & I).
  cbn [fst]. rewrite child_below.
  destruct (sound_directory m es (sound_walk ys _ _ tree_sound W))
    as (Vn & D & _).
  exists (ys ++ [x]), c. split; [reflexivity|]. split.
  - rewrite forallb_app, V. cbn. rewrite andb_true_r.
    rewrite forallb_forall in Vn. apply Vn.
    change x with (fst (x, c)). now apply in_map.
  - rewrite walk_app, W. cbn [host.walk].
    now rewrite (dict_get_distinct es x c D I).
Qed.

Lemma rglob_below (n : host.node) :
  forall ys,
    forallb valid_name ys = true ->
    host.walk (host.tree h) ys = Some n ->
    Forall (fun q => exists zs c, q = host.below h zs
                       /\ forallb valid_name zs = true
                       /\ host.walk (host.tree h) zs = Some c)
           (host.rglob_node (host.below h ys) n).
Proof.
  induction n as [f m|m es IH] using node_induction; intros ys V W;
    cbn [host.rglob_node]; [constructor|].
  apply Forall_app. split; [now apply (scan_below ys m es)|].
  apply Forall_forall. intros q I. apply in_flat_map in I as ([x c] & I & Q).
  rewrite child_below in Q.
  destruct (sound_directory m es (sound_walk ys _ _ tree_sound W))
    as (Vn & D & _).
  rewrite Forall_forall in IH. specialize (IH _ I (ys ++ [x])).
  cbn [snd] in IH. rewrite Forall_forall in IH. apply IH; [| |exact Q].
  - rewrite forallb_app, V. cbn. rewrite andb_true_r.
    rewrite forallb_forall in Vn. apply Vn.
    change x with (fst (x, c)). now apply in_map.
  - rewrite walk_app, W. cbn [host.walk].
    now rewrite (dict_get_distinct es x c D I).
Qed.

Lemma path_init (url id command : string) (p : PurePath) :
  Object.path (Object.__init__ (host.media h) url id command) = Py.Ok p ->
  exists ys, forallb valid_name ys = true /\ p = host.below h ys.
Proof.
  unfold Object.path, Object.__init__, IdPath.as_path.
  cbn [Object.id_path Object.root]. intros H. bind_inv H as rel E.
  injection H as <-.
  assert (Wi : wf (IdPath.from_id id) = true).
  { unfold IdPath.from_id, IdPath.cls.
    destruct (String.eqb id "0"); apply parse_parts_wf. }
  destruct (relative_to_ok _ _ _ Wi (parse_parts_wf ["/"]) E)
    as (_ & _ & R & V).
  destruct rel as [r ys]. cbn [root names] in *. subst r.
  exists ys. split; [exact V|]. now rewrite truediv_names.
Qed.

(** On a sound tree the iteration of an object returns, in either mode,
    whenever the object's identifier names a path. *)
Lemma iter_returns (url id command : string) :
  Py.is_ok (Object.path (Object.__init__ (host.media h) url id command)) = true ->
  exists cs,
    Object.__iter__ h (Object.__init__ (host.media h) url id command)
    = Py.Ok cs.
Proof.
  intros O. unfold Object.__iter__.
  destruct (Object.path (Object.__init__ (host.media h) url id command))
    as [p|] eqn:P; [|discriminate].
  destruct (path_init _ _ _ _ P) as (ys & V & ->). cbn [Py.bind].
  destruct (String.eqb _ "browse");
    [|destruct (String.eqb _ "search")]; apply select_returns;
    try reflexivity; try constructor.
  - unfold host.glob. rewrite stat_below.
    destruct (host.walk (host.tree h) ys) as [[f m|m es]|] eqn:W;
      try constructor.
    now apply (scan_below ys m es).
  - unfold host.rglob. rewrite stat_below.
    destruct (host.walk (host.tree h) ys) as [n|] eqn:W; [|constructor].
    now apply rglob_below.
Qed.

End Sound.

End ObjectFacts.

(** ** The Browse and Search actions ([soap.Handler.do_browse]) *)

Module BrowseFacts.











End BrowseFacts.

(** ** Templates ([xml_.format], [xml_.find_text]) *)

Module XmlFacts.

Import xml_.

(** Induction on an element with the property in hand for its children. *)
Lemma Element_induction (P : Element -> Prop) :
  (forall t at_ x cs, Forall P cs -> P (Elem t at_ x cs)) ->
  forall e, P e.
Proof.
  intros H. fix IH 1. intros [t at_ x cs]. apply H.
  induction cs as [|c cs IHcs]; constructor; [apply IH|exact IHcs].
Qed.

Section OneKey.

Variables key value : string.

Lemma assign_self_none (e : Element) :
  assign_self key value e = None <-> find_self key e = None.
Proof.
  induction e as [t at_ x cs IH] using Element_induction. simpl.
  destruct (matches key t); [split; discriminate|].
  assert (L : first_map (assign_self key value) cs = None
              <-> first_some (find_self key) cs = None).
  { induction IH as [|c cs Hc _ IHcs]; simpl; [tauto|].
    destruct Hc as [Hc1 Hc2].
    destruct (assign_self key value c) eqn:A, (find_self key c) eqn:F.
    - split; discriminate.
    - discriminate (Hc2 eq_refl).
    - discriminate (Hc1 eq_refl).
    - destruct (first_map (assign_self key value) cs);
        [split; [discriminate|intros N; apply IHcs in N; discriminate]
        |split; [intros _; now apply IHcs|reflexivity]]. }
  destruct (first_map (assign_self key value) cs);
    [split; [discriminate|intros N; apply L in N; discriminate]
    |split; [intros _; now apply L|reflexivity]].
Qed.

Lemma first_map_found (cs cs' : list Element) :
  Forall (fun e => forall e', assign_self key value e = Some e' ->
                   option_map text (find_self key e') = Some value) cs ->
  first_map (assign_self key value) cs = Some cs' ->
  option_map text (first_some (find_self key) cs') = Some value.
Proof.
  intros IH. revert cs'. induction IH as [|c cs Hc _ IHcs]; simpl; intros cs' H.
  - discriminate.
  - destruct (assign_self key value c) as [c'|] eqn:A.
    + injection H as <-. simpl. specialize (Hc c' eq_refl).
      destruct (find_self key c'); [exact Hc|discriminate].
    + destruct (first_map (assign_self key value) cs) as [r'|]; [|discriminate].
      injection H as <-. simpl.
      apply assign_self_none in A. rewrite A. now apply IHcs.
Qed.

Lemma assign_self_found (e e' : Element) :
  assign_self key value e = Some e' ->
  option_map text (find_self key e') = Some value.
Proof.
  revert e'. induction e as [t at_ x cs IH] using Element_induction.
  intros e'. simpl. destruct (matches key t) eqn:M.
  - intros [= <-]. simpl. now rewrite M.
  - destruct (first_map (assign_self key value) cs) as [cs'|] eqn:F;
      [|discriminate].
    intros [= <-]. simpl. rewrite M. now apply (first_map_found cs).
Qed.

(** After [format] has set a key, [find_text] reads the value back. *)
Lemma assign_found (e e' : Element) :
  assign key value e = Some e' -> find_text e' key = Py.Ok value.
Proof.
  destruct e as [t at_ x cs]. unfold assign, find_text, find.
  destruct (first_map (assign_self key value) cs) as [cs'|] eqn:F;
    [|discriminate].
  intros [= <-]. simpl.
  assert (H : option_map text (first_some (find_self key) cs') = Some value).
  { apply (first_map_found cs); [|exact F].
    apply Forall_forall. intros c _ c'. apply assign_self_found. }
  destruct (first_some (find_self key) cs'); [|discriminate].
  now injection H as ->.
Qed.

Lemma assign_some (e : Element) :
  find key e <> None -> exists e', assign key value e = Some e'.
Proof.
  destruct e as [t at_ x cs]. unfold assign, find. simpl. intros H.
  destruct (first_map (assign_self key value) cs) as [cs'|] eqn:F; [eauto|].
  exfalso. apply H. clear H.
  induction cs as [|c cs IH]; simpl in *; [reflexivity|].
  destruct (assign_self key value c) eqn:A; [discriminate|].
  apply assign_self_none in A. rewrite A.
  destruct (first_map (assign_self key value) cs); [discriminate|auto].
Qed.

(** Setting one key leaves the text found under a key that shares no tag
    with it. *)
Variable other : string.
Hypothesis apart : forall t, matches key t = true -> matches other t = false.

Lemma first_map_other (cs cs' : list Element) :
  Forall (fun e => forall e', assign_self key value e = Some e' ->
                   option_map text (find_self other e')
                   = option_map text (find_self other e)) cs ->
  first_map (assign_self key value) cs = Some cs' ->
  option_map text (first_some (find_self other) cs')
  = option_map text (first_some (find_self other) cs).
Proof.
  intros IH. revert cs'. induction IH as [|c cs Hc _ IHcs]; simpl; intros cs' H.
  - discriminate.
  - destruct (assign_self key value c) as [c'|] eqn:A.
    + injection H as <-. simpl. specialize (Hc c' eq_refl).
      destruct (find_self other c'), (find_self other c);
        try discriminate; [exact Hc|reflexivity].
    + destruct (first_map (assign_self key value) cs) as [r'|]; [|discriminate].
      injection H as <-. simpl.
      destruct (find_self other c); [reflexivity|now apply IHcs].
Qed.

Lemma assign_self_other (e e' : Element) :
  assign_self key value e = Some e' ->
  option_map text (find_self other e') = option_map text (find_self other e).
Proof.
  revert e'. induction e as [t at_ x cs IH] using Element_induction.
  intros e'. simpl. destruct (matches key t) eqn:M.
  - intros [= <-]. simpl. now rewrite (apart t M).
  - destruct (first_map (assign_self key value) cs) as [cs'|] eqn:F;
      [|discriminate].
    intros [= <-]. simpl. destruct (matches other t); [reflexivity|].
    now apply first_map_other.
Qed.

Lemma assign_other (e e' : Element) :
  assign key value e = Some e' -> find_text e' other = find_text e other.
Proof.
  destruct e as [t at_ x cs]. unfold assign, find_text, find.
  destruct (first_map (assign_self key value) cs) as [cs'|] eqn:F;
    [|discriminate].
  intros [= <-]. simpl.
  assert (H : option_map text (first_some (find_self other) cs')
              = option_map text (first_some (find_self other) cs)).
  { apply first_map_other; [|exact F].
    apply Forall_forall. intros c _ c'. apply assign_self_other. }
  destruct (first_some (find_self other) cs'),
           (first_some (find_self other) cs); try discriminate;
    [now injection H as ->|reflexivity].
Qed.

End OneKey.

Lemma ends_with_app (suffix s : string) :
  ends_with suffix s = true -> exists pre, s = (pre ++ suffix)%string.
Proof.
  induction s as [|a s IH]; cbn [ends_with]; intros H;
    apply orb_true_iff in H as [H|H]; try discriminate.
  - apply String.eqb_eq in H. exists EmptyString. now subst suffix.
  - apply String.eqb_eq in H. exists EmptyString. now subst suffix.
  - destruct (IH H) as (pre & ->). exists (String a pre). reflexivity.
Qed.

Lemma append_assoc (a b c : string) :
  ((a ++ b) ++ c)%string = (a ++ b ++ c)%string.
Proof. induction a; simpl; congruence. Qed.

Lemma matches_app (key t : string) :
  matches key t = true -> exists pre, t = (pre ++ key)%string.
Proof.
  unfold matches. intros H. apply orb_true_iff in H as [H|H].
  - apply String.eqb_eq in H. exists EmptyString. now subst t.
  - destruct (ends_with_app _ _ H) as (pre & ->).
    exists (pre ++ "}")%string. now rewrite append_assoc.
Qed.

Lemma append_last_inj (a b : string) (c d : ascii) :
  (a ++ String c EmptyString)%string = (b ++ String d EmptyString)%string ->
  c = d.
Proof.
  revert b. induction a as [|x a IH]; intros [|y b]; simpl; intros H.
  - now injection H.
  - injection H as _ H. destruct b; discriminate H.
  - injection H as _ H. destruct a; discriminate H.
  - injection H as _ H. eauto.
Qed.

(** Two keys that end in different characters match no common tag. *)
Lemma matches_apart (k k' : string) (c d : ascii) :
  c <> d ->
  forall t, matches (k ++ String c EmptyString) t = true ->
            matches (k' ++ String d EmptyString) t = false.
Proof.
  intros N t H. destruct (matches (k' ++ String d EmptyString) t) eqn:H';
    [|reflexivity].
  destruct (matches_app _ _ H) as (p & ->).
  destruct (matches_app _ _ H') as (p' & E).
  rewrite <- !append_assoc in E. apply append_last_inj in E. congruence.
Qed.

(** A template that holds both keys is filled, and both values are read
    back from the result. *)
Lemma format_two (k k' : string) (c d : ascii) (v v' : string) (e : Element) :
  c <> d ->
  find (k ++ String c EmptyString) e <> None ->
  find (k' ++ String d EmptyString) e <> None ->
  exists filled,
    format e [ ((k ++ String c EmptyString)%string, v);
               ((k' ++ String d EmptyString)%string, v') ] = Py.Ok filled
    /\ find_text filled (k ++ String c EmptyString) = Py.Ok v
    /\ find_text filled (k' ++ String d EmptyString) = Py.Ok v'.
Proof.
  intros N F F'. cbn [format].
  destruct (assign_some _ v e F) as (e1 & A1). rewrite A1.
  assert (F1 : find (k' ++ String d EmptyString) e1 <> None).
  { pose proof (assign_other _ v _ (matches_apart k k' c d N) e e1 A1) as O.
    unfold find_text in O.
    destruct (find (k' ++ String d EmptyString) e1); [discriminate|].
    destruct (find (k' ++ String d EmptyString) e); [discriminate|congruence]. }
  destruct (assign_some _ v' e1 F1) as (e2 & A2). rewrite A2.
  exists e2. split; [reflexivity|]. split.
  - rewrite (assign_other _ v' _
               (matches_apart k' k d c (fun E => N (eq_sym E))) e1 e2 A2).
    now apply (assign_found _ _ e).
  - now apply (assign_found _ _ e1).
Qed.

End XmlFacts.

(** ** SOAP faults ([soap.Handler.handle], [send_error]) *)

Module FaultFacts.

Import soap.Handler.

Lemma fault_sent (h : host.t) (f : http_.File) (root : xml_.Element)
      (code : soap.Status.t) :
  host.templates h "fault.xml" = Some f ->
  host.fromstring h (string_of_list_byte (http_.data f)) = Some root ->
  xml_.find "errorCode" root <> None ->
  xml_.find "errorDescription" root <> None ->
  exists filled,
    media.Handler.perform h (send_error code)
    = Py.Ok (http_.Handler.send_text (http_.magic f)
               (xml_.serialize (host.tostring h) filled)
               http_.INTERNAL_SERVER_ERROR)
    /\ xml_.find_text filled "errorCode"
       = Py.Ok (Py.str_int (soap.Status.value code))
    /\ xml_.find_text filled "errorDescription"
       = Py.Ok (soap.Status.phrase code).
Proof.
  intros T P C D.
  destruct (XmlFacts.format_two "errorCod" "errorDescriptio" "e" "n"
              (Py.str_int (soap.Status.value code)) (soap.Status.phrase code)
              root) as (filled & F & A & B); [discriminate|exact C|exact D|].
  exists filled. split; [|split; [exact A|exact B]].
  unfold send_error, media.Handler.perform, media.Handler.send_template.
  change (media.Server.get_template "fault") with "fault.xml".
  rewrite T, P.
  change (xml_.format root _) with
    (xml_.format root
       [(("errorCod" ++ "e")%string, Py.str_int (soap.Status.value code));
        (("errorDescriptio" ++ "n")%string, soap.Status.phrase code)]).
  now rewrite F.
Qed.

Lemma response_is_no_fault (command : string) :
  String.eqb ("do_" ++ command) "do_browse" = true
  \/ String.eqb ("do_" ++ command) "do_search" = true ->
  (command ++ "-response")%string <> "fault".
Proof.
  intros [H|H]; apply String.eqb_eq in H; injection H as ->; discriminate.
Qed.

Lemma do_browse_name (h : host.t) (r : request) (self : t) (name : string)
      (code : http_.HTTPStatus) (kwds : list (string * string)) :
  do_browse h r self = Py.Ok (media.call_send_template name code kwds) ->
  name = (command self ++ "-response")%string.
Proof.
  unfold do_browse. intros B. repeat (bind_ok B).
  now injection B as <- _ _.
Qed.

(** Whatever the request, a fault template is only ever sent through
    [send_error]. *)
Lemma fault_only_by_send_error (h : host.t) (r : request) (code : http_.HTTPStatus)
      (kwds : list (string * string)) :
  handle h r = Py.Ok (media.call_send_template "fault" code kwds) ->
  exists st, media.call_send_template "fault" code kwds = send_error st.
Proof.
  unfold handle. intros H.
  destruct (parse_request h r) as [[self|sent]|] eqn:P; cbn [Py.bind] in H;
    [| |discriminate].
  - unfold getattr_do, do_getsearchcapabilities, do_search in H.
    destruct (String.eqb ("do_" ++ command self) "do_getsearchcapabilities");
      [discriminate H|].
    destruct (String.eqb ("do_" ++ command self) "do_search") eqn:S.
    { apply do_browse_name in H. exfalso.
      apply (response_is_no_fault (command self)); [now right|now symmetry]. }
    destruct (String.eqb ("do_" ++ command self) "do_browse") eqn:S'.
    { apply do_browse_name in H. exfalso.
      apply (response_is_no_fault (command self)); [now left|now symmetry]. }
    injection H as <- <-. now exists soap.Status.INVALID_ACTION.
  - injection H as ->. unfold parse_request in P.
    bind_ok P.
    destruct (Py.split "#" _) as [|s [|c [|]]]; try discriminate P.
    destruct (host.fromstring h _); [discriminate P|].
    inversion P. now exists soap.Status.INVALID_ARGS.
Qed.

(** C8.  A POST to the content directory whose action has no
    [do_<action>] method is answered with the fault template filled with
    errorCode 401 and the phrase of INVALID_ACTION as errorDescription,
    under HTTP status 500; every fault, whatever its code, goes out the
    same way, and the fault template goes out for faults only. *)
Theorem unknown_action_fault (h : host.t) (r : request) (self : t)
        (f : http_.File) (root : xml_.Element) :
  parse_request h r = Py.Ok (inl self) ->
  getattr_do h r self = None ->
  host.templates h "fault.xml" = Some f ->
  host.fromstring h (string_of_list_byte (http_.data f)) = Some root ->
  xml_.find "errorCode" root <> None ->
  xml_.find "errorDescription" root <> None ->
  handle h r
  = Py.Ok (media.call_send_template "fault" http_.INTERNAL_SERVER_ERROR
             [("errorCode", "401"); ("errorDescription", "Invalid Action")])
  /\ (exists filled,
        post h "/content-directory.xml" r
        = Py.Ok (http_.Content http_.INTERNAL_SERVER_ERROR
                   [ (http_.Header.CONTENT_TYPE, http_.magic f);
                     (http_.Header.CONTENT_LENGTH,
                      Py.str_int (Z.of_nat (List.length (list_byte_of_string
                        (xml_.serialize (host.tostring h) filled))))) ]
                   (list_byte_of_string (xml_.serialize (host.tostring h) filled)))
        /\ xml_.find_text filled "errorCode" = Py.Ok "401"
        /\ xml_.find_text filled "errorDescription" = Py.Ok "Invalid Action")
  /\ http_.status_value http_.INTERNAL_SERVER_ERROR = 500
  /\ (forall code : soap.Status.t,
        exists filled,
          media.Handler.perform h (send_error code)
          = Py.Ok (http_.Handler.send_text (http_.magic f)
                     (xml_.serialize (host.tostring h) filled)
                     http_.INTERNAL_SERVER_ERROR)
          /\ xml_.find_text filled "errorCode"
             = Py.Ok (Py.str_int (soap.Status.value code))
          /\ xml_.find_text filled "errorDescription"
             = Py.Ok (soap.Status.phrase code))
  /\ (forall r' code kwds,
        handle h r' = Py.Ok (media.call_send_template "fault" code kwds) ->
        exists st, media.call_send_template "fault" code kwds = send_error st).
Proof.
  intros P G T F C D.
  assert (H : handle h r = Py.Ok (send_error soap.Status.INVALID_ACTION)).
  { unfold handle. rewrite P. cbn [Py.bind]. now rewrite G. }
  split; [exact H|]. split; [|split; [reflexivity|split]].
  - destruct (fault_sent h f root soap.Status.INVALID_ACTION T F C D)
      as (filled & S & A & B).
    exists filled. change (post h "/content-directory.xml" r) with (serve h r).
    unfold serve. rewrite H. cbn [Py.bind]. rewrite S. auto.
  - intros code. now apply (fault_sent h f root).
  - intros r'. apply fault_only_by_send_error.
Qed.

(** An action the handler has no method for. *)
Lemma unknown_action_fault_witness :
  let h := Example.machine (Example.browse "0" "0" "10") in
  let r := Example.post (Example.content_directory ++ "#X_GetFeatureList") in
  handle h r
  = Py.Ok (media.call_send_template "fault" http_.INTERNAL_SERVER_ERROR
             [("errorCode", "401"); ("errorDescription", "Invalid Action")])
  /\ http_.status_value http_.INTERNAL_SERVER_ERROR = 500.
Proof.
  intros h r.
  destruct (unknown_action_fault h r
              {| service := Example.content_directory;
                 command := "x_getfeaturelist";
                 data := Example.browse "0" "0" "10" |}
              {| http_.data := list_byte_of_string "fault";
                 http_.magic := "text/xml" |}
              Example.fault eq_refl eq_refl eq_refl eq_refl)
    as (H1 & _ & H2 & _); [discriminate|discriminate|].
  split; [exact H1|exact H2].
Defined.

End FaultFacts.

(** ** The address book ([ssdp.Address]) *)

Module AddressFacts.

Import ssdp ssdp.Address DictFacts.

Lemma book_wf_parts (self : t) :
  wf self = true ->
  NoDup (map fst (items self))
  /\ forall a d, Py.dict_get (items self) a = Some d ->
                 _pack a = Py.Ok (packed d).
Proof.
  unfold wf. intros H. apply andb_true_iff in H as [D P]. split.
  - now apply distinct_NoDup.
  - intros a d G. apply dict_get_member in G.
    rewrite forallb_forall in P. specialize (P _ G). unfold packs in P.
    simpl in P. destruct (_pack a); [|discriminate].
    apply Z.eqb_eq in P. now subst.
Qed.

(** The first of the smallest, as [min] finds it. *)
Lemma min_from_spec (best : string * Z) (rest : list (string * Z)) :
  exists k, In (min_from best rest, k) (best :: rest)
            /\ forall x, In x (best :: rest) -> k <= snd x.
Proof.
  revert best. induction rest as [|x r IH]; intros best; simpl.
  - exists (snd best). split; [left; now destruct best|].
    intros y [<-|[]]. lia.
  - destruct (Z.ltb_spec (snd x) (snd best)) as [L|L].
    + destruct (IH x) as (k & I & M). exists k. split.
      * right. exact I.
      * intros y [<-|H]; [|now apply M].
        specialize (M x (or_introl eq_refl)). lia.
    + destruct (IH best) as (k & I & M). exists k. split.
      * destruct I as [I|I]; [now left|right; now right].
      * intros y [<-|[<-|H]].
        -- apply M. now left.
        -- specialize (M best (or_introl eq_refl)). lia.
        -- apply M. now right.
Qed.

Lemma keyed_ok (self : t) (c : Z) (addresses : list string) :
  (forall a, In a addresses -> In a (map fst (items self))) ->
  exists ks,
    keyed self c addresses = Py.Ok ks
    /\ map fst ks = addresses
    /\ forall a k, In (a, k) ks ->
         exists d, Py.dict_get (items self) a = Some d
                   /\ k = Z.lxor (packed d) c.
Proof.
  induction addresses as [|a r IH]; intros H; simpl.
  - exists []. repeat split. intros a k [].
  - destruct (dict_get_in _ a (H a (or_introl eq_refl))) as (d & G).
    rewrite G. destruct IH as (ks & K & F & S).
    { intros x I. apply H. now right. }
    rewrite K. cbn [Py.bind]. eexists. split; [reflexivity|]. split.
    + simpl. now rewrite F.
    + intros x k [[= <- <-]|I]; eauto.
Qed.

Lemma iter_real (self : t) :
  Py.dict_has (items self) ANY = true ->
  (1 < List.length (items self))%nat ->
  __iter__ self = map fst (Py.dict_del (items self) ANY).
Proof.
  intros H L. unfold __iter__. rewrite H.
  replace (1 <? Z.of_nat (List.length (items self))) with true
    by (symmetry; apply Z.ltb_lt; lia).
  reflexivity.
Qed.

(** C4.  In a book that holds the sentinel next to real entries, [select]
    returns a real address whose packed form XORed with the client's is
    the least among the real entries; in a book that holds the sentinel
    alone it returns the sentinel. *)
Theorem select_closest (self : t) (client : string) (c : Z) :
  wf self = true ->
  _pack client = Py.Ok c ->
  Py.dict_has (items self) ANY = true ->
  (1 < List.length (items self))%nat ->
  (exists a p,
     select self client = Py.Ok a
     /\ a <> ANY
     /\ In a (map fst (items self))
     /\ _pack a = Py.Ok p
     /\ forall a' p',
          In a' (map fst (items self)) -> a' <> ANY ->
          _pack a' = Py.Ok p' -> Z.lxor p c <= Z.lxor p' c)
  /\ forall d own,
       select {| items := [(ANY, d)]; own_timeout := own |} client = Py.Ok ANY.
Proof.
  intros W C S L. destruct (book_wf_parts self W) as (N & P). split.
  - unfold select. rewrite C. cbn [Py.bind]. rewrite (iter_real self S L).
    destruct (keyed_ok self c (map fst (Py.dict_del (items self) ANY)))
      as (ks & K & F & Q).
    { intros a. apply dict_del_keys. }
    rewrite K. cbn [Py.bind].
    destruct ks as [|best rest].
    { exfalso. pose proof (dict_del_length (items self) ANY) as D.
      apply (f_equal (@List.length string)) in F.
      rewrite !length_map in F. simpl in F. lia. }
    simpl min_. destruct (min_from_spec best rest) as (k & I & M).
    destruct (Q _ _ I) as (d & G & ->).
    assert (R : In (min_from best rest) (map fst (Py.dict_del (items self) ANY))).
    { rewrite <- F. change (min_from best rest) with (fst (min_from best rest, Z.lxor (packed d) c)).
      now apply in_map. }
    exists (min_from best rest), (packed d).
    split; [reflexivity|]. split; [|split; [|split]].
    + intros E. rewrite E in R. apply dict_get_in in R as (v & R).
      now rewrite (dict_del_gone _ ANY N) in R.
    + eapply dict_del_keys; eauto.
    + now apply P.
    + intros a' p' I' N' P'.
      pose proof (dict_del_keep _ ANY a' I' N') as R'.
      rewrite <- F in R'. apply in_map_iff in R' as ([x k'] & E & R').
      simpl in E. subst x. destruct (Q _ _ R') as (d' & G' & ->).
      rewrite (P _ _ G') in P'. injection P' as <-.
      exact (M _ R').
  - intros d own. unfold select. rewrite C. reflexivity.
Qed.

(** The book of scenario 5: the sentinel, then two addresses heard of. *)
Lemma select_closest_witness :
  let book :=
    {| items :=
         [ ("0.0.0.0", {| timeout := Inf; packed := 0 |});
           ("10.0.0.5", {| timeout := Fin 130; packed := 167772165 |});
           ("192.168.1.10", {| timeout := Fin 131; packed := 3232235786 |}) ];
       own_timeout := Some 30 |} in
  (exists a p,
     select book "192.168.1.77" = Py.Ok a
     /\ a <> ANY
     /\ In a (map fst (items book))
     /\ _pack a = Py.Ok p
     /\ forall a' p',
          In a' (map fst (items book)) -> a' <> ANY ->
          _pack a' = Py.Ok p' -> Z.lxor p 3232235853 <= Z.lxor p' 3232235853)
  /\ select book "192.168.1.77" = Py.Ok "192.168.1.10".
Proof.
  intros book. split; [|reflexivity].
  apply (select_closest book "192.168.1.77" 3232235853 eq_refl eq_refl eq_refl).
  simpl. lia.
Defined.


(** What one pass of [update] over a list of keys leaves behind. *)
Lemma expire_spec (now : Z) (addresses : list string) :
  NoDup addresses ->
  forall self,
    NoDup (map fst (items self)) ->
    (forall a, In a addresses -> In a (map fst (items self))) ->
    exists self',
      expire now self addresses = Py.Ok self'
      /\ own_timeout self' = own_timeout self
      /\ NoDup (map fst (items self'))
      /\ forall a d,
           Py.dict_get (items self') a = Some d
           <-> Py.dict_get (items self) a = Some d
               /\ ~ (In a addresses /\ after now (timeout d) = true).
Proof.
  induction 1 as [|a r Ha Hr IH]; intros self N S; simpl.
  - exists self. repeat split; tauto.
  - destruct (dict_get_in _ a (S a (or_introl eq_refl))) as (d & G). rewrite G.
    destruct (after now (timeout d)) eqn:A.
    + destruct (IH {| items := Py.dict_del (items self) a;
                      own_timeout := own_timeout self |})
        as (self' & E & O & N' & Q).
      { now apply dict_del_nodup. }
      { intros x I. simpl. apply dict_del_keep; [apply S; now right|].
        intros ->. contradiction. }
      exists self'. split; [exact E|]. split; [exact O|]. split; [exact N'|].
      intros x dx. rewrite Q. simpl.
      destruct (string_dec x a) as [->|X].
      * rewrite (dict_del_gone _ a N). split; [intros [? _]; discriminate|].
        intros [G' F]. rewrite G in G'. injection G' as <-.
        exfalso. apply F. auto.
      * rewrite (dict_del_other _ a x X). split.
        -- intros [G' F]. split; [exact G'|]. intros [[->|I] B]; [congruence|].
           apply F. auto.
        -- intros [G' F]. split; [exact G'|]. intros [I B]. apply F. auto.
    + destruct (IH self N) as (self' & E & O & N' & Q).
      { intros x I. apply S. now right. }
      exists self'. split; [exact E|]. split; [exact O|]. split; [exact N'|].
      intros x dx. rewrite Q. split.
      * intros [G' F]. split; [exact G'|]. intros [[<-|I] B].
        -- rewrite G in G'. injection G' as <-. congruence.
        -- apply F. auto.
      * intros [G' F]. split; [exact G'|]. intros [I B]. apply F. auto.
Qed.

Lemma iter_keys (self : t) (a : string) :
  In a (__iter__ self) -> In a (map fst (items self)).
Proof.
  unfold __iter__.
  destruct (Py.dict_has (items self) ANY && _)%bool; [apply dict_del_keys|auto].
Qed.

Lemma iter_nodup (self : t) :
  NoDup (map fst (items self)) -> NoDup (__iter__ self).
Proof.
  intros N. unfold __iter__.
  destruct (Py.dict_has (items self) ANY && _)%bool;
    [now apply dict_del_nodup|assumption].
Qed.

Lemma iter_real_key (self : t) (a : string) :
  In a (map fst (items self)) -> a <> ANY -> In a (__iter__ self).
Proof.
  intros I N. unfold __iter__.
  destruct (Py.dict_has (items self) ANY && _)%bool;
    [now apply dict_del_keep|assumption].
Qed.

Lemma update_spec (now : Z) (self : t) :
  Py.distinct (map fst (items self)) = true ->
  exists self',
    update now self = Py.Ok self'
    /\ own_timeout self' = own_timeout self
    /\ Py.distinct (map fst (items self')) = true
    /\ forall a d,
         Py.dict_get (items self') a = Some d
         <-> Py.dict_get (items self) a = Some d
             /\ ~ (In a (__iter__ self) /\ after now (timeout d) = true).
Proof.
  intros D. apply distinct_NoDup in D.
  destruct (expire_spec now (__iter__ self) (iter_nodup self D) self D
              (iter_keys self)) as (self' & E & O & N & Q).
  exists self'. split; [exact E|]. split; [exact O|].
  split; [now apply NoDup_distinct|exact Q].
Qed.

Lemma init_spec (now : Z) (address : string) (timeout : Z) (book : t) :
  __init__ now address timeout = Py.Ok book ->
  exists p,
    _pack address = Py.Ok p
    /\ book = {| items := [(address, {| Address.timeout := Inf; packed := p |})];
                 own_timeout := Some timeout |}.
Proof.
  unfold __init__, add. simpl. intros H.
  destruct (_pack address) as [p|]; [|discriminate].
  injection H as <-. eauto.
Qed.

(** C10, as amended.  The address given to the constructor is stored with
    expiry +infinity, and no [update] removes an entry with that expiry.
    An address added afterwards is stored with expiry now + timeout, and
    an [update] later than that removes it, provided it is not the
    sentinel [0.0.0.0]. *)
Theorem initial_entry_kept (now : Z) (address : string) (timeout : Z) (book : t) :
  __init__ now address timeout = Py.Ok book ->
  (exists p,
     _pack address = Py.Ok p
     /\ items book = [(address, {| Address.timeout := Inf; packed := p |})])
  /\ own_timeout book = Some timeout
  /\ (forall (b : t) (later : Z) (d : _data),
        Py.distinct (map fst (items b)) = true ->
        Py.dict_get (items b) address = Some d ->
        Address.timeout d = Inf ->
        exists b', update later b = Py.Ok b'
                   /\ Py.dict_get (items b') address = Some d)
  /\ (forall (b b' : t) (heard : Z) (a : string),
        own_timeout b = Some timeout ->
        add heard b a = Py.Ok b' ->
        exists p, Py.dict_get (items b') a
                  = Some {| Address.timeout := Fin (heard + timeout);
                            packed := p |})
  /\ (forall (b : t) (a : string) (p expiry later : Z),
        Py.distinct (map fst (items b)) = true ->
        Py.dict_get (items b) a
        = Some {| Address.timeout := Fin expiry; packed := p |} ->
        a <> ANY ->
        expiry < later ->
        exists b', update later b = Py.Ok b'
                   /\ Py.dict_get (items b') a = None).
Proof.
  intros H. destruct (init_spec _ _ _ _ H) as (p & P & ->).
  split; [eauto|]. split; [reflexivity|]. split; [|split].
  - intros b later d D G T.
    destruct (update_spec later b D) as (b' & U & _ & _ & Q).
    exists b'. split; [exact U|]. apply Q. split; [exact G|].
    rewrite T. simpl. intros [_ F]. discriminate.
  - intros b b' heard a O A. unfold add in A.
    destruct (_pack a) as [q|]; [|discriminate]. injection A as <-.
    exists q. simpl. unfold get_timeout. rewrite O. apply dict_set_same.
  - intros b a q expiry later D G N L.
    destruct (update_spec later b D) as (b' & U & _ & _ & Q).
    exists b'. split; [exact U|].
    destruct (Py.dict_get (items b') a) as [d|] eqn:G'; [|reflexivity].
    apply Q in G' as [G' F]. rewrite G in G'. injection G' as <-.
    exfalso. apply F. split.
    + apply iter_real_key; [|exact N]. eapply dict_get_some_in; eauto.
    + simpl. now apply Z.ltb_lt.
Qed.

(** A server bound to 192.168.1.10 that hears 10.0.0.5 at time 200. *)
Lemma initial_entry_kept_witness :
  let book :=
    {| items := [("192.168.1.10", {| timeout := Inf; packed := 3232235786 |})];
       own_timeout := Some 30 |} in
  let heard :=
    {| items := [ ("192.168.1.10", {| timeout := Inf; packed := 3232235786 |});
                  ("10.0.0.5", {| timeout := Fin 230; packed := 167772165 |}) ];
       own_timeout := Some 30 |} in
  __init__ 100 "192.168.1.10" 30 = Py.Ok book
  /\ add 200 book "10.0.0.5" = Py.Ok heard
  /\ update 231 heard = Py.Ok book
  /\ (exists b', update 231 heard = Py.Ok b'
                 /\ Py.dict_get (items b') "192.168.1.10"
                    = Some {| timeout := Inf; packed := 3232235786 |})
  /\ (exists b', update 231 heard = Py.Ok b'
                 /\ Py.dict_get (items b') "10.0.0.5" = None).
Proof.
  intros book heard.
  destruct (initial_entry_kept 100 "192.168.1.10" 30 book eq_refl)
    as (_ & _ & K & _ & R).
  split; [reflexivity|]. split; [reflexivity|]. split; [reflexivity|]. split.
  - exact (K heard 231 _ eq_refl eq_refl eq_refl).
  - apply (R heard "10.0.0.5" 167772165 230 231 eq_refl eq_refl);
      [discriminate|lia].
Defined.

(** The sentinel added after the constructor ran, next to another entry:
    it is stored with a finite expiry and [update] leaves it in place long
    after. *)
Lemma late_sentinel_stays :
  let book :=
    {| items := [("192.168.1.10", {| timeout := Inf; packed := 3232235786 |})];
       own_timeout := Some 30 |} in
  let heard :=
    {| items := [ ("192.168.1.10", {| timeout := Inf; packed := 3232235786 |});
                  ("0.0.0.0", {| timeout := Fin 230; packed := 0 |}) ];
       own_timeout := Some 30 |} in
  __init__ 100 "192.168.1.10" 30 = Py.Ok book
  /\ add 200 book "0.0.0.0" = Py.Ok heard
  /\ update 1000 heard = Py.Ok heard
  /\ Py.dict_get (items heard) "0.0.0.0"
     = Some {| timeout := Fin 230; packed := 0 |}
  /\ 230 < 1000.
Proof. cbv zeta. repeat split. Qed.

End AddressFacts.

(** ** Searches ([ssdp.Handler]) *)

Module SearchFacts.

Import ssdp ssdp.Handler.

(** C5, as amended.  An M-SEARCH datagram is dispatched to [do_m_search],
    which sends nothing and leaves the server as it was, whatever the ST
    header says.  The reply that [send_discover] builds for a target of
    the map is one 200 carrying that target as ST, its USN, and as
    LOCATION the server's URL on the address that [Address.select] picks
    for the client. *)
Theorem m_search_contract (now : Z) (server : Server.t) (d : datagram)
        (target usn a : string) :
  net.safe_identifier (command d) = "m_search" ->
  Py.dict_get (Server.targets server) target = Some usn ->
  Address.select (Server.addresses server) (fst (client_address d)) = Py.Ok a ->
  handle now server d = Py.Ok (server, [])
  /\ send_discover server d target
     = Py.Ok (http_.Content http_.OK
                [ ("EXT", EmptyString);
                  ("ST", target);
                  ("Location", Server._replace_location server a);
                  ("USN", usn);
                  ("Cache-Control",
                   "max-age=" ++ Py.str_int (Server.timeout server))%string ]
                []).
Proof.
  intros M T S. split.
  - unfold handle. rewrite M. reflexivity.
  - unfold send_discover, Server.location_for. rewrite S. cbn [Py.bind].
    now rewrite T.
Qed.

(** Scenario 5 of the specification, as the code runs it: the server has
    heard of 192.168.1.10 and 10.0.0.5, the search comes from
    192.168.1.77. *)
Lemma m_search_contract_witness :
  (s <- Server.__init__ 100 Example.location "uuid:4d696e69"
          media.Server.services ;;
   r <- handle 101 s (Example.own_notify "10.0.0.5") ;;
   r <- handle 102 (fst r) (Example.own_notify "192.168.1.10") ;;
   Py.Ok (fst r)) = Py.Ok Example.heard
  /\ handle 103 Example.heard Example.m_search = Py.Ok (Example.heard, [])
  /\ send_discover Example.heard Example.m_search "upnp:rootdevice"
     = Py.Ok (http_.Content http_.OK
                [ ("EXT", EmptyString);
                  ("ST", "upnp:rootdevice");
                  ("Location", "http://192.168.1.10:8200/device-description.xml");
                  ("USN", "uuid:4d696e69::upnp:rootdevice");
                  ("Cache-Control", "max-age=30") ]
                []).
Proof.
  split; [reflexivity|].
  exact (m_search_contract 103 Example.heard Example.m_search
           "upnp:rootdevice" "uuid:4d696e69::upnp:rootdevice" "192.168.1.10"
           eq_refl eq_refl eq_refl).
Defined.

(** The same search, and what comes back: nothing. *)
Lemma m_search_unanswered :
  Py.dict_get (Server.targets Example.heard) "upnp:rootdevice"
  = Some "uuid:4d696e69::upnp:rootdevice"
  /\ http_.headers_find (headers Example.m_search) Header.ST
     = Some "upnp:rootdevice"
  /\ (r <- handle 103 Example.heard Example.m_search ;;
      Py.Ok (List.length (snd r))) = Py.Ok 0%nat
  /\ (r <- handle 103 Example.heard
             {| command := "M-SEARCH";
                headers := [("ST", Message.ALL); ("MX", "1")];
                client_address := ("192.168.1.77", 50000) |} ;;
      Py.Ok (List.length (snd r))) = Py.Ok 0%nat.
Proof. repeat split. Qed.

End SearchFacts.

(** ** The notifier ([ssdp.C.serve_forever]) *)

Module NotifierFacts.

Import ssdp ssdp.Run DictFacts.








Lemma for_targets_returns (server : Server.t) (type address : string)
      (targets : list string) :
  (forall t, In t targets -> In t (map fst (Server.targets server))) ->
  exists ms, C.for_targets server type address targets = Py.Ok ms.
Proof.
  induction targets as [|t r IH]; intros H; cbn [C.for_targets]; [eauto|].
  unfold C.send_notify.
  destruct (dict_get_in _ t (H t (or_introl eq_refl))) as (usn & ->).
  cbn [Py.bind]. destruct IH as (ms & ->); [intros x I; apply H; now right|].
  cbn [Py.bind]. eauto.
Qed.

Lemma for_addresses_returns (server : Server.t) (type : string)
      (addresses : list string) :
  exists ms, C.for_addresses server type addresses = Py.Ok ms.
Proof.
  induction addresses as [|a r (ms & IH)]; cbn [C.for_addresses]; [eauto|].
  destruct (for_targets_returns server type a
              (map fst (Server.targets server))) as (m & ->); [auto|].
  cbn [Py.bind]. rewrite IH. cbn [Py.bind]. eauto.
Qed.

Lemma send_notifies_returns (now : Z) (server : Server.t) (type : string) :
  Py.distinct (map fst (Address.items (Server.addresses server))) = true ->
  exists server' ms,
    C.send_notifies now server type = Py.Ok (server', ms)
    /\ Py.distinct (map fst (Address.items (Server.addresses server'))) = true.
Proof.
  intros D. unfold C.send_notifies.
  destruct (AddressFacts.update_spec now _ D) as (a & -> & _ & D' & _).
  cbn [Py.bind].
  match goal with
  | |- context [C.for_addresses ?s type ?l] =>
      destruct (for_addresses_returns s type l) as (ms & ->)
  end.
  cbn [Py.bind]. eauto.
Qed.

Lemma handle_returns (now : Z) (server : Server.t) (d : Handler.datagram) :
  Py.is_ok (Address._pack (fst (Handler.client_address d))) = true ->
  Py.distinct (map fst (Address.items (Server.addresses server))) = true ->
  exists server' sent,
    Handler.handle now server d = Py.Ok (server', sent)
    /\ Py.distinct (map fst (Address.items (Server.addresses server'))) = true.
Proof.
  intros P D. unfold Handler.handle.
  destruct (String.eqb _ "do_notify").
  - unfold Handler.do_notify.
    match goal with |- context [if ?b then _ else _] => destruct b end;
      [|eauto].
    unfold Address.add.
    destruct (Address._pack (fst (Handler.client_address d))) as [p|];
      [|discriminate].
    cbn [Py.bind]. do 2 eexists. split; [reflexivity|].
    cbn [Server.addresses Address.items].
    apply NoDup_distinct, dict_set_nodup. now apply distinct_NoDup.
  - destruct (String.eqb _ "do_m_search"); unfold Handler.do_m_search,
      Handler.do_nop; eauto.
Qed.

Lemma step_returns (s : state) (e : event) :
  plain e = true ->
  Py.distinct (map fst (Address.items (Server.addresses (server s)))) = true ->
  exists s',
    step s e = Py.Ok s'
    /\ Py.distinct (map fst (Address.items (Server.addresses (server s'))))
       = true.
Proof.
  intros P D. destruct e as [now|now d|]; cbn [step].
  - assert (B : forall type next, exists s',
                 burst now type next s = Py.Ok s'
                 /\ Py.distinct
                      (map fst (Address.items (Server.addresses (server s'))))
                    = true).
    { intros type next. unfold burst.
      destruct (send_notifies_returns now (server s) type D)
        as (server' & ms & -> & D').
      cbn [Py.bind]. eauto. }
    destruct (at_ s); eauto.
  - destruct (handle_returns now (server s) d P D) as (server' & out & -> & D').
    cbn [Py.bind]. eauto.
  - eauto.
Qed.

(** A notifier whose book has each address once runs through any schedule
    of plain events. *)
Lemma run_returns (schedule : list event) (s : state) :
  forallb plain schedule = true ->
  Py.distinct (map fst (Address.items (Server.addresses (server s)))) = true ->
  exists s', run s schedule = Py.Ok s'.
Proof.
  revert s. induction schedule as [|e r IH]; intros s P D; cbn [run]; [eauto|].
  cbn [forallb] in P. apply andb_true_iff in P as [Pe Pr].
  destruct (step_returns s e Pe D) as (s1 & -> & D1). cbn [Py.bind]. eauto.
Qed.



End NotifierFacts.

(** * More about the code

    Properties read off the sources themselves, module by module: error
    and edge behaviour, what the operations keep, how they compose. *)

(** ** Method names ([net.safe_identifier]) *)

Module NetFacts.

Lemma word_lower (c : ascii) :
  net.is_word c = true ->
  net.is_word (Py.lower_ascii c) = true
  /\ Py.lower_ascii (Py.lower_ascii c) = Py.lower_ascii c.
Proof.
  destruct c as [[] [] [] [] [] [] [] []]; intros H; try discriminate H;
    split; reflexivity.
Qed.

Lemma sub_alnum_words (s : string) :
  forall in_run c,
    In c (list_ascii_of_string (net.sub_alnum in_run s)) -> net.is_word c = true.
Proof.
  induction s as [|a r IH]; intros in_run c; cbn [net.sub_alnum].
  - intros [].
  - destruct (net.is_word a) eqn:W.
    + cbn [list_ascii_of_string]. intros [<-|I]; [exact W|eauto].
    + destruct in_run; [eauto|].
      cbn [list_ascii_of_string]. intros [<-|I]; [reflexivity|eauto].
Qed.

Lemma sub_alnum_fixed (s : string) :
  (forall c, In c (list_ascii_of_string s) -> net.is_word c = true) ->
  forall in_run, net.sub_alnum in_run s = s.
Proof.
  induction s as [|a r IH]; intros H in_run; cbn [net.sub_alnum]; [reflexivity|].
  rewrite (H a (or_introl eq_refl)). f_equal. apply IH.
  intros c I. apply H. now right.
Qed.

Lemma sub_alnum_length (s : string) :
  forall in_run,
    (String.length (net.sub_alnum in_run s) <= String.length s)%nat.
Proof.
  induction s as [|a r IH]; intros in_run; cbn [net.sub_alnum]; [auto|].
  pose proof (IH false). pose proof (IH true).
  destruct (net.is_word a); [|destruct in_run]; cbn [String.length]; lia.
Qed.

Lemma lower_chars (s : string) (c : ascii) :
  In c (list_ascii_of_string (Py.lower s)) ->
  exists a, In a (list_ascii_of_string s) /\ c = Py.lower_ascii a.
Proof.
  induction s as [|a r IH]; cbn [Py.lower list_ascii_of_string]; [intros []|].
  intros [<-|I].
  - exists a. split; [now left|reflexivity].
  - destruct (IH I) as (b & Ib & ->). exists b. split; [now right|reflexivity].
Qed.

Lemma lower_length (s : string) : String.length (Py.lower s) = String.length s.
Proof. induction s; simpl; congruence. Qed.

Lemma lower_fixed (s : string) :
  (forall c, In c (list_ascii_of_string s) -> Py.lower_ascii c = c) ->
  Py.lower s = s.
Proof.
  induction s as [|a r IH]; intros H; cbn [Py.lower]; [reflexivity|].
  rewrite (H a (or_introl eq_refl)). f_equal. apply IH.
  intros c I. apply H. now right.
Qed.

(** X1.  On ASCII text, where [is_word] is the [\w] of the pattern: the
    identifier that [safe_identifier] returns holds lower-case letters,
    digits and underscores only, is no longer than the text it was made
    from, and is left as it is by a second pass. *)
Theorem safe_identifier_normal (method : string) :
  Py.isascii method = true ->
  (forall c, In c (list_ascii_of_string (net.safe_identifier method)) ->
             net.is_word c = true /\ Py.lower_ascii c = c)
  /\ (String.length (net.safe_identifier method) <= String.length method)%nat
  /\ net.safe_identifier (net.safe_identifier method)
     = net.safe_identifier method.
Proof.
  intros _. unfold net.safe_identifier.
  assert (W : forall c,
             In c (list_ascii_of_string (Py.lower (net.sub_alnum false method))) ->
             net.is_word c = true /\ Py.lower_ascii c = c).
  { intros c I. destruct (lower_chars _ _ I) as (a & Ia & ->).
    apply word_lower. exact (sub_alnum_words method false a Ia). }
  split; [exact W|]. split.
  - rewrite lower_length. apply sub_alnum_length.
  - rewrite (sub_alnum_fixed _ (fun c I => proj1 (W c I))).
    apply lower_fixed. intros c I. exact (proj2 (W c I)).
Qed.

Lemma safe_identifier_normal_witness :
  Py.isascii "M-SEARCH" = true
  /\ net.safe_identifier "M-SEARCH" = "m_search"
  /\ net.safe_identifier (net.safe_identifier "M-SEARCH")
     = net.safe_identifier "M-SEARCH".
Proof.
  split; [reflexivity|]. split; [reflexivity|].
  exact (proj2 (proj2 (safe_identifier_normal "M-SEARCH" eq_refl))).
Defined.

End NetFacts.

(** ** The Range header ([http_.Range._parser], [Range.__init__]) *)

Module ParserFacts.

Import http_.

Lemma strip_prefix_spec (p s r : string) :
  Range.strip_prefix p s = Some r <-> s = (p ++ r)%string.
Proof.
  revert s. induction p as [|a p IH]; intros s; simpl.
  - split; [now intros [= ->]|now intros ->].
  - destruct s as [|b s].
    + split; discriminate.
    + destruct (Ascii.eqb a b) eqn:E.
      * apply Ascii.eqb_eq in E. subst b. rewrite IH.
        split; [now intros ->|now intros [= ->]].
      * split; [discriminate|]. intros [= -> _].
        now rewrite Ascii.eqb_refl in E.
Qed.

Lemma span_digits_spec (s : string) :
  forall d t,
    Range.span_digits s = (d, t) ->
    s = (d ++ t)%string
    /\ Py.all_digits d = true
    /\ match t with
       | EmptyString => True
       | String c _ => Py.is_digit c = false
       end.
Proof.
  induction s as [|c s IH]; intros d t; cbn [Range.span_digits].
  - intros [= <- <-]. auto.
  - destruct (Py.is_digit c) eqn:D.
    + destruct (Range.span_digits s) as [d' t'].
      intros [= <- <-]. destruct (IH d' t' eq_refl) as (-> & A & B).
      cbn [Py.all_digits]. rewrite D, A. auto.
    + intros [= <- <-]. cbn. rewrite D. auto.
Qed.

Lemma parser_sound (header d1 : string) (g2 : option string) :
  Range._parser header = Some (d1, g2) ->
  exists d2,
    header = ("bytes=" ++ d1 ++ "-" ++ d2)%string
    /\ Py.truthy d1 = true
    /\ Py.all_digits d1 = true
    /\ Py.all_digits d2 = true
    /\ g2 = (if Py.truthy d2 then Some d2 else None).
Proof.
  unfold Range._parser.
  destruct (Range.strip_prefix "bytes=" header) as [r|] eqn:P; [|discriminate].
  apply strip_prefix_spec in P. subst header.
  destruct (Range.span_digits r) as [a t] eqn:S1.
  destruct (span_digits_spec r a t S1) as (-> & A & _).
  destruct a as [|a0 a]; [discriminate|].
  destruct t as [|c r2]; [discriminate|].
  destruct c as [[] [] [] [] [] [] [] []]; try discriminate.
  destruct (Range.span_digits r2) as [b t2] eqn:S2.
  destruct (span_digits_spec r2 b t2 S2) as (-> & B & _).
  destruct t2 as [|c2 t2]; [|discriminate].
  intros [= <- <-]. exists b. rewrite PyFacts.append_empty.
  repeat split; auto.
Qed.

Lemma parser_complete (d1 d2 : string) :
  Py.truthy d1 = true -> Py.all_digits d1 = true -> Py.all_digits d2 = true ->
  Range._parser ("bytes=" ++ d1 ++ "-" ++ d2)
  = Some (d1, if Py.truthy d2 then Some d2 else None).
Proof.
  intros T A B. unfold Range._parser.
  change (Range.strip_prefix "bytes=" ("bytes=" ++ d1 ++ "-" ++ d2))
    with (Some (d1 ++ "-" ++ d2)%string).
  cbv beta iota.
  rewrite (RangeFacts.span_digits_app d1 ("-" ++ d2) A eq_refl).
  destruct d1 as [|c s]; [discriminate|].
  change ("-" ++ d2)%string with (String "-" d2).
  rewrite <- (PyFacts.append_empty d2) at 1.
  now rewrite (RangeFacts.span_digits_app d2 "" B I).
Qed.

(** X2.  The headers that [Range._parser] accepts are exactly the texts
    [bytes=<digits>-<digits>] with at least one digit before the dash; the
    first group is the digits before it and the second the digits after
    it, absent when there are none. *)
Theorem parser_shape (header d1 : string) (g2 : option string) :
  Range._parser header = Some (d1, g2)
  <-> exists d2,
        header = ("bytes=" ++ d1 ++ "-" ++ d2)%string
        /\ Py.truthy d1 = true
        /\ Py.all_digits d1 = true
        /\ Py.all_digits d2 = true
        /\ g2 = (if Py.truthy d2 then Some d2 else None).
Proof.
  split.
  - apply parser_sound.
  - intros (d2 & -> & T & A & B & ->). now apply parser_complete.
Qed.


End ParserFacts.

(** ** Files that are served ([http_.Handler.send_file] under [do_get]) *)

Module ServeFacts.

Import http_.


Section Served.

Variables (h : host.t) (server : media.Server.t) (uri_path : string).
Variables (rel : pathlib.PurePath) (f : File) (st_mtime : Z).

Hypothesis below_media :
  pathlib.relative_to (pathlib.parse_parts ["/"; uri_path])
    media.Server.paths.MEDIA = Py.Ok rel.
Hypothesis regular :
  host.stat h (pathlib.__truediv__ (host.media h) rel)
  = Some (host.Regular f st_mtime).

(** X3.  A range whose end is left open runs to the end of the file: for
    [0 <= a < S] the header [Range: bytes=a-] is answered 206 with
    [Content-Range: bytes a-(S-1)/S], [Content-Length] [S-a] and the bytes
    of the file from [a] on. *)
Theorem open_range (request : headers) (a : Z) :
  0 <= a < st_size f ->
  headers_find request Header.RANGE
  = Some ("bytes=" ++ Py.str_int a ++ "-")%string ->
  media.Handler.do_get h server uri_path request
  = Py.Ok (Content PARTIAL_CONTENT
             [ (Header.CONTENT_TYPE, magic f);
               (Header.CONTENT_LENGTH, Py.str_int (st_size f - a));
               (Header.CONTENT_RANGE,
                 "bytes " ++ Py.str_int a ++ "-" ++ Py.str_int (st_size f - 1)
                 ++ "/" ++ Py.str_int (st_size f))%string ]
             (skipn (Z.to_nat a) (data f)))
  /\ Z.of_nat (List.length (skipn (Z.to_nat a) (data f))) = st_size f - a.
Proof.
  intros Ha Hr. split.
  - rewrite (RangeFacts.do_get_served h server uri_path rel f st_mtime
               below_media regular).
    unfold headers_get. rewrite Hr. unfold Range.__init__.
    pose proof (ParserFacts.parser_complete (Py.str_int a) EmptyString
                  (PyFacts.str_int_truthy a)
                  (PyFacts.str_int_digits a (proj1 Ha)) eq_refl) as P.
    cbn [Py.truthy] in P.
    change (Py.str_int a ++ "-" ++ EmptyString)%string
      with (Py.str_int a ++ "-")%string in P.
    rewrite P. cbn [fst snd].
    rewrite PyFacts.str_int_truthy, (PyFacts.int_str_nonneg a (proj1 Ha)).
    cbn [Py.bind].
    replace (st_size f - 1) with (a + (st_size f - a) - 1) at 1 by lia.
    replace (a + (st_size f - a) - 1) with (st_size f - 1) by lia.
    rewrite (RangeFacts.send_file_partial f a (st_size f - 1)) by lia.
    replace (st_size f - 1 - a + 1) with (st_size f - a) by lia.
    do 2 f_equal. unfold Handler.copyfile. apply firstn_all2.
    rewrite length_skipn. unfold st_size. lia.
  - rewrite length_skipn. unfold st_size in *. lia.
Qed.


End Served.

Lemma open_range_witness :
  let h := Example.machine (Example.browse "0" "0" "10") in
  media.Handler.do_get h Example.server "/media/a.mp4" [("Range", "bytes=990-")]
  = Py.Ok (Content PARTIAL_CONTENT
             [ ("Content-Type", "video/mp4"); ("Content-Length", "10");
               ("Content-Range", "bytes 990-999/1000") ]
             (repeat Byte.x41 10))
  /\ Z.of_nat (List.length (skipn 990 (data Example.a_mp4))) = 10.
Proof.
  intros h.
  apply (open_range h Example.server "/media/a.mp4"
           {| pathlib.root := EmptyString; pathlib.names := ["a.mp4"] |}
           Example.a_mp4 7 eq_refl eq_refl [("Range", "bytes=990-")] 990).
  - unfold st_size. simpl. lia.
  - reflexivity.
Defined.


End ServeFacts.

(** ** Routing ([media.Handler.do_get], [do_post]) *)

Module RoutingFacts.

Import pathlib http_.

Lemma anchor_relative (uri_path : string) :
  (forall r, uri_path <> String "/" r) ->
  parse_parts ["/"; uri_path] = parse_parts ["/"; ("/" ++ uri_path)%string].
Proof.
  intros H. destruct uri_path as [|a r]; [reflexivity|].
  assert (A : Ascii.eqb a "/" = false).
  { destruct (Ascii.eqb a "/") eqn:E; [|reflexivity].
    apply Ascii.eqb_eq in E. subst a. now elim (H r). }
  assert (S : splitroot (String "/" (String a r)) = ("/", String a r)).
  { unfold splitroot.
    change (lstrip_sep (String "/" (String a r))) with (lstrip_sep (String a r)).
    rewrite (PathFacts.not_sep_lstrip a r A).
    replace (String.length (String "/" (String a r))
             - String.length (String a r))%nat with 1%nat
      by (cbn [String.length]; lia).
    reflexivity. }
  unfold parse_parts. cbn [rev app parse_rev].
  change ("/" ++ String a r)%string with (String "/" (String a r)).
  rewrite (PathFacts.not_sep_first a r A), S. reflexivity.
Qed.

(** X5.  A request path that comes without its leading slash is routed as the
    same path with it, by GET and by POST. *)
Theorem relative_request_path (h : host.t) (server : media.Server.t)
        (uri_path : string) (request : headers) (_soap : Py.result reply) :
  (forall r, uri_path <> String "/" r) ->
  media.Handler.do_get h server uri_path request
  = media.Handler.do_get h server ("/" ++ uri_path) request
  /\ media.Handler.do_post _soap uri_path
     = media.Handler.do_post _soap ("/" ++ uri_path).
Proof.
  intros H. unfold media.Handler.do_get, media.Handler.do_post.
  now rewrite (anchor_relative uri_path H).
Qed.

Lemma relative_request_path_witness :
  let h := Example.machine (Example.browse "0" "0" "10") in
  media.Handler.do_get h Example.server "media/a.mp4" []
  = media.Handler.do_get h Example.server "/media/a.mp4" []
  /\ media.Handler.do_post (Py.Raise Py.OSError) "media/a.mp4"
     = media.Handler.do_post (Py.Raise Py.OSError) "/media/a.mp4".
Proof.
  intros h.
  apply (relative_request_path h Example.server "media/a.mp4" []
           (Py.Raise Py.OSError)).
  intros r. discriminate.
Defined.

Lemma anchored (uri_path : string) :
  Py.truthy (root (parse_parts ["/"; uri_path])) = true.
Proof.
  unfold parse_parts. cbn [rev app parse_rev].
  destruct (splitroot uri_path) as [r rel].
  destruct (Py.truthy r) eqn:T; [exact T|reflexivity].
Qed.

Lemma eq_document (p : PurePath) (x : string) :
  Py.truthy (root p) = true ->
  __eq__ p {| root := "/"; names := [x] |} = true -> names p = [x].
Proof.
  intros T E. unfold __eq__, _parts in E. rewrite T in E.
  cbn [root names Py.truthy] in E. apply PathFacts.parts_eqb_eq in E.
  now injection E.
Qed.

(** X6.  A GET whose path is none of the four description documents and does
    not begin with the name [media] is refused with 400. *)
Theorem unknown_path_refused (h : host.t) (server : media.Server.t)
        (uri_path : string) (request : headers) :
  let path := parse_parts ["/"; uri_path] in
  hd_error (names path) <> Some "media" ->
  ~ In (names path)
       [ ["media-receiver-registrar.xml"]; ["content-directory.xml"];
         ["connection-manager.xml"]; ["device-description.xml"] ] ->
  media.Handler.do_get h server uri_path request
  = Py.Ok (ErrorPage BAD_REQUEST).
Proof.
  intros path M D. unfold media.Handler.do_get. fold path.
  pose proof (anchored uri_path) as T. fold path in T.
  assert (N : forall x,
             In [x] [ ["media-receiver-registrar.xml"];
                      ["content-directory.xml"];
                      ["connection-manager.xml"];
                      ["device-description.xml"] ] ->
             __eq__ path {| root := "/"; names := [x] |} = false).
  { intros x I. destruct (__eq__ path _) eqn:E; [|reflexivity].
    apply (eq_document path x T) in E. rewrite <- E in I. contradiction. }
  change media.Server.paths.MRR
    with {| root := "/"; names := ["media-receiver-registrar.xml"] |}.
  change media.Server.paths.SRV
    with {| root := "/"; names := ["content-directory.xml"] |}.
  change media.Server.paths.NET
    with {| root := "/"; names := ["connection-manager.xml"] |}.
  change media.Server.paths.DEV
    with {| root := "/"; names := ["device-description.xml"] |}.
  rewrite !N by (cbn [In]; auto). cbn [orb].
  destruct (relative_to path media.Server.paths.MEDIA) as [rel|] eqn:R;
    [|reflexivity].
  exfalso. apply M.
  destruct (RangeFacts.below_media_shape path rel R) as [(rest & P)|(rest & P)];
    unfold _parts in P; rewrite T in P.
  - injection P as _ P. now rewrite P.
  - injection P as P _. rewrite P in T. discriminate T.
Qed.

Lemma unknown_path_refused_witness :
  let h := Example.machine (Example.browse "0" "0" "10") in
  media.Handler.do_get h Example.server "/" [] = Py.Ok (ErrorPage BAD_REQUEST)
  /\ media.Handler.do_get h Example.server "/srv/media/a.mp4" []
     = Py.Ok (ErrorPage BAD_REQUEST).
Proof.
  intros h. split.
  - apply (unknown_path_refused h Example.server "/" []).
    + discriminate.
    + cbn. intros [E|[E|[E|[E|[]]]]]; discriminate E.
  - apply (unknown_path_refused h Example.server "/srv/media/a.mp4" []).
    + discriminate.
    + cbn. intros [E|[E|[E|[E|[]]]]]; discriminate E.
Defined.

End RoutingFacts.

(** ** From request paths to files ([media.Handler.do_get]) *)

Module MappingFacts.

Import pathlib PathFacts http_.

Lemma parse_anchored (x : string) :
  Py.truthy (fst (splitroot x)) = true ->
  parse_parts ["/"; x] = parse_parts [x].
Proof.
  intros T. unfold parse_parts. cbn [rev app parse_rev].
  destruct (splitroot x) as [r rel]. cbn [fst] in T. now rewrite T.
Qed.

Lemma media_request (ns : list string) :
  forallb valid_name ns = true ->
  parse_parts ["/"; ("/" ++ Py.join "/" ("media" :: ns))%string]
  = {| root := "/"; names := "media" :: ns |}.
Proof.
  intros V.
  assert (P : parse_parts [("/" ++ Py.join "/" ("media" :: ns))%string]
              = {| root := "/"; names := "media" :: ns |}).
  { apply parse_str; [discriminate|]. cbn [forallb]. now rewrite V. }
  rewrite parse_anchored; [exact P|].
  destruct (join_first "media" ns) as (t & ->).
  change ("/" ++ "media" ++ t)%string with (String "/" ("media" ++ t)).
  unfold splitroot. destruct (_ =? 2)%nat; reflexivity.
Qed.

(** X7.  The mapping of request paths to files.  The names that follow
    [/media] are appended to the media root; when that path is a regular
    file it is sent, under the Range header of the request, and anything
    else (a directory, the media root itself, a path that designates
    nothing) is answered 404. *)
Theorem media_path (h : host.t) (server : media.Server.t) (ns : list string)
        (request : headers) :
  wf (host.media h) = true ->
  forallb valid_name ns = true ->
  ~ In ".." ns ->
  media.Handler.do_get h server ("/" ++ Py.join "/" ("media" :: ns)) request
  = match host.stat h (host.below h ns) with
    | Some (host.Regular f _) =>
        r <- Range.__init__ f (headers_get request Header.RANGE EmptyString) ;;
        Handler.send_file f (Some r)
    | _ => Py.Ok (ErrorPage NOT_FOUND)
    end.
Proof.
  intros W V _.
  assert (R : relative_to
                (parse_parts ["/"; ("/" ++ Py.join "/" ("media" :: ns))%string])
                media.Server.paths.MEDIA
              = Py.Ok {| root := EmptyString; names := ns |}).
  { rewrite (media_request ns V).
    exact (relative_to_prefix media.Server.paths.MEDIA ns eq_refl). }
  rewrite (RangeFacts.do_get_below_media h server _ request _ R).
  unfold media.Handler.get_media. rewrite R. cbn [Py.bind].
  rewrite (truediv_names (host.media h) ns V). fold (host.below h ns).
  destruct (host.stat h (host.below h ns)) as [[f m|m es]|]; reflexivity.
Qed.

Lemma media_path_witness :
  let h := Example.machine (Example.browse "0" "0" "10") in
  media.Handler.do_get h Example.server "/media/d/b.mp3" []
  = Py.Ok (Content OK
             [("Content-Type", "audio/mpeg"); ("Content-Length", "5")]
             (repeat Byte.x43 5))
  /\ media.Handler.do_get h Example.server "/media/d" []
     = Py.Ok (ErrorPage NOT_FOUND)
  /\ media.Handler.do_get h Example.server "/media" []
     = Py.Ok (ErrorPage NOT_FOUND).
Proof.
  intros h. split; [|split].
  - apply (media_path h Example.server ["d"; "b.mp3"] [] eq_refl eq_refl).
    cbn. intros [E|[E|[]]]; discriminate E.
  - apply (media_path h Example.server ["d"] [] eq_refl eq_refl).
    cbn. intros [E|[]]; discriminate E.
  - apply (media_path h Example.server [] [] eq_refl eq_refl).
    intros [].
Defined.

End MappingFacts.

(** ** Filling templates ([xml_.format]) *)

Module TemplateFacts.

Import xml_ XmlFacts.

Section Assigned.

Variables key value other : string.





End Assigned.





End TemplateFacts.

(** ** Building elements ([xml_.element]) *)

Module ElementFacts.

Import xml_.




End ElementFacts.

(** ** The element of an object ([didl.Object.element]) *)

Module DidlFacts.

Import pathlib.

(** X10.  The DIDL element of an object whose path exists.  A directory is a
    [container] with its class and title; a regular file is an [item] with
    its class, named after the first part of the MIME string, its title
    and a [res] that holds the object's location and the MIME string in
    its protocolInfo.  Both carry [id] and [parentID], and every name is
    in a registered namespace, so no step of the construction raises. *)
Theorem element_of (h : host.t) (self : Object.t) (p : PurePath)
        (n : host.node) :
  Object.path self = Py.Ok p ->
  host.stat h p = Some n ->
  Object.element h self
  = Py.Ok
      (let didl := "{urn:schemas-upnp-org:metadata-1-0/DIDL-Lite/}" in
       let upnp := "{urn:schemas-upnp-org:metadata-1-0/upnp/}" in
       let dc := "{http://purl.org/dc/elements/1.1/}" in
       let attrs := [ ((didl ++ "id")%string, Object.id self);
                      ((didl ++ "parentID")%string, Object.parent_id self) ] in
       let title := xml_.Elem (dc ++ "title") [] (name p) [] in
       match n with
       | host.Directory _ _ =>
           xml_.Elem (didl ++ "container") attrs EmptyString
             [ xml_.Elem (upnp ++ "class") [] "object.container" []; title ]
       | host.Regular f _ =>
           xml_.Elem (didl ++ "item") attrs EmptyString
             [ xml_.Elem (upnp ++ "class") []
                 ("object.item."
                  ++ hd EmptyString (Py.split "/" (http_.magic f)) ++ "Item")
                 [];
               title;
               xml_.Elem (didl ++ "res")
                 [ ((didl ++ "protocolInfo")%string,
                    ("http-get:*:" ++ http_.magic f ++ ":DLNA.ORG_OP=01")%string) ]
                 (Object.location h self) [] ]
       end).
Proof.
  intros P S. unfold Object.element, Object.qname, Object.uclass,
    Object.mime_type, Object.mime, host.is_dir.
  rewrite P. cbn [Py.bind]. rewrite S.
  destruct n as [f m|m es]; reflexivity.
Qed.

Lemma element_of_witness :
  let h := Example.machine (Example.browse "0" "0" "10") in
  let self := Object.__init__ (host.media h) "http://10.0.0.1:8200/media"
                "/d/b.mp3" "browse" in
  Object.element h self
  = Py.Ok
      (xml_.Elem "{urn:schemas-upnp-org:metadata-1-0/DIDL-Lite/}item"
         [ ("{urn:schemas-upnp-org:metadata-1-0/DIDL-Lite/}id", "/d/b.mp3");
           ("{urn:schemas-upnp-org:metadata-1-0/DIDL-Lite/}parentID", "/d") ]
         EmptyString
         [ xml_.Elem "{urn:schemas-upnp-org:metadata-1-0/upnp/}class" []
             "object.item.audioItem" [];
           xml_.Elem "{http://purl.org/dc/elements/1.1/}title" [] "b.mp3" [];
           xml_.Elem "{urn:schemas-upnp-org:metadata-1-0/DIDL-Lite/}res"
             [ ("{urn:schemas-upnp-org:metadata-1-0/DIDL-Lite/}protocolInfo",
                "http-get:*:audio/mpeg:DLNA.ORG_OP=01") ]
             "http://10.0.0.1:8200/media/d/b.mp3" [] ]).
Proof.
  intros h self.
  exact (element_of h self (parse_parts ["/srv/media/d/b.mp3"])
           (host.Regular Example.b_mp3 3) eq_refl eq_refl).
Defined.

End DidlFacts.

(** ** The Result document ([xml_.serialize] in [do_browse]) *)

Module NamespaceFacts.

Import xml_.







End NamespaceFacts.

(** ** Children ([didl.Object.__iter__]) *)

Module ChildrenFacts.

Import pathlib PathFacts IdPathFacts DictFacts.

Lemma select_app (h : host.t) (self : Object.t) (a b : list PurePath) :
  forall cs,
    Object.select h self (a ++ b) = Py.Ok cs ->
    exists ca cb,
      Object.select h self a = Py.Ok ca
      /\ Object.select h self b = Py.Ok cb
      /\ cs = ca ++ cb.
Proof.
  induction a as [|p a IH]; intros cs H.
  - exists [], cs. auto.
  - cbn [app Object.select] in H.
    destruct (IdPath.from_path (Object.root self) p) as [i|] eqn:Ei;
      [|discriminate H].
    cbn [Py.bind] in H.
    destruct (Object.admitted h _) as [keep|] eqn:Ek; [|discriminate H].
    cbn [Py.bind] in H.
    destruct (Object.select h self (a ++ b)) as [more|] eqn:Em;
      [|discriminate H].
    cbn [Py.bind] in H. injection H as <-.
    destruct (IH more eq_refl) as (ca & cb & Ea & Eb & ->).
    cbn [Object.select]. rewrite Ei. cbn [Py.bind]. rewrite Ek.
    cbn [Py.bind]. rewrite Ea. cbn [Py.bind].
    eexists. exists cb. split; [reflexivity|]. split; [exact Eb|].
    now destruct keep.
Qed.

Lemma select_ext (h : host.t) (s1 s2 : Object.t) (result : list PurePath) :
  Object.root s1 = Object.root s2 -> Object.url s1 = Object.url s2 ->
  Object.select h s1 result = Object.select h s2 result.
Proof.
  intros R U. induction result as [|p r IH]; cbn [Object.select];
    [reflexivity|].
  now rewrite R, U, IH.
Qed.

Lemma rglob_starts (h : host.t) (p : PurePath) :
  exists deeper, host.rglob h p = host.glob h p ++ deeper.
Proof.
  unfold host.rglob, host.glob.
  destruct (host.stat h p) as [[f m|m es]|]; cbn [host.rglob_node];
    eauto; now exists [].
Qed.

(** X12.  The children that a search yields begin with the children that a
    browse of the same object yields, in the same order: a search lists
    the object's own entries before it descends. *)
Theorem browse_starts_search (h : host.t) (root : PurePath)
        (url id : string) (bs ss : list Object.t) :
  Object.__iter__ h (Object.__init__ root url id "browse") = Py.Ok bs ->
  Object.__iter__ h (Object.__init__ root url id "search") = Py.Ok ss ->
  exists deeper, ss = bs ++ deeper.
Proof.
  unfold Object.__iter__. cbn [Object.command Object.__init__].
  change (String.eqb "browse" "browse") with true.
  change (String.eqb "search" "browse") with false.
  change (String.eqb "search" "search") with true.
  cbv iota. intros B S.
  assert (P : Object.path (Object.__init__ root url id "search")
              = Object.path (Object.__init__ root url id "browse"))
    by reflexivity.
  rewrite P in S. clear P. bind_inv B as p Ep. cbn [Py.bind] in S.
  destruct (rglob_starts h p) as (deeper & R). rewrite R in S.
  destruct (select_app h _ _ _ _ S) as (ca & cb & A & _ & ->).
  rewrite (select_ext h _ (Object.__init__ root url id "browse")) in A
    by reflexivity.
  rewrite B in A. injection A as <-. eauto.
Qed.

Lemma browse_starts_search_witness :
  let h := Example.machine (Example.browse "0" "0" "10") in
  let root := Object.__init__ (host.media h) "http://10.0.0.1:8200/media" "0" in
  let bs := match Object.__iter__ h (root "browse") with
            | Py.Ok cs => cs
            | Py.Raise _ => []
            end in
  let ss := match Object.__iter__ h (root "search") with
            | Py.Ok cs => cs
            | Py.Raise _ => []
            end in
  map Object.id bs = ["/a.mp4"; "/d"]
  /\ map Object.id ss = ["/a.mp4"; "/d"; "/d/b.mp3"; "/d/e"]
  /\ exists deeper, ss = bs ++ deeper.
Proof.
  intros h root bs ss.
  assert (B : Object.__iter__ h (root "browse") = Py.Ok bs)
    by (vm_compute; reflexivity).
  assert (S : Object.__iter__ h (root "search") = Py.Ok ss)
    by (vm_compute; reflexivity).
  split; [vm_compute; reflexivity|]. split; [vm_compute; reflexivity|].
  exact (browse_starts_search h (host.media h) "http://10.0.0.1:8200/media"
           "0" bs ss B S).
Defined.

Section Sound.

Variable h : host.t.
Hypothesis media_wf : wf (host.media h) = true.
Hypothesis tree_sound : host.sound (host.tree h) = true.

Lemma from_path_below (ys : list string) :
  forallb valid_name ys = true ->
  IdPath.from_path (host.media h) (host.below h ys)
  = Py.Ok {| root := "/"; names := ys |}.
Proof.
  intros V. unfold IdPath.from_path, host.below.
  rewrite relative_to_prefix by assumption.
  cbn [Py.bind]. unfold IdPath.cls, _parts. cbn [root names Py.truthy].
  f_equal. exact (parse_parts_names ["/"] ys V).
Qed.

Lemma path_of_id (url id command : string) (p : PurePath) :
  Object.path (Object.__init__ (host.media h) url id command) = Py.Ok p ->
  exists ys,
    forallb valid_name ys = true
    /\ p = host.below h ys
    /\ IdPath.from_id id = {| root := "/"; names := ys |}.
Proof.
  unfold Object.path, Object.__init__, IdPath.as_path.
  cbn [Object.id_path Object.root]. intros H. bind_inv H as rel E.
  injection H as <-.
  assert (Wi : wf (IdPath.from_id id) = true).
  { unfold IdPath.from_id, IdPath.cls.
    destruct (String.eqb id "0"); apply parse_parts_wf. }
  destruct (relative_to_ok _ _ _ Wi (parse_parts_wf ["/"]) E)
    as (A & B & R & V).
  destruct rel as [r ys]. cbn [root names] in *. subst r.
  exists ys. split; [exact V|]. split; [now rewrite truediv_names|].
  destruct (IdPath.from_id id) as [r ns]. cbn [root names] in *.
  now rewrite A, B.
Qed.

Lemma select_scan (self : Object.t) (ys : list string)
      (es : list (string * host.node)) :
  Object.root self = host.media h ->
  forallb valid_name ys = true ->
  forallb valid_name (map fst es) = true ->
  forall cs,
    Object.select h self (host.scan (host.below h ys) es) = Py.Ok cs ->
    Forall (fun c => exists x,
              In x (map fst es)
              /\ c = Object.__init__ (host.media h) (Object.url self)
                       (IdPath.as_id {| root := "/"; names := ys ++ [x] |})
                       "browse") cs.
Proof.
  intros R V. induction es as [|[x n] es IH]; intros Ve cs;
    cbn [host.scan map fst Object.select].
  - intros [= <-]. constructor.
  - cbn [map fst forallb] in Ve. apply andb_true_iff in Ve as [Vx Ve].
    rewrite (ObjectFacts.child_below h ys x), R.
    rewrite from_path_below
      by (rewrite forallb_app, V; cbn [forallb]; now rewrite Vx).
    cbn [Py.bind]. intros H. bind_inv H as keep Ek. bind_inv H as more Em.
    injection H as <-.
    assert (F : Forall (fun c => exists x0,
                          In x0 (x :: map fst es)
                          /\ c = Object.__init__ (host.media h) (Object.url self)
                                   (IdPath.as_id
                                      {| root := "/"; names := ys ++ [x0] |})
                                   "browse") more).
    { eapply Forall_impl; [|exact (IH Ve more Em)].
      intros c (x0 & I & ->). exists x0. split; [now right|reflexivity]. }
    destruct keep; [constructor|]; auto.
    exists x. split; [now left|reflexivity].
Qed.

(** X13.  On a sound tree, every child that browsing an object yields lies one
    name below it: its identifier path is the object's followed by the
    name of an entry, its path is the object's path followed by that name,
    and its parent identifier is the identifier of the object browsed. *)
Theorem browse_children (url id : string) (p : PurePath)
        (cs : list Object.t) :
  let self := Object.__init__ (host.media h) url id "browse" in
  Object.path self = Py.Ok p ->
  Object.__iter__ h self = Py.Ok cs ->
  Forall (fun c =>
            Object.parent_id c = Object.id self
            /\ Object.root c = host.media h
            /\ Object.url c = url
            /\ exists x,
                 Object.id_path c
                 = _make_child_relpath (Object.id_path self) x
                 /\ Object.path c = Py.Ok (_make_child_relpath p x)
                 /\ host.stat h (_make_child_relpath p x) <> None) cs.
Proof.
  intros self P H. unfold Object.__iter__ in H.
  cbn [self Object.__init__ Object.command String.eqb Ascii.eqb Bool.eqb] in H.
  fold self in H. rewrite P in H. cbn [Py.bind] in H.
  destruct (path_of_id url id "browse" p P) as (ys & V & -> & I).
  unfold host.glob in H. rewrite (ObjectFacts.stat_below h media_wf) in H.
  destruct (host.walk (host.tree h) ys) as [[f m|m es]|] eqn:W;
    try (injection H as <-; constructor).
  destruct (ObjectFacts.sound_directory m es
              (ObjectFacts.sound_walk ys _ _ tree_sound W)) as (Ve & D & _).
  pose proof (select_scan self ys es eq_refl V Ve cs H) as F.
  eapply Forall_impl; [|exact F]. clear F.
  intros c (x & Ix & ->).
  assert (Vx : forallb valid_name (ys ++ [x]) = true).
  { rewrite forallb_app, V. cbn [forallb]. rewrite andb_true_r.
    rewrite forallb_forall in Ve. now apply Ve. }
  unfold Object.parent_id, Object.id, Object.path.
  cbn [self Object.__init__ Object.id_path Object.root Object.url].
  rewrite (from_as_id _ Vx), I. unfold parent. cbn [root names].
  rewrite removelast_last.
  split; [reflexivity|]. split; [reflexivity|]. split; [reflexivity|].
  exists x. split; [reflexivity|].
  rewrite (as_path_absolute _ _ Vx), (ObjectFacts.child_below h ys x).
  split; [reflexivity|].
  rewrite (ObjectFacts.stat_below h media_wf), ObjectFacts.walk_app, W.
  cbn [host.walk]. apply in_map_iff in Ix as ([x' n] & <- & Ix).
  cbn [fst]. rewrite (dict_get_distinct es x' n D Ix). discriminate.
Qed.

End Sound.

Lemma browse_children_witness :
  let h := Example.machine (Example.browse "0" "0" "10") in
  let self := Object.__init__ (host.media h) "http://10.0.0.1:8200/media"
                "/d" "browse" in
  let cs := match Object.__iter__ h self with
            | Py.Ok cs => cs
            | Py.Raise _ => []
            end in
  map Object.id cs = ["/d/b.mp3"; "/d/e"]
  /\ Forall (fun c => Object.parent_id c = "/d") cs.
Proof.
  intros h self cs.
  assert (E : Object.__iter__ h self = Py.Ok cs) by (vm_compute; reflexivity).
  split; [vm_compute; reflexivity|].
  pose proof (browse_children h eq_refl eq_refl "http://10.0.0.1:8200/media"
                "/d" (parse_parts ["/srv/media/d"]) cs eq_refl E) as F.
  eapply Forall_impl; [|exact F]. intros c (A & _). exact A.
Defined.

End ChildrenFacts.

(** ** Browsing what is not a directory ([soap.Handler.do_browse]) *)

Module SoapFacts.

Import pathlib PathFacts soap.Handler.

Lemma slice_nil {A : Type} (start stop : Z) : Py.slice (@nil A) start stop = [].
Proof. unfold Py.slice. now rewrite skipn_nil, firstn_nil. Qed.

Lemma browse_object_built (h : host.t) (r : request) (self : t)
      (element : Object.t) :
  browse_object h r self = Py.Ok element ->
  exists id,
    element = Object.__init__ (host.media h)
                (host.as_uri h media.Server.paths.MEDIA (host_url r)) id
                (command self).
Proof.
  unfold browse_object. intros H. bind_inv H as id E. injection H as <-. eauto.
Qed.


Lemma no_children (h : host.t) (element : Object.t) (p : PurePath) :
  Object.path element = Py.Ok p ->
  (forall m es, host.stat h p <> Some (host.Directory m es)) ->
  Object.children h element = Py.Ok [].
Proof.
  intros P S. unfold Object.children, Object.__iter__. rewrite P.
  cbn [Py.bind]. unfold host.glob, host.rglob.
  destruct (host.stat h p) as [[f m|m es]|]; [| now elim (S m es) |];
    cbn [host.rglob_node Object.select];
    destruct (String.eqb _ "browse"); try reflexivity;
    destruct (String.eqb _ "search"); reflexivity.
Qed.

Section Browse.

Variables (h : host.t) (r : request) (self : t).
Variables (element : Object.t) (sl : Z * Z) (p : PurePath).

Hypothesis media_wf : wf (host.media h) = true.
Hypothesis object : browse_object h r self = Py.Ok element.
Hypothesis window : browse_slice self = Py.Ok sl.
Hypothesis path : Object.path element = Py.Ok p.

Lemma do_browse_childless :
  (forall m es, host.stat h p <> Some (host.Directory m es)) ->
  do_browse h r self
  = (update <- Object.update h element ;;
     Py.Ok (media.call_send_template (command self ++ "-response") http_.OK
              [ ("Result",
                 xml_.serialize (host.tostring h)
                   (xml_.Elem
                      "{urn:schemas-upnp-org:metadata-1-0/DIDL-Lite/}DIDL-Lite"
                      [] EmptyString []));
                ("UpdateID", Py.str_int update);
                ("TotalMatches", "0");
                ("NumberReturned", "0") ])).
Proof.
  intros S. unfold do_browse. rewrite object, window. cbn [Py.bind].
  unfold Object.__getitem__, Object.__len__.
  rewrite (no_children h element p path S). cbn [Py.bind].
  rewrite slice_nil. reflexivity.
Qed.


(** X15.  Browsing a regular file is answered like browsing an empty
    directory: a response with an empty DIDL document, zero for both
    totals and the file's modification time as UpdateID. *)
Theorem browse_item (f : http_.File) (m : Z) :
  host.stat h p = Some (host.Regular f m) ->
  do_browse h r self
  = Py.Ok (media.call_send_template (command self ++ "-response") http_.OK
             [ ("Result",
                xml_.serialize (host.tostring h)
                  (xml_.Elem
                     "{urn:schemas-upnp-org:metadata-1-0/DIDL-Lite/}DIDL-Lite"
                     [] EmptyString []));
               ("UpdateID",
                Py.str_int (if __eq__ p (host.media h) then host.now h else m));
               ("TotalMatches", "0");
               ("NumberReturned", "0") ]).
Proof.
  intros S. rewrite do_browse_childless by (intros m' es; rewrite S; discriminate).
  destruct (browse_object_built h r self element object) as (id & E).
  unfold Object.update. rewrite path. cbn [Py.bind].
  rewrite E at 1. cbn [Object.__init__ Object.root].
  destruct (__eq__ p (host.media h)); [reflexivity|]. now rewrite S.
Qed.

End Browse.


Lemma browse_item_witness :
  let h := Example.machine (Example.browse "/a.mp4" "0" "10") in
  let r := Example.post (Example.content_directory ++ "#Browse") in
  let self := {| service := Example.content_directory;
                 command := "browse";
                 data := Example.browse "/a.mp4" "0" "10" |} in
  parse_request h r = Py.Ok (inl self)
  /\ do_browse h r self
     = Py.Ok (media.call_send_template "browse-response" http_.OK
                [ ("Result",
                   "{urn:schemas-upnp-org:metadata-1-0/DIDL-Lite/}DIDL-Lite");
                  ("UpdateID", "7"); ("TotalMatches", "0");
                  ("NumberReturned", "0") ]).
Proof.
  intros h r self. split; [reflexivity|].
  exact (browse_item h r self
           (Object.__init__ (host.media h) "http://10.0.0.1:8200/media"
              "/a.mp4" "browse")
           (0, 10) (pathlib.parse_parts ["/srv/media/a.mp4"])
           eq_refl eq_refl eq_refl Example.a_mp4 7 eq_refl).
Defined.

End SoapFacts.

(** ** Requests that go wrong ([soap.Handler.parse_request], [handle]) *)

Module SoapErrors.

Import pathlib PathFacts soap.Handler.

Lemma relative_id_path (top : PurePath) (url id command : string) :
  id <> "0" -> (forall rest, id <> String "/" rest) ->
  Object.path (Object.__init__ top url id command) = Py.Raise Py.ValueError.
Proof.
  intros Z S. unfold Object.path, Object.__init__, IdPath.as_path.
  cbn [Object.id_path Object.root]. unfold IdPath.from_id.
  destruct (String.eqb id "0") eqn:E; [apply String.eqb_eq in E; contradiction|].
  unfold IdPath.cls at 1, parse_parts. cbn [rev app parse_rev].
  assert (R : splitroot id = (EmptyString, id)).
  { destruct id as [|a t]; [reflexivity|]. apply not_sep_first.
    destruct (Ascii.eqb a "/") eqn:A; [|reflexivity].
    apply Ascii.eqb_eq in A. subst a. now elim (S t). }
  rewrite R. cbn [Py.truthy root names app].
  pose proof (rel_names_valid id) as V.
  unfold relative_to, abs_parts. cbn [root names Py.truthy].
  change (abs_parts (IdPath.cls ["/"])) with [EmptyString; "/"].
  change (if Py.truthy (root (IdPath.cls ["/"]))
          then EmptyString :: root (IdPath.cls ["/"]) :: names (IdPath.cls ["/"])
          else names (IdPath.cls ["/"])) with [EmptyString; "/"].
  cbn [List.length Nat.eqb].
  destruct (rel_names id) as [|x ns]; [reflexivity|].
  cbn [forallb] in V. apply andb_true_iff in V as [Vx _].
  destruct (valid_name_parts x Vx) as (T & _).
  destruct x as [|c x]; [discriminate T|].
  destruct ns; reflexivity.
Qed.

(** X16.  An object identifier that is neither ["0"] nor begins with a slash
    names no path: Browse and Search raise [ValueError] for it, and no
    fault is sent. *)
Theorem browse_relative_id (h : host.t) (r : request) (self : t)
        (id : string) (sl : Z * Z) :
  xml_.find_text (data self) "ObjectID" = Py.Ok id ->
  browse_slice self = Py.Ok sl ->
  id <> "0" -> (forall rest, id <> String "/" rest) ->
  do_browse h r self = Py.Raise Py.ValueError
  /\ do_search h r self = Py.Raise Py.ValueError.
Proof.
  intros O W Z S.
  assert (B : do_browse h r self = Py.Raise Py.ValueError).
  { unfold do_browse, browse_object. rewrite O, W. cbn [Py.bind].
    unfold Object.__getitem__, Object.children, Object.__iter__, Object.update,
      Object.__len__.
    rewrite (relative_id_path _ _ id _ Z S).
    cbn [Object.command Object.__init__].
    destruct (String.eqb (command self) "browse"); [reflexivity|].
    destruct (String.eqb (command self) "search"); [reflexivity|].
    cbn [Object.select Py.bind]. rewrite SoapFacts.slice_nil. reflexivity. }
  split; [exact B|exact B].
Qed.

Lemma browse_relative_id_witness :
  let h := Example.machine (Example.browse "a.mp4" "0" "10") in
  let r := Example.post (Example.content_directory ++ "#Browse") in
  let self := {| service := Example.content_directory;
                 command := "browse";
                 data := Example.browse "a.mp4" "0" "10" |} in
  parse_request h r = Py.Ok (inl self)
  /\ do_browse h r self = Py.Raise Py.ValueError.
Proof.
  intros h r self. split; [reflexivity|].
  apply (browse_relative_id h r self "a.mp4" (0, 10) eq_refl eq_refl).
  - discriminate.
  - intros rest. discriminate.
Defined.

Lemma lstrip_chars (s : string) (c : ascii) :
  In c (list_ascii_of_string (lstrip_quote s)) -> In c (list_ascii_of_string s).
Proof.
  induction s as [|a t IH]; [auto|].
  destruct (Ascii.eqb a "034") eqn:E.
  - apply Ascii.eqb_eq in E. subst a. cbn [lstrip_quote list_ascii_of_string].
    intros I. right. auto.
  - destruct a as [[] [] [] [] [] [] [] []]; try discriminate E; auto.
Qed.

Lemma rstrip_chars (s : string) (c : ascii) :
  In c (list_ascii_of_string (rstrip_quote s)) -> In c (list_ascii_of_string s).
Proof.
  induction s as [|a t IH]; [auto|]. cbn [rstrip_quote].
  destruct (rstrip_quote t) as [|b u].
  - destruct (Ascii.eqb a "034"); cbn [list_ascii_of_string];
      [intros []|intros [<-|[]]; now left].
  - cbn [list_ascii_of_string] in *. intros [<-|I]; [now left|right; auto].
Qed.

Lemma split_whole (c : ascii) (s : string) :
  ~ In c (list_ascii_of_string s) -> Py.split c s = [s].
Proof.
  induction s as [|a t IH]; [reflexivity|]. cbn [list_ascii_of_string Py.split].
  intros N. destruct (Ascii.eqb a c) eqn:E.
  - apply Ascii.eqb_eq in E. subst a. elim N. now left.
  - rewrite IH; [reflexivity|]. intros I. apply N. now right.
Qed.

Lemma int_raises (s : string) (e : Py.exn) :
  Py.int_ s = Py.Raise e -> e = Py.ValueError.
Proof.
  assert (D : forall d, Py.int_digits d = Py.Raise e -> e = Py.ValueError).
  { intros d. unfold Py.int_digits. destruct (Py.truthy d); [|congruence].
    destruct (NilEmpty.uint_of_string d); [discriminate|congruence]. }
  unfold Py.int_. destruct s as [|c t]; [apply D|].
  destruct c as [[] [] [] [] [] [] [] []]; try apply D.
  destruct (Py.int_digits t) eqn:I; cbn [Py.bind]; [discriminate|].
  intros [= <-]. now apply (D t).
Qed.

(** X17.  The SOAPACTION header.  When its value holds no [#], the handler
    raises [ValueError] before it looks at the body, and nothing is sent.
    When the header is absent it is read as the empty action of the empty
    service: a body that parses is then answered with the fault
    INVALID_ACTION. *)
Theorem soap_action_header (h : host.t) (r : request) :
  (forall v,
     http_.headers_find (headers r) soap.Header.SOAP_ACTION = Some v ->
     ~ In "#"%char (list_ascii_of_string v) ->
     handle h r = Py.Raise Py.ValueError)
  /\ (forall size data,
        http_.headers_find (headers r) soap.Header.SOAP_ACTION = None ->
        match http_.headers_find (headers r) http_.Header.CONTENT_LENGTH with
        | Some s => Py.int_ s
        | None => Py.Ok 0
        end = Py.Ok size ->
        host.fromstring h (read (rfile r) size) = Some data ->
        handle h r = Py.Ok (send_error soap.Status.INVALID_ACTION)).
Proof.
  split.
  - intros v F N. unfold handle, parse_request, http_.headers_get. rewrite F.
    rewrite (split_whole "#" (rstrip_quote (lstrip_quote v)))
      by (intros I; apply N; now apply lstrip_chars, rstrip_chars).
    destruct (match http_.headers_find (headers r) http_.Header.CONTENT_LENGTH with
              | Some s => Py.int_ s
              | None => Py.Ok 0
              end) as [size|e] eqn:L; cbn [Py.bind]; [reflexivity|].
    destruct (http_.headers_find (headers r) http_.Header.CONTENT_LENGTH);
      [|discriminate L].
    now rewrite (int_raises _ _ L).
  - intros size data F L P. unfold handle, parse_request, http_.headers_get.
    rewrite F, L. cbn [Py.bind].
    change (Py.split "#" (rstrip_quote (lstrip_quote "#")))
      with [EmptyString; EmptyString].
    cbv iota. change (net.safe_identifier EmptyString) with EmptyString.
    rewrite P. reflexivity.
Qed.



End SoapErrors.

(** ** Packed addresses ([ssdp.Address._pack]) *)

Module PackFacts.

Import ssdp ssdp.Address DictFacts.

Lemma split_cons (c : ascii) (s : string) :
  exists w ws, Py.split c s = w :: ws.
Proof.
  induction s as [|a t (w & ws & IH)]; cbn [Py.split]; [eauto|].
  destruct (Ascii.eqb a c); [eauto|]. rewrite IH. eauto.
Qed.

Lemma join_head (sep : string) (a : ascii) (w : string) (ws : list string) :
  Py.join sep (String a w :: ws) = String a (Py.join sep (w :: ws)).
Proof. destruct ws; reflexivity. Qed.

(** Splitting at a character and joining with it gives the text back. *)
Lemma join_split (c : ascii) (s : string) :
  Py.join (String c EmptyString) (Py.split c s) = s.
Proof.
  induction s as [|a t IH]; [reflexivity|]. cbn [Py.split].
  destruct (split_cons c t) as (w & ws & E). rewrite E in *.
  destruct (Ascii.eqb a c) eqn:A.
  - apply Ascii.eqb_eq in A. subst a.
    change (Py.join (String c EmptyString) (EmptyString :: w :: ws))
      with (String c (Py.join (String c EmptyString) (w :: ws))).
    now rewrite IH.
  - now rewrite join_head, IH.
Qed.

Lemma unorm_canonical (d : Decimal.uint) :
  match d with
  | Decimal.Nil => False
  | Decimal.D0 (Decimal.D0 _ | Decimal.D1 _ | Decimal.D2 _ | Decimal.D3 _
               | Decimal.D4 _ | Decimal.D5 _ | Decimal.D6 _ | Decimal.D7 _
               | Decimal.D8 _ | Decimal.D9 _) => False
  | _ => True
  end ->
  Decimal.unorm d = d.
Proof. destruct d as [|[] | | | | | | | | |]; intros H; try reflexivity; elim H. Qed.

(** One octet is read from its canonical decimal text only. *)
Lemma octet_canonical (s : string) (n : Z) :
  octet s = Py.Ok n -> 0 <= n <= 255 /\ Py.str_int n = s.
Proof.
  intros H.
  assert (D : exists d, NilEmpty.uint_of_string s = Some d
                        /\ n = Z.of_uint d /\ n <= 255
                        /\ Py.truthy s = true).
  { unfold octet in H.
    assert (I : match Py.int_digits s with
                | Py.Ok n => if n <=? 255 then Py.Ok n else Py.Raise Py.OSError
                | Py.Raise _ => Py.Raise Py.OSError
                end = Py.Ok n).
    { destruct s as [|c t]; [exact H|].
      destruct t as [|c' t]; destruct c as [[] [] [] [] [] [] [] []];
        try exact H; discriminate H. }
    unfold Py.int_digits in I. destruct (Py.truthy s) eqn:T; [|discriminate I].
    destruct (NilEmpty.uint_of_string s) as [d|]; [|discriminate I].
    destruct (Z.leb_spec (Z.of_uint d) 255); [|discriminate I].
    injection I as <-. eauto. }
  destruct D as (d & U & -> & L & T).
  split; [unfold Z.of_uint in *; lia|].
  pose proof (NilEmpty.sus s d U) as S. subst s.
  unfold Py.str_int.
  change (Z.of_uint d) with (Z.of_int (Decimal.Pos d)).
  rewrite DecimalZ.to_of. cbn [Decimal.norm].
  assert (C : Decimal.unorm d = d).
  { apply unorm_canonical. destruct d as [|d| | | | | | | | |]; try exact I.
    - discriminate T.
    - destruct d; first [exact I | discriminate H]. }
  rewrite C. reflexivity.
Qed.

Lemma inet_aton_quad (a : string) (bs : list Z) :
  inet_aton a = Py.Ok bs ->
  exists n1 n2 n3 n4,
    bs = [n1; n2; n3; n4]
    /\ a = Py.join "." (map Py.str_int bs)
    /\ Forall (fun n => 0 <= n <= 255) bs.
Proof.
  unfold inet_aton. pose proof (join_split "." a) as J.
  destruct (Py.split "." a) as [|a1 [|a2 [|a3 [|a4 [|]]]]]; try discriminate.
  intros H. bind_inv H as n1 E1. bind_inv H as n2 E2. bind_inv H as n3 E3.
  bind_inv H as n4 E4. injection H as <-.
  destruct (octet_canonical _ _ E1) as (R1 & S1).
  destruct (octet_canonical _ _ E2) as (R2 & S2).
  destruct (octet_canonical _ _ E3) as (R3 & S3).
  destruct (octet_canonical _ _ E4) as (R4 & S4).
  exists n1, n2, n3, n4. split; [reflexivity|]. split.
  - cbn [map]. now rewrite S1, S2, S3, S4.
  - repeat constructor; lia.
Qed.

Lemma pack_range (a : string) (p : Z) :
  _pack a = Py.Ok p -> 0 <= p < 2 ^ 32.
Proof.
  unfold _pack. intros H. bind_inv H as bs E. injection H as <-.
  destruct (inet_aton_quad a bs E) as (n1 & n2 & n3 & n4 & -> & _ & F).
  inversion F as [|? ? R1 F1]; subst. inversion F1 as [|? ? R2 F2]; subst.
  inversion F2 as [|? ? R3 F3]; subst. inversion F3 as [|? ? R4 _]; subst.
  unfold from_bytes_big. cbn [fold_left]. change (2 ^ 32) with 4294967296. lia.
Qed.

Lemma pack_injective (a b : string) (p : Z) :
  _pack a = Py.Ok p -> _pack b = Py.Ok p -> a = b.
Proof.
  unfold _pack. intros A B.
  bind_inv A as xs Ea. injection A as A.
  bind_inv B as ys Eb. injection B as B.
  destruct (inet_aton_quad a xs Ea) as (n1 & n2 & n3 & n4 & -> & -> & F).
  destruct (inet_aton_quad b ys Eb) as (m1 & m2 & m3 & m4 & -> & -> & G).
  inversion F as [|? ? R1 F1]; subst. inversion F1 as [|? ? R2 F2]; subst.
  inversion F2 as [|? ? R3 F3]; subst. inversion F3 as [|? ? R4 _]; subst.
  inversion G as [|? ? S1 G1]; subst. inversion G1 as [|? ? S2 G2]; subst.
  inversion G2 as [|? ? S3 G3]; subst. inversion G3 as [|? ? S4 _]; subst.
  unfold from_bytes_big in B. cbn [fold_left] in B.
  assert (n1 = m1 /\ n2 = m2 /\ n3 = m3 /\ n4 = m4) as (-> & -> & -> & ->)
    by lia.
  reflexivity.
Qed.

End PackFacts.

(** ** More on the address book ([ssdp.Address]) *)

Module BookFacts.

Import ssdp ssdp.Address DictFacts AddressFacts PackFacts.

(** X19.  [_pack] takes a dotted quad to a number below 2^32, and no two quads
    to the same number. *)
Theorem pack_one_to_one (a : string) (p : Z) :
  _pack a = Py.Ok p ->
  0 <= p < 2 ^ 32 /\ forall b, _pack b = Py.Ok p -> b = a.
Proof.
  intros A. split; [now apply (pack_range a)|].
  intros b B. now apply (pack_injective b a p).
Qed.

Lemma pack_one_to_one_witness :
  _pack "192.168.1.10" = Py.Ok 3232235786
  /\ 0 <= 3232235786 < 2 ^ 32
  /\ forall b, _pack b = Py.Ok 3232235786 -> b = "192.168.1.10".
Proof.
  split; [reflexivity|].
  exact (pack_one_to_one "192.168.1.10" 3232235786 eq_refl).
Defined.

Lemma select_found (self : t) (a : string) :
  wf self = true -> In a (__iter__ self) -> select self a = Py.Ok a.
Proof.
  intros W I. destruct (book_wf_parts self W) as (N & P).
  destruct (dict_get_in _ a (iter_keys self a I)) as (d & G).
  pose proof (P a d G) as Pa.
  unfold select. rewrite Pa. cbn [Py.bind].
  destruct (keyed_ok self (packed d) (__iter__ self) (iter_keys self))
    as (ks & K & F & Q).
  rewrite K. cbn [Py.bind]. f_equal.
  assert (Ia : In (a, 0) ks).
  { rewrite <- F in I. apply in_map_iff in I as ([x k] & E & I).
    cbn [fst] in E. subst x. destruct (Q a k I) as (d' & G' & ->).
    rewrite G in G'. injection G' as <-. now rewrite Z.lxor_nilpotent in I. }
  destruct ks as [|best rest]; [elim Ia|]. cbn [min_].
  destruct (min_from_spec best rest) as (k & M & L).
  destruct (Q _ _ M) as (dm & Gm & ->).
  pose proof (P _ _ Gm) as Pm.
  assert (Z : Z.lxor (packed dm) (packed d) = 0).
  { pose proof (L _ Ia) as U. cbn [snd] in U.
    pose proof (pack_range _ _ Pm) as Rm. pose proof (pack_range _ _ Pa) as Ra.
    assert (0 <= Z.lxor (packed dm) (packed d)) by (apply Z.lxor_nonneg; lia).
    lia. }
  apply Z.lxor_eq in Z. rewrite Z in Pm.
  exact (pack_injective _ _ _ Pm Pa).
Qed.

(** X20.  A client whose own address is one the book iterates over is given
    that address: nothing is closer to it than itself. *)
Theorem select_own (server : Server.t) (a : string) :
  wf (Server.addresses server) = true ->
  In a (__iter__ (Server.addresses server)) ->
  select (Server.addresses server) a = Py.Ok a
  /\ Server.location_for server a = Py.Ok (Server._replace_location server a)
  /\ In (Server._replace_location server a) (Server.locations server).
Proof.
  intros W I. pose proof (select_found _ a W I) as S.
  split; [exact S|]. split.
  - unfold Server.location_for. now rewrite S.
  - unfold Server.locations. now apply in_map.
Qed.

Lemma select_own_witness :
  select (Server.addresses Example.heard) "10.0.0.5" = Py.Ok "10.0.0.5"
  /\ Server.location_for Example.heard "10.0.0.5"
     = Py.Ok "http://10.0.0.5:8200/device-description.xml"
  /\ In "http://10.0.0.5:8200/device-description.xml"
        (Server.locations Example.heard).
Proof.
  apply (select_own Example.heard "10.0.0.5" eq_refl). cbn. auto.
Defined.

(** X21.  An address that is heard again before its time has run out stays in
    the book: after [add] at [now], an [update] no later than
    [now + timeout] returns a book that still holds it, with that expiry. *)
Theorem heard_stays (now later timeout : Z) (book heard : t) (a : string) :
  Py.distinct (map fst (items book)) = true ->
  own_timeout book = Some timeout ->
  add now book a = Py.Ok heard ->
  later <= now + timeout ->
  exists book' p,
    update later heard = Py.Ok book'
    /\ Py.dict_get (items book') a
       = Some {| Address.timeout := Fin (now + timeout); packed := p |}.
Proof.
  intros D O A L. unfold add in A. bind_inv A as p Ep. injection A as <-.
  destruct (update_spec later
              {| items := Py.dict_set (items book) a
                            {| Address.timeout := plus now (get_timeout book);
                               packed := p |};
                 own_timeout := own_timeout book |})
    as (book' & U & _ & _ & Q).
  { cbn [items]. apply NoDup_distinct, dict_set_nodup. now apply distinct_NoDup. }
  exists book', p. split; [exact U|]. apply Q. cbn [items].
  unfold get_timeout. rewrite O. cbn [plus]. split; [apply dict_set_same|].
  cbn [Address.timeout after]. intros [_ F]. apply Z.ltb_lt in F. lia.
Qed.

Lemma heard_stays_witness :
  let book :=
    {| items := [("192.168.1.10", {| timeout := Inf; packed := 3232235786 |})];
       own_timeout := Some 30 |} in
  exists heard book' p,
    add 200 book "10.0.0.5" = Py.Ok heard
    /\ update 230 heard = Py.Ok book'
    /\ Py.dict_get (items book') "10.0.0.5"
       = Some {| timeout := Fin 230; packed := p |}.
Proof.
  intros book.
  destruct (heard_stays 200 230 30 book
              {| items := [ ("192.168.1.10",
                             {| timeout := Inf; packed := 3232235786 |});
                            ("10.0.0.5",
                             {| timeout := Fin 230; packed := 167772165 |}) ];
                 own_timeout := Some 30 |}
              "10.0.0.5" eq_refl eq_refl eq_refl) as (book' & p & U & G);
    [lia|].
  eexists. exists book', p. split; [reflexivity|]. split; [exact U|exact G].
Defined.

End BookFacts.

(** ** Datagrams ([ssdp.Handler]) *)

Module DatagramFacts.

Import ssdp ssdp.Handler.

Lemma do_name (x y : string) :
  String.eqb ("do_" ++ x) ("do_" ++ y) = true -> x = y.
Proof. intros E. apply String.eqb_eq in E. now injection E. Qed.

(** X22.  What a datagram can do to the server.  No datagram is answered, and
    none changes the targets, the location or the timeouts.  The book
    changes only for a NOTIFY whose USN is one of the server's own, and
    then by the entry of the sender alone, which is set to expire one
    timeout from now. *)
Theorem only_notify_learns (now : Z) (server server' : Server.t)
        (d : datagram) (out : list http_.reply) :
  handle now server d = Py.Ok (server', out) ->
  out = []
  /\ Server.targets server' = Server.targets server
  /\ Server._location server' = Server._location server
  /\ Server.timeout server' = Server.timeout server
  /\ Address.own_timeout (Server.addresses server')
     = Address.own_timeout (Server.addresses server)
  /\ (server' = server
      \/ net.safe_identifier (command d) = "notify"
         /\ (exists usn,
               http_.headers_find (headers d) Header.USN = Some usn
               /\ In usn (map snd (Server.targets server)))
         /\ exists p,
              Address._pack (fst (client_address d)) = Py.Ok p
              /\ Address.items (Server.addresses server')
                 = Py.dict_set (Address.items (Server.addresses server))
                     (fst (client_address d))
                     {| Address.timeout :=
                          Address.plus now
                            (Address.get_timeout (Server.addresses server));
                        Address.packed := p |}).
Proof.
  unfold handle.
  destruct (String.eqb _ "do_notify") eqn:N.
  - apply (do_name _ "notify") in N. unfold do_notify.
    destruct (http_.headers_find (headers d) Header.USN) as [usn|] eqn:U.
    + destruct (existsb (String.eqb usn) (map snd (Server.targets server)))
        eqn:K.
      * unfold Address.add. intros H. bind_inv H as a Ea.
        injection H as <- <-. bind_inv Ea as p Ep. injection Ea as <-. cbn.
        repeat (split; [reflexivity|]). right. split; [exact N|]. split.
        -- exists usn. split; [reflexivity|].
           apply existsb_exists in K as (x & I & E).
           apply String.eqb_eq in E. now subst x.
        -- exists p. auto.
      * intros [= <- <-]. repeat (split; [reflexivity|]). now left.
    + intros [= <- <-]. repeat (split; [reflexivity|]). now left.
  - destruct (String.eqb _ "do_m_search"); unfold do_m_search, do_nop;
      intros [= <- <-]; repeat (split; [reflexivity|]); now left.
Qed.

Lemma only_notify_learns_witness :
  exists server',
    handle 103 Example.heard (Example.own_notify "172.16.0.9")
    = Py.Ok (server', [])
    /\ Server.targets server' = Server.targets Example.heard
    /\ Py.dict_get (Address.items (Server.addresses server')) "172.16.0.9"
       = Some {| Address.timeout := Address.Fin 133;
                 Address.packed := 2886729737 |}.
Proof.
  eexists. split; [reflexivity|].
  destruct (only_notify_learns 103 Example.heard _
              (Example.own_notify "172.16.0.9") [] eq_refl)
    as (_ & T & _).
  split; [exact T|reflexivity].
Defined.

End DatagramFacts.

(** ** The closest address, strictly ([ssdp.Address.select]) *)

Module ClosestFacts.

Import ssdp ssdp.Address DictFacts AddressFacts PackFacts.

Lemma iter_nonempty (self : t) : items self <> [] -> __iter__ self <> [].
Proof.
  intros N. unfold __iter__.
  destruct (Py.dict_has (items self) ANY
            && (1 <? Z.of_nat (List.length (items self))))%bool eqn:C.
  - apply andb_true_iff in C as [_ L]. apply Z.ltb_lt in L.
    pose proof (dict_del_length (items self) ANY) as D.
    intros E. apply (f_equal (@List.length string)) in E.
    rewrite length_map in E. cbn in E. lia.
  - destruct (items self); [congruence|discriminate].
Qed.

(** X23.  In a book that is not empty [select] returns one of the addresses the
    book iterates over, and every other one of them is strictly farther
    from the client: no two entries are equally close, so the answer does
    not depend on the order in which the addresses were heard. *)
Theorem select_strict (self : t) (client a : string) (c : Z) :
  wf self = true ->
  items self <> [] ->
  _pack client = Py.Ok c ->
  select self client = Py.Ok a ->
  In a (__iter__ self)
  /\ forall p a' p',
       _pack a = Py.Ok p ->
       In a' (__iter__ self) -> a' <> a -> _pack a' = Py.Ok p' ->
       Z.lxor p c < Z.lxor p' c.
Proof.
  intros W N C S. destruct (book_wf_parts self W) as (_ & P).
  unfold select in S. rewrite C in S. cbn [Py.bind] in S.
  destruct (keyed_ok self c (__iter__ self) (iter_keys self))
    as (ks & K & F & Q).
  rewrite K in S. cbn [Py.bind] in S. injection S as S.
  destruct ks as [|best rest].
  { exfalso. apply (iter_nonempty self N). now rewrite <- F. }
  cbn [min_] in S. destruct (min_from_spec best rest) as (k & M & L).
  rewrite S in M. destruct (Q _ _ M) as (d & G & ->).
  split.
  - rewrite <- F. change a with (fst (a, Z.lxor (packed d) c)).
    now apply in_map.
  - intros p a' p' Pa I' D Pa'.
    rewrite (P _ _ G) in Pa. injection Pa as <-.
    rewrite <- F in I'. apply in_map_iff in I' as ([x k'] & E & I').
    cbn [fst] in E. subst x. destruct (Q _ _ I') as (d' & G' & ->).
    rewrite (P _ _ G') in Pa'. injection Pa' as <-.
    pose proof (L _ I') as U. cbn [snd] in U.
    assert (X : Z.lxor (packed d) c <> Z.lxor (packed d') c).
    { intros E.
      assert (E' : packed d = packed d').
      { rewrite <- (Z.lxor_0_r (packed d)), <- (Z.lxor_nilpotent c).
        rewrite <- Z.lxor_assoc, E, Z.lxor_assoc, Z.lxor_nilpotent.
        apply Z.lxor_0_r. }
      apply D. apply (pack_injective a' a (packed d)).
      - rewrite E'. now apply P.
      - now apply P. }
    lia.
Qed.

Lemma select_strict_witness :
  let book := Server.addresses Example.heard in
  In "192.168.1.10" (__iter__ book)
  /\ forall p a' p',
       _pack "192.168.1.10" = Py.Ok p ->
       In a' (__iter__ book) -> a' <> "192.168.1.10" -> _pack a' = Py.Ok p' ->
       Z.lxor p 3232235853 < Z.lxor p' 3232235853.
Proof.
  intros book.
  apply (select_strict book "192.168.1.77" "192.168.1.10" 3232235853 eq_refl).
  - discriminate.
  - reflexivity.
  - reflexivity.
Defined.

End ClosestFacts.

(** ** Targets ([ssdp.Server.__init__]) *)

Module TargetsFacts.

Import ssdp DictFacts.

Section Device.

Variable device : string.

Lemma fold_get (services : list string) :
  forall acc s,
    Py.dict_get (fold_left
      (fun d s => Py.dict_set d s (device ++ "::" ++ s)%string)
      services acc) s
    = if existsb (String.eqb s) services
      then Some (device ++ "::" ++ s)%string
      else Py.dict_get acc s.
Proof.
  induction services as [|x r IH]; intros acc s; cbn [fold_left existsb];
    [reflexivity|].
  rewrite IH. destruct (existsb (String.eqb s) r); [now rewrite orb_true_r|].
  rewrite orb_false_r.
  destruct (String.eqb s x) eqn:E.
  - apply String.eqb_eq in E. subst x. apply dict_set_same.
  - apply dict_set_other. intros ->. now rewrite String.eqb_refl in E.
Qed.

Lemma fold_keys (services : list string) :
  forall acc k,
    In k (map fst (fold_left
      (fun d s => Py.dict_set d s (device ++ "::" ++ s)%string)
      services acc))
    <-> In k services \/ In k (map fst acc).
Proof.
  induction services as [|x r IH]; intros acc k; cbn [fold_left In].
  - tauto.
  - rewrite IH. rewrite dict_set_keys.
    split; [intros [?|[?|?]]|intros [[?|?]|?]]; auto.
Qed.

Lemma fold_nodup (services : list string) :
  forall acc,
    NoDup (map fst acc) -> NoDup (map fst (fold_left
      (fun d s => Py.dict_set d s (device ++ "::" ++ s)%string)
      services acc)).
Proof.
  induction services as [|x r IH]; intros acc N; cbn [fold_left]; [exact N|].
  apply IH. now apply dict_set_nodup.
Qed.

(** X24.  The targets of a server.  Each service it was given, and
    [upnp:rootdevice], is announced under the name [device::service]; the
    device itself under its own name; there is no other target, and none
    twice. *)
Theorem init_targets (now : Z) (location : Server.SplitResult)
        (services : list string) (server : Server.t) :
  Server.__init__ now location device services = Py.Ok server ->
  Py.dict_get (Server.targets server) device = Some device
  /\ (forall s, In s (services ++ ["upnp:rootdevice"]) -> s <> device ->
        Py.dict_get (Server.targets server) s
        = Some (device ++ "::" ++ s)%string)
  /\ (forall k, In k (map fst (Server.targets server))
                <-> k = device \/ In k (services ++ ["upnp:rootdevice"]))
  /\ NoDup (map fst (Server.targets server))
  /\ Server.timeout server = 30
  /\ Server._location server = location.
Proof.
  unfold Server.__init__. intros H. bind_inv H as a Ea. injection H as <-.
  cbn [Server.targets Server.timeout Server._location].
  unfold Server.usn_map.
  split; [apply dict_set_same|]. split; [|split; [|split]].
  - intros s I N. rewrite dict_set_other by exact N. rewrite fold_get.
    replace (existsb (String.eqb s) (services ++ ["upnp:rootdevice"]))
      with true; [reflexivity|].
    symmetry. apply existsb_exists. exists s.
    split; [exact I|apply String.eqb_refl].
  - intros k. rewrite dict_set_keys, fold_keys. cbn [map In]. tauto.
  - apply dict_set_nodup, fold_nodup. constructor.
  - auto.
Qed.

End Device.

Lemma init_targets_witness :
  exists server,
    Server.__init__ 100 Example.location "uuid:4d696e69" media.Server.services
    = Py.Ok server
    /\ Py.dict_get (Server.targets server) "uuid:4d696e69" = Some "uuid:4d696e69"
    /\ Py.dict_get (Server.targets server) "upnp:rootdevice"
       = Some "uuid:4d696e69::upnp:rootdevice".
Proof.
  eexists. split; [reflexivity|].
  destruct (init_targets "uuid:4d696e69" 100 Example.location
              media.Server.services _ eq_refl) as (D & S & _).
  split; [exact D|]. apply S; [cbn; auto|discriminate].
Defined.

End TargetsFacts.

(** ** Bursts ([ssdp.C.send_notifies], [send_notify]) *)

Module BurstFacts.

Import ssdp ssdp.C DictFacts.

Lemma for_targets_sound (server : Server.t) (type a : string)
      (addresses targets : list string) (ms : list notify) :
  In a addresses ->
  for_targets server type a targets = Py.Ok ms ->
  List.length ms = List.length targets
  /\ Forall (sound_notify server type addresses) ms.
Proof.
  intros I. revert ms. induction targets as [|t r IH]; cbn [for_targets];
    intros ms H.
  - injection H as <-. split; [reflexivity|constructor].
  - bind_inv H as m Em. bind_inv H as more Er. injection H as <-.
    destruct (IH more eq_refl) as (L & F). cbn [List.length].
    split; [now rewrite L|]. constructor; [|exact F].
    unfold send_notify in Em.
    destruct (Py.dict_get (Server.targets server) t) as [usn|] eqn:G;
      [|discriminate].
    injection Em as <-. exists a, t, usn.
    split; [exact I|]. split; [exact G|]. split; [reflexivity|].
    cbn [fields].
    destruct (String.eqb type Message.ALIVE && negb (String.eqb a Address.ANY))%bool;
      repeat split.
Qed.

Lemma for_addresses_sound (server : Server.t) (type : string)
      (all addresses : list string) (ms : list notify) :
  incl addresses all ->
  for_addresses server type addresses = Py.Ok ms ->
  List.length ms
  = (List.length addresses * List.length (Server.targets server))%nat
  /\ Forall (sound_notify server type all) ms.
Proof.
  revert ms. induction addresses as [|a r IH]; cbn [for_addresses];
    intros ms I H.
  - injection H as <-. split; [reflexivity|constructor].
  - bind_inv H as m Em. bind_inv H as more Er. injection H as <-.
    destruct (for_targets_sound server type a all _ m (I a (or_introl eq_refl)) Em)
      as (L1 & F1).
    destruct (IH more (fun x Hx => I x (or_intror Hx)) eq_refl) as (L2 & F2).
    split.
    + rewrite length_app, L1, L2, length_map. cbn [List.length Nat.mul]. lia.
    + now apply Forall_app.
Qed.

(** X25.  A burst.  Once the book has been aged, every address it iterates
    over gets one NOTIFY per target, and the whole round goes out twice.
    Each NOTIFY leaves from port 50927 of its address and names a target
    with its USN; it carries LOCATION, the server's URL on that very
    address, and CACHE-CONTROL exactly when the burst is an ALIVE and the
    address is not [0.0.0.0]. *)
Theorem burst_messages (now : Z) (server server' : Server.t) (type : string)
        (ms : list notify) :
  send_notifies now server type = Py.Ok (server', ms) ->
  Address.update now (Server.addresses server)
  = Py.Ok (Server.addresses server')
  /\ List.length ms
     = (2 * (List.length (Address.__iter__ (Server.addresses server'))
             * List.length (Server.targets server)))%nat
  /\ Forall (sound_notify server type
               (Address.__iter__ (Server.addresses server'))) ms.
Proof.
  unfold send_notifies. intros H. bind_inv H as a Ea. bind_inv H as once Eo.
  injection H as <- <-. cbn [Server.addresses].
  destruct (for_addresses_sound _ type (Address.__iter__ a) _ once
              (fun x Hx => Hx) Eo) as (L & F).
  cbn [Server.targets] in L. split; [reflexivity|]. split.
  - rewrite length_app, L. lia.
  - apply Forall_app. split; exact F.
Qed.

Lemma burst_messages_witness :
  let r := match send_notifies 120 Example.heard Message.ALIVE with
           | Py.Ok r => r
           | Py.Raise _ => (Example.heard, [])
           end in
  send_notifies 120 Example.heard Message.ALIVE = Py.Ok r
  /\ List.length (snd r) = 20%nat
  /\ Forall (sound_notify Example.heard Message.ALIVE
               ["10.0.0.5"; "192.168.1.10"]) (snd r).
Proof.
  intros r.
  assert (E : send_notifies 120 Example.heard Message.ALIVE
              = Py.Ok (fst r, snd r)) by (vm_compute; reflexivity).
  destruct (burst_messages 120 Example.heard (fst r) Message.ALIVE (snd r) E)
    as (_ & L & F).
  split; [vm_compute; reflexivity|]. split; [vm_compute; reflexivity|].
  exact F.
Defined.

End BurstFacts.

(** ** From hearing to advertising ([do_notify], then [send_notifies]) *)

Module LearningFacts.

Import ssdp DictFacts AddressFacts.

Lemma for_targets_complete (server : Server.t) (type a : string)
      (targets : list string) (ms : list C.notify) (t : string) :
  C.for_targets server type a targets = Py.Ok ms ->
  In t targets ->
  exists m, C.send_notify server t type a = Py.Ok m /\ In m ms.
Proof.
  revert ms. induction targets as [|x r IH]; cbn [C.for_targets]; intros ms H I.
  - elim I.
  - destruct (C.send_notify server x type a) as [m|] eqn:Em; [|discriminate H].
    cbn [Py.bind] in H.
    destruct (C.for_targets server type a r) as [more|] eqn:Er;
      [|discriminate H].
    injection H as <-. destruct I as [->|I].
    + exists m. split; [exact Em|now left].
    + destruct (IH more eq_refl I) as (m' & S & I'). exists m'.
      split; [exact S|now right].
Qed.

Lemma for_addresses_complete (server : Server.t) (type : string)
      (addresses : list string) (ms : list C.notify) (a t : string) :
  C.for_addresses server type addresses = Py.Ok ms ->
  In a addresses ->
  In t (map fst (Server.targets server)) ->
  exists m, C.send_notify server t type a = Py.Ok m /\ In m ms.
Proof.
  revert ms. induction addresses as [|x r IH]; cbn [C.for_addresses];
    intros ms H I T.
  - elim I.
  - destruct (C.for_targets server type x (map fst (Server.targets server)))
      as [m1|] eqn:E1; [|discriminate H].
    cbn [Py.bind] in H.
    destruct (C.for_addresses server type r) as [more|] eqn:Er;
      [|discriminate H].
    injection H as <-. destruct I as [->|I].
    + destruct (for_targets_complete _ _ _ _ _ t E1 T) as (m & S & I').
      exists m. split; [exact S|]. apply in_or_app. now left.
    + destruct (IH more eq_refl I T) as (m & S & I'). exists m.
      split; [exact S|]. apply in_or_app. now right.
Qed.

(** X26.  From hearing to advertising.  When the server hears a NOTIFY that
    bears one of its own USNs, from an address other than [0.0.0.0], an
    ALIVE burst that starts no later than one timeout afterwards carries,
    for every target, a NOTIFY sent from that address with the server's
    URL on that address as LOCATION. *)
Theorem learned_then_advertised (now later timeout : Z)
        (server heard after : Server.t) (d : Handler.datagram)
        (out : list http_.reply) (ms : list C.notify) (usn : string) :
  Py.distinct (map fst (Address.items (Server.addresses server))) = true ->
  Address.own_timeout (Server.addresses server) = Some timeout ->
  net.safe_identifier (Handler.command d) = "notify" ->
  http_.headers_find (Handler.headers d) Header.USN = Some usn ->
  In usn (map snd (Server.targets server)) ->
  fst (Handler.client_address d) <> Address.ANY ->
  Handler.handle now server d = Py.Ok (heard, out) ->
  later <= now + timeout ->
  C.send_notifies later heard Message.ALIVE = Py.Ok (after, ms) ->
  forall t name,
    Py.dict_get (Server.targets server) t = Some name ->
    In {| C.source_address := (fst (Handler.client_address d), 50927);
          C.fields :=
            [ ("HOST", "239.255.255.250:1900");
              ("SERVER", "Ubuntu DLNADOC/1.50 UPnP/1.0 MiniDLNA/1.2.1");
              ("NT", t);
              ("NTS", "ssdp:alive");
              ("USN", name);
              ("CACHE-CONTROL",
               ("max-age=" ++ Py.str_int (Server.timeout server))%string);
              ("LOCATION",
               Server._replace_location server
                 (fst (Handler.client_address d))) ] |} ms.
Proof.
  intros D O N U K A H L S t name G.
  set (a := fst (Handler.client_address d)) in *.
  (* the datagram adds the sender *)
  unfold Handler.handle in H. rewrite N in H.
  change (String.eqb ("do_" ++ "notify") "do_notify") with true in H.
  cbv iota in H. unfold Handler.do_notify in H. rewrite U in H.
  replace (existsb (String.eqb usn) (map snd (Server.targets server)))
    with true in H
    by (symmetry; apply existsb_exists; exists usn;
        split; [exact K|apply String.eqb_refl]).
  fold a in H. unfold Address.add in H.
  destruct (Address._pack a) as [p|] eqn:P; [|discriminate H].
  cbn [Py.bind] in H. injection H as <- _.
  (* the burst ages the book, which keeps the sender *)
  unfold C.send_notifies in S. cbn [Server.addresses] in S.
  set (book := {| Address.items := _; Address.own_timeout := _ |}) in S.
  destruct (update_spec later book) as (book' & E & _ & _ & Q).
  { cbn [book Address.items]. apply NoDup_distinct, dict_set_nodup.
    now apply distinct_NoDup. }
  rewrite E in S. cbn [Py.bind Server.timeout Server._location Server.targets] in S.
  assert (I : In a (Address.__iter__ book')).
  { apply iter_real_key; [|exact A].
    apply (dict_get_some_in _ a
             {| Address.timeout := Address.Fin (now + timeout);
                Address.packed := p |}).
    apply Q. cbn [book Address.items]. unfold Address.get_timeout. rewrite O.
    cbn [Address.plus]. split; [apply dict_set_same|].
    cbn [Address.timeout Address.after]. intros [_ F].
    apply Z.ltb_lt in F. lia. }
  destruct (C.for_addresses _ Message.ALIVE (Address.__iter__ book'))
    as [once|] eqn:Eo; [|discriminate S].
  cbn [Py.bind] in S. injection S as _ <-.
  destruct (for_addresses_complete _ _ _ _ a t Eo I) as (m & M & Im).
  { cbn [Server.targets]. eapply dict_get_some_in; eauto. }
  apply in_or_app. left.
  unfold C.send_notify in M. cbn [Server.targets Server.timeout] in M.
  rewrite G in M.
  change (String.eqb Message.ALIVE Message.ALIVE) with true in M.
  replace (String.eqb a Address.ANY) with false in M
    by (symmetry; now apply String.eqb_neq).
  cbn [andb negb] in M. injection M as <-. exact Im.
Qed.

Lemma learned_then_advertised_witness :
  let d := Example.own_notify "172.16.0.9" in
  let heard := match Handler.handle 103 Example.heard d with
               | Py.Ok r => fst r
               | Py.Raise _ => Example.heard
               end in
  let ms := match C.send_notifies 120 heard Message.ALIVE with
            | Py.Ok r => snd r
            | Py.Raise _ => []
            end in
  In {| C.source_address := ("172.16.0.9", 50927);
        C.fields :=
          [ ("HOST", "239.255.255.250:1900");
            ("SERVER", "Ubuntu DLNADOC/1.50 UPnP/1.0 MiniDLNA/1.2.1");
            ("NT", "upnp:rootdevice");
            ("NTS", "ssdp:alive");
            ("USN", "uuid:4d696e69::upnp:rootdevice");
            ("CACHE-CONTROL", "max-age=30");
            ("LOCATION", "http://172.16.0.9:8200/device-description.xml") ] |}
     ms.
Proof.
  intros d heard ms.
  pose (after := match C.send_notifies 120 heard Message.ALIVE with
                 | Py.Ok r => fst r
                 | Py.Raise _ => heard
                 end).
  assert (H : Handler.handle 103 Example.heard d = Py.Ok (heard, []))
    by (vm_compute; reflexivity).
  assert (S : C.send_notifies 120 heard Message.ALIVE = Py.Ok (after, ms))
    by (vm_compute; reflexivity).
  apply (learned_then_advertised 103 120 30 Example.heard heard after d [] ms
           "uuid:4d696e69::upnp:rootdevice" eq_refl eq_refl eq_refl eq_refl);
    try assumption.
  - cbn. auto 10.
  - discriminate.
  - lia.
  - reflexivity.
Defined.

End LearningFacts.

(** ** Multicast membership ([net.ip_membership]) *)

Module MembershipFacts.

Import ssdp.Address PackFacts.


End MembershipFacts.

(** ** Shutting down ([ssdp.C.serve_forever], [shutdown]) *)

Module ShutdownFacts.

Import ssdp ssdp.Run DictFacts.

Lemma burst_sends (now : Z) (type : string) (next : pc) (s : state) :
  Py.distinct (map fst (Address.items (Server.addresses (server s)))) = true ->
  exists s',
    burst now type next s = Py.Ok s'
    /\ at_ s' = next
    /\ shutdown_request s' = shutdown_request s
    /\ map fst (sent s') = map fst (sent s) ++ [type]
    /\ Py.distinct (map fst (Address.items (Server.addresses (server s')))) = true.
Proof.
  intros D. unfold burst.
  destruct (NotifierFacts.send_notifies_returns now (server s) type D)
    as (server' & ms & -> & D').
  cbn [Py.bind]. eexists. split; [reflexivity|]. cbn.
  rewrite map_app. auto.
Qed.

(** X28.  Once shutdown has been requested, four steps of the notifier, at
    whatever times they are taken, leave it shut down; what it sends on
    the way is what is left of one pass: the opening BYE when it had not
    sent it yet, one ALIVE burst when it had not entered the wait, and the
    closing BYE. *)
Theorem shutdown_completes (s : state) (t1 t2 t3 t4 : Z) :
  Py.distinct (map fst (Address.items (Server.addresses (server s)))) = true ->
  shutdown_request s = true ->
  exists s',
    run s [Tick t1; Tick t2; Tick t3; Tick t4] = Py.Ok s'
    /\ at_ s' = ShutDown
    /\ map fst (sent s')
       = map fst (sent s)
         ++ match at_ s with
            | Started => [Message.BYE; Message.ALIVE; Message.BYE]
            | Looping => [Message.ALIVE; Message.BYE]
            | Waiting | Leaving => [Message.BYE]
            | ShutDown => []
            end.
Proof.
  intros D Q.
  assert (Stay : forall s0 ticks,
             at_ s0 = ShutDown -> Forall (fun e => exists t, e = Tick t) ticks ->
             run s0 ticks = Py.Ok s0).
  { intros s0 ticks A F. induction F as [|e r (t & ->) _ IH]; [reflexivity|].
    cbn [run step]. now rewrite A. }
  assert (Leave : forall s0 t ticks,
             Py.distinct
               (map fst (Address.items (Server.addresses (server s0)))) = true ->
             at_ s0 = Leaving ->
             Forall (fun e => exists t, e = Tick t) ticks ->
             exists s', run s0 (Tick t :: ticks) = Py.Ok s'
                        /\ at_ s' = ShutDown
                        /\ map fst (sent s') = map fst (sent s0) ++ [Message.BYE]).
  { intros s0 t ticks D0 A F. cbn [run step]. rewrite A.
    destruct (burst_sends t Message.BYE ShutDown s0 D0) as (s1 & -> & A1 & _ & T1 & _).
    cbn [Py.bind]. rewrite (Stay s1 ticks A1 F). eauto. }
  assert (Wait : forall s0 t t' ticks,
             Py.distinct
               (map fst (Address.items (Server.addresses (server s0)))) = true ->
             at_ s0 = Waiting -> shutdown_request s0 = true ->
             Forall (fun e => exists t, e = Tick t) ticks ->
             exists s', run s0 (Tick t :: Tick t' :: ticks) = Py.Ok s'
                        /\ at_ s' = ShutDown
                        /\ map fst (sent s') = map fst (sent s0) ++ [Message.BYE]).
  { intros s0 t t' ticks D0 A Q0 F.
    change (run s0 (Tick t :: Tick t' :: ticks))
      with (s1 <- step s0 (Tick t) ;; run s1 (Tick t' :: ticks)).
    cbn [step]. rewrite A, Q0. cbn [Py.bind].
    destruct (Leave {| at_ := Leaving; server := server s0;
                       shutdown_request := true; sent := sent s0 |}
                t' ticks D0 eq_refl F) as (s' & R & A' & T').
    exists s'. auto. }
  assert (Loop : forall s0 t t' t'' ticks,
             Py.distinct
               (map fst (Address.items (Server.addresses (server s0)))) = true ->
             at_ s0 = Looping -> shutdown_request s0 = true ->
             Forall (fun e => exists t, e = Tick t) ticks ->
             exists s', run s0 (Tick t :: Tick t' :: Tick t'' :: ticks) = Py.Ok s'
                        /\ at_ s' = ShutDown
                        /\ map fst (sent s')
                           = map fst (sent s0) ++ [Message.ALIVE; Message.BYE]).
  { intros s0 t t' t'' ticks D0 A Q0 F.
    change (run s0 (Tick t :: Tick t' :: Tick t'' :: ticks))
      with (s1 <- step s0 (Tick t) ;; run s1 (Tick t' :: Tick t'' :: ticks)).
    cbn [step]. rewrite A.
    destruct (burst_sends t Message.ALIVE Waiting s0 D0)
      as (s1 & -> & A1 & Q1 & T1 & D1).
    cbn [Py.bind]. rewrite Q0 in Q1.
    destruct (Wait s1 t' t'' ticks D1 A1 Q1 F) as (s' & R & A' & T').
    exists s'. split; [exact R|]. split; [exact A'|].
    now rewrite T', T1, <- app_assoc. }
  assert (T : forall l, Forall (fun e => exists t, e = Tick t) (map Tick l)).
  { intros l. apply Forall_forall. intros e I.
    apply in_map_iff in I as (t & <- & _). eauto. }
  destruct (at_ s) eqn:A.
  - change (run s [Tick t1; Tick t2; Tick t3; Tick t4])
      with (s1 <- step s (Tick t1) ;; run s1 [Tick t2; Tick t3; Tick t4]).
    cbn [step]. rewrite A.
    destruct (burst_sends t1 Message.BYE Looping s D)
      as (s1 & -> & A1 & Q1 & T1 & D1).
    cbn [Py.bind]. rewrite Q in Q1.
    destruct (Loop s1 t2 t3 t4 [] D1 A1 Q1 (T [])) as (s' & R & A' & T').
    exists s'. split; [exact R|]. split; [exact A'|].
    now rewrite T', T1, <- app_assoc.
  - destruct (Loop s t1 t2 t3 [Tick t4] D A Q (T [t4])) as (s' & R & A' & T').
    eauto.
  - destruct (Wait s t1 t2 [Tick t3; Tick t4] D A Q (T [t3; t4]))
      as (s' & R & A' & T').
    eauto.
  - destruct (Leave s t1 [Tick t2; Tick t3; Tick t4] D A (T [t2; t3; t4]))
      as (s' & R & A' & T').
    eauto.
  - exists s. rewrite app_nil_r. split; [|auto].
    exact (Stay s [Tick t1; Tick t2; Tick t3; Tick t4] A (T [t1; t2; t3; t4])).
Qed.

Lemma shutdown_completes_witness :
  let s := {| at_ := Waiting; server := Example.heard;
              shutdown_request := true;
              sent := [(Message.BYE, []); (Message.ALIVE, [])] |} in
  exists s',
    run s [Tick 130; Tick 131; Tick 132; Tick 133] = Py.Ok s'
    /\ at_ s' = ShutDown
    /\ map fst (sent s') = [Message.BYE; Message.ALIVE; Message.BYE].
Proof.
  intros s.
  exact (shutdown_completes s 130 131 132 133 eq_refl eq_refl).
Defined.

End ShutdownFacts.
